(** * Access resolution of the FHIR HMIS backend

    A shallow embedding of [src/middleware/auth.ts] (the [preHandler] hook
    installed by [authMiddleware]), of the two [server.jwt.sign] call sites
    of the authentication routes, and of the patient search handler of
    [src/routes/patients.ts], over an explicit model of the tables they touch
    ([users], [user_organization_access], [organizations], [patients] of
    [prisma/schema.prisma]).

    Conventions.
    - A JavaScript value of type [string | null | undefined] is an
      [option string]; [null] and [undefined] are both [None].  The empty
      string is a value and is falsy, as in JavaScript.
    - An [await server.prisma...] call is one atomic operation on the store.
      A call may throw before it reaches the store (lost connection, ...):
      the record [Faults] says which calls do, and with which message.
    - Columns no statement below reads ([createdAt], [updatedAt],
      [permissions], [lastLogin]) are left out of the rows. *)

From stdpp Require Import base strings list gmap.

Open Scope string_scope.
Open Scope list_scope.

(** ** JavaScript strings and values *)

(** [s.startsWith(p)]. *)
Fixpoint startsWith (s p : string) {struct p} : bool :=
  match p with
  | EmptyString => true
  | String c p' =>
      match s with
      | EmptyString => false
      | String d s' => if Ascii.eqb c d then startsWith s' p' else false
      end
  end.

(** [s.includes(p)]: [p] occurs somewhere in [s]. *)
Fixpoint includes (s p : string) : bool :=
  startsWith s p ||
  match s with
  | EmptyString => false
  | String _ s' => includes s' p
  end.

(** The suffix of [s] from index [n] on. *)
Fixpoint dropString (n : nat) (s : string) : string :=
  match n, s with
  | O, _ => s
  | S _, EmptyString => EmptyString
  | S n', String _ s' => dropString n' s'
  end.

(** [s.replace(p, r)] with a string pattern: only the first occurrence of
    [p] is replaced. *)
Fixpoint replace (s p r : string) : string :=
  if startsWith s p then r +:+ dropString (String.length p) s
  else match s with
       | EmptyString => EmptyString
       | String c s' => String c (replace s' p r)
       end.

(** Truthiness of a [string | null | undefined]. *)
Definition truthy (v : option string) : bool :=
  match v with
  | Some s => negb (String.eqb s "")
  | None => false
  end.

(** [a || b]. *)
Definition js_or (a b : option string) : option string :=
  if truthy a then a else b.

(** [xs.includes(x)] on an array of strings. *)
Definition array_includes (xs : list string) (x : string) : bool :=
  existsb (String.eqb x) xs.

(** [xs[0]]: [undefined] on the empty array. *)
Definition first (xs : list string) : option string := head xs.

(** ** Tables ([prisma/schema.prisma]) *)

Record UserRow := {
  user_id : string;
  user_email : string;
  user_passwordHash : string;
  user_role : string;
  user_primaryOrganizationId : option string;
  user_active : bool
}.

Record AccessRow := {
  access_id : string;
  access_userId : string;
  access_organizationId : string;
  access_role : string;
  access_status : string
}.

Record OrganizationRow := {
  organization_id : string;
  organization_name : string;
  organization_active : bool
}.

(** A patient with its [PatientOrganization] links
    ([organizationId], [status]). *)
Record PatientRow := {
  patient_id : string;
  patient_organizations : list (string * string)
}.

Record Prisma := {
  users : list UserRow;
  userOrganizationAccess : list AccessRow;
  organizations : list OrganizationRow;
  patients : list PatientRow
}.

(** ** Request, reply and the identity context ([types/auth.ts]) *)

Record Request := {
  url : string;
  method : string;
  authorization : option string;
  x_organization_id : option string
}.

(** [organization: { select: { id, name, active } }] of a loaded access. *)
Record OrganizationRef := {
  ref_id : string;
  ref_name : string;
  ref_active : bool
}.

(** [UserOrganizationAccess] of [types/auth.ts].  The joined organization is
    [None] only for a row whose foreign key dangles, which the schema
    excludes. *)
Record UserOrganizationAccess := {
  uoa_id : string;
  uoa_userId : string;
  uoa_organizationId : string;
  uoa_role : string;
  uoa_status : string;
  uoa_organization : option OrganizationRef
}.

(** [User] of [types/auth.ts]: the context attached to [request.user]. *)
Record User := {
  id : string;
  email : string;
  role : string;
  organizationIds : list string;
  primaryOrganizationId : option string;
  currentOrganizationId : option string;
  organizationAccess : list UserOrganizationAccess
}.

(** The arguments of [createOperationOutcome]. *)
Record OperationOutcome := {
  severity : string;
  issue_code : string;
  diagnostics : string
}.

Definition createOperationOutcome (sev code diag : string) : OperationOutcome :=
  {| severity := sev; issue_code := code; diagnostics := diag |}.

(** How the hook ends. *)
Inductive Outcome :=
| Skipped                                          (* [return;] before any token parsing *)
| Replied (status : nat) (body : OperationOutcome) (* [return reply.code(..).send(..)] *)
| Attached (ctx : User).                           (* [request.user = userContext] *)

Inductive LogLevel := Info | Warn | Error.

Definition LogEntry : Type := LogLevel * string.

(** ** Token codec *)

Record JWTPayload := {
  jwt_userId : string;
  jwt_email : string;
  jwt_role : string
}.

Inductive JwtResult :=
| Decoded (payload : JWTPayload)
| JwtError (code message : string).

(** The object literal handed to [server.jwt.sign]: property name to value. *)
Abbreviation Claims := (gmap string string).

(** What the deployment fixes: [config.api.basePath], [config.jwt.expiresIn],
    the signer and verifier of [server.jwt], [bcrypt.compare] and the
    [cuid()] generator of the store (indexed by the number of rows of the
    table). *)
Record Server := {
  basePath : string;
  expiresIn : string;
  jwt_sign : Claims -> string -> string;
  jwt_verify : string -> JwtResult;
  bcrypt_compare : string -> string -> bool;
  cuid : nat -> string
}.

(** Which store calls of one run of the hook throw before reaching the
    store, and with which [error.message]. *)
Record Faults := {
  findUnique_fault : option string;
  findMany_fault : option string;
  create_fault : string -> option string;   (* by [org.id] *)
  update_fault : option string
}.

Definition noFaults : Faults :=
  {| findUnique_fault := None; findMany_fault := None;
     create_fault := fun _ => None; update_fault := None |}.

(** The result of a store call: the value, or the thrown error's message. *)
Inductive Result (A : Type) :=
| Ok (a : A)
| Throw (message : string).
Arguments Ok {A} a.
Arguments Throw {A} message.

(** ** Store operations *)

(** The user object returned by [findUnique] with its [include]. *)
Record LoadedUser := {
  row : UserRow;
  loaded_access : list UserOrganizationAccess
}.

Definition organizationRefOf (db : Prisma) (oid : string) : option OrganizationRef :=
  match find (fun o => String.eqb (organization_id o) oid) (organizations db) with
  | Some o => Some {| ref_id := organization_id o; ref_name := organization_name o;
                      ref_active := organization_active o |}
  | None => None
  end.

Definition loadAccess (db : Prisma) (a : AccessRow) : UserOrganizationAccess :=
  {| uoa_id := access_id a; uoa_userId := access_userId a;
     uoa_organizationId := access_organizationId a; uoa_role := access_role a;
     uoa_status := access_status a;
     uoa_organization := organizationRefOf db (access_organizationId a) |}.

(** [organizationAccess: { where: { status: "active" }, include: ... }]. *)
Definition activeAccessOf (db : Prisma) (uid : string) : list UserOrganizationAccess :=
  map (loadAccess db)
    (filter (fun a => String.eqb (access_userId a) uid && String.eqb (access_status a) "active" = true)
       (userOrganizationAccess db)).

(** [server.prisma.user.findUnique({ where: { id }, include: ... })]. *)
Definition user_findUnique (db : Prisma) (uid : string) : option LoadedUser :=
  match find (fun u => String.eqb (user_id u) uid) (users db) with
  | Some u => Some {| row := u; loaded_access := activeAccessOf db uid |}
  | None => None
  end.

(** [server.prisma.organization.findMany({ where: { active: true }, select: { id, name } })]. *)
Definition organization_findMany_active (db : Prisma) : list OrganizationRow :=
  filter (fun o => organization_active o = true) (organizations db).

Definition hasAccessRow (db : Prisma) (uid oid : string) : bool :=
  existsb (fun a => String.eqb (access_userId a) uid && String.eqb (access_organizationId a) oid)
    (userOrganizationAccess db).

Definition uniqueViolation : string :=
  "Unique constraint failed on the fields: (`userId`,`organizationId`)".

Definition foreignKeyViolation : string :=
  "Foreign key constraint failed on the field: `user_organization_access`".

(** [server.prisma.userOrganizationAccess.create({ data })]: the row is
    appended unless [@@unique([userId, organizationId])] or one of the two
    foreign keys forbids it. *)
Definition userOrganizationAccess_create (srv : Server) (db : Prisma)
    (uid oid rl st : string) : Result Prisma :=
  if hasAccessRow db uid oid then Throw uniqueViolation
  else if negb (existsb (fun u => String.eqb (user_id u) uid) (users db)
                && existsb (fun o => String.eqb (organization_id o) oid) (organizations db))
  then Throw foreignKeyViolation
  else Ok {| users := users db;
             userOrganizationAccess :=
               userOrganizationAccess db ++
               [{| access_id := cuid srv (length (userOrganizationAccess db));
                   access_userId := uid; access_organizationId := oid;
                   access_role := rl; access_status := st |}];
             organizations := organizations db;
             patients := patients db |}.

Definition setPrimary (uid oid : string) (u : UserRow) : UserRow :=
  if String.eqb (user_id u) uid
  then {| user_id := user_id u; user_email := user_email u;
          user_passwordHash := user_passwordHash u; user_role := user_role u;
          user_primaryOrganizationId := Some oid; user_active := user_active u |}
  else u.

(** [server.prisma.user.update({ where: { id }, data: { primaryOrganizationId } })]. *)
Definition user_update_primary (db : Prisma) (uid oid : string) : Result Prisma :=
  if existsb (fun u => String.eqb (user_id u) uid) (users db)
  then Ok {| users := map (setPrimary uid oid) (users db);
             userOrganizationAccess := userOrganizationAccess db;
             organizations := organizations db;
             patients := patients db |}
  else Throw "Record to update not found.".

(** A store call that may throw before it reaches the store. *)
Definition call {A : Type} (fault : option string) (op : Result A) : Result A :=
  match fault with
  | Some m => Throw m
  | None => op
  end.

(** ** The [preHandler] hook of [authMiddleware] *)

Definition publicRoutes (srv : Server) : list string :=
  [ "/health"; "/metrics"; "/test"; "/debug";
    basePath srv +:+ "/auth/login"; basePath srv +:+ "/auth/register";
    "/docs"; "/docs/static"; "/docs/json"; "/docs/yaml";
    "/docs/uiConfig"; "/docs/initOAuth" ].

Definition isPublicRoute (srv : Server) (u : string) : bool :=
  existsb (fun route => startsWith u route || String.eqb u route) (publicRoutes srv).

(** The condition of the first [if]: Swagger UI static files and debug routes. *)
Definition isStaticOrDebug (u : string) : bool :=
  includes u "/docs/" || includes u "/static/" || startsWith u "/debug".

Definition reply (db : Prisma) (log : list LogEntry) (status : nat)
    (code diag : string) : Prisma * list LogEntry * Outcome :=
  (db, log, Replied status (createOperationOutcome "error" code diag)).

(** The [for (const org of allOrganizations)] loop: one [create] per
    organization, each in its own [try]/[catch]. *)
Fixpoint createAccessForAll (srv : Server) (f : Faults) (uid : string)
    (orgs : list OrganizationRow) (db : Prisma) : Prisma * list LogEntry :=
  match orgs with
  | [] => (db, [])
  | org :: rest =>
      let '(db1, log1) :=
        match call (create_fault f (organization_id org))
                (userOrganizationAccess_create srv db uid (organization_id org) "admin" "active") with
        | Ok db' => (db', [(Info, "Created access")])
        | Throw m =>
            (db, if negb (includes m "Unique constraint")
                 then [(Warn, "Failed to create organization access")]
                 else [])
        end in
      let '(db2, log2) := createAccessForAll srv f uid rest db1 in
      (db2, log1 ++ log2)
  end.

(** [user.organizationAccess = allOrganizations.map(org => ({ id: `temp-${org.id}`, ... }))]. *)
Definition tempAccess (uid : string) (org : OrganizationRow) : UserOrganizationAccess :=
  {| uoa_id := "temp-" +:+ organization_id org; uoa_userId := uid;
     uoa_organizationId := organization_id org; uoa_role := "admin";
     uoa_status := "active";
     uoa_organization := Some {| ref_id := organization_id org;
                                 ref_name := organization_name org;
                                 ref_active := true |} |}.

(** The update of the primary organization inside the self-heal [try]. *)
Definition updatePrimary (f : Faults) (user : LoadedUser)
    (allOrganizations : list OrganizationRow) (db : Prisma)
    : Result (Prisma * list LogEntry) :=
  if negb (truthy (user_primaryOrganizationId (row user)))
     && (0 <? length allOrganizations)%nat
  then match allOrganizations with
       | org0 :: _ =>
           match call (update_fault f)
                   (user_update_primary db (user_id (row user)) (organization_id org0)) with
           | Ok db' => Ok (db', [(Info, "Set primary organization")])
           | Throw m => Throw m
           end
       | [] => Throw "Cannot read properties of undefined (reading 'id')"
       end
  else Ok (db, []).

(** The in-memory state after the self-heal block: the store, the log, the
    [user] object (only its [organizationAccess] is ever reassigned) and the
    local [organizationIds]. *)
Record Healed := {
  healed_db : Prisma;
  healed_log : list LogEntry;
  healed_user : LoadedUser;
  healed_organizationIds : list string
}.

(** Lines 171-244: [organizationIds] and the self-heal of a super admin
    without organization access. *)
Definition selfHeal (srv : Server) (f : Faults) (db : Prisma) (user : LoadedUser) : Healed :=
  let organizationIds := map uoa_organizationId (loaded_access user) in
  if (length organizationIds =? 0)%nat && String.eqb (user_role (row user)) "super_admin"
  then
    let log0 := [(Info, "Super admin has no organization access, granting access to all organizations")] in
    let failed db' log :=
      {| healed_db := db';
         healed_log := log ++ [(Error, "Failed to grant organization access to super admin")];
         healed_user := user; healed_organizationIds := organizationIds |} in
    match call (findMany_fault f) (Ok (organization_findMany_active db)) with
    | Throw _ => failed db log0
    | Ok allOrganizations =>
        let log1 := log0 ++ [(Info, "Found organizations to grant access to")] in
        let '(db1, log2) := createAccessForAll srv f (user_id (row user)) allOrganizations db in
        match updatePrimary f user allOrganizations db1 with
        | Throw _ => failed db1 (log1 ++ log2)
        | Ok (db2, log3) =>
            {| healed_db := db2;
               healed_log := log1 ++ log2 ++ log3
                             ++ [(Info, "Updated organization access for super admin")];
               healed_user :=
                 {| row := row user;
                    loaded_access := map (tempAccess (user_id (row user))) allOrganizations |};
               healed_organizationIds := map organization_id allOrganizations |}
        end
    end
  else {| healed_db := db; healed_log := []; healed_user := user;
          healed_organizationIds := organizationIds |}.

(** Lines 246-249: [header || user.primaryOrganizationId || organizationIds[0]]. *)
Definition selectCurrent (req : Request) (user : LoadedUser)
    (organizationIds : list string) : option string :=
  js_or (js_or (x_organization_id req) (user_primaryOrganizationId (row user)))
        (first organizationIds).

(** [organizationIds.includes(v)] for a [v] that may be [undefined]. *)
Definition includesValue (xs : list string) (v : option string) : bool :=
  match v with
  | Some x => array_includes xs x
  | None => false
  end.

(** Lines 269-277: the [userContext] object. *)
Definition userContext (user : LoadedUser) (organizationIds : list string)
    (current : option string) : User :=
  {| id := user_id (row user); email := user_email (row user);
     role := user_role (row user);
     organizationIds := organizationIds;
     primaryOrganizationId := js_or (user_primaryOrganizationId (row user)) None;
     currentOrganizationId := current;
     organizationAccess := loaded_access user |}.

(** Lines 246-300: selection of the current organization, its validation and
    the construction of the context.  Neither reads the store.  The final
    [if (!request.user)] cannot fire: an object is truthy. *)
Definition validate (req : Request) (user : LoadedUser) (organizationIds : list string)
    : list LogEntry * Outcome :=
  let current := selectCurrent req user organizationIds in
  if truthy current && negb (includesValue organizationIds current)
  then ([(Warn, "No access to organization")],
        Replied 403 (createOperationOutcome "error" "forbidden"
                       "No access to specified organization"))
  else ([(Info, "User context set successfully"); (Info, "Authenticated user")],
        Attached (userContext user organizationIds current)).

Definition attach (req : Request) (h : Healed) : Prisma * list LogEntry * Outcome :=
  let '(log, out) := validate req (healed_user h) (healed_organizationIds h) in
  (healed_db h, healed_log h ++ log, out).

(** Lines 82-123: the reply to a token [server.jwt.verify] rejects. *)
Definition jwtErrorDiagnostics (code message : string) : string :=
  if String.eqb code "FAST_JWT_INVALID_SIGNATURE" then "Invalid token signature"
  else if String.eqb code "FAST_JWT_EXPIRED" then "Token expired"
  else "Token verification failed: " +:+ message.

(** Lines 125-300, once the token is decoded. *)
Definition resolve (srv : Server) (f : Faults) (req : Request) (db : Prisma)
    (decoded : JWTPayload) (log : list LogEntry) : Prisma * list LogEntry * Outcome :=
  let log := log ++ [(Info, "Looking up user in database")] in
  match call (findUnique_fault f) (Ok (user_findUnique db (jwt_userId decoded))) with
  | Throw m =>
      (* the outer [catch] *)
      reply db (log ++ [(Error, "Auth middleware error:")]) 500 "exception"
        ("Authentication error: " +:+ m)
  | Ok None =>
      reply db (log ++ [(Warn, "User not found in database")]) 401 "unauthorized" "User not found"
  | Ok (Some user) =>
      if negb (user_active (row user))
      then reply db (log ++ [(Warn, "User is inactive")]) 401 "unauthorized"
             "User account is inactive"
      else
        let h := selfHeal srv f db user in
        let '(db', log', out) := attach req h in
        (db', log ++ [(Info, "User found")] ++ log', out)
  end.

(** The hook. *)
Definition preHandler (srv : Server) (f : Faults) (req : Request) (db : Prisma)
    : Prisma * list LogEntry * Outcome :=
  if isStaticOrDebug (url req)
  then (db, [(Info, "Skipping auth for static/docs route")], Skipped)
  else if isPublicRoute srv (url req)
  then (db, [(Info, "Public route accessed")], Skipped)
  else
    let log := [(Info, "Auth check")] in
    if negb (truthy (authorization req))
    then reply db (log ++ [(Warn, "Missing authorization header")]) 401 "unauthorized"
           "Missing authorization header"
    else
      let token := replace (default "" (authorization req)) "Bearer " "" in
      if String.eqb token ""
      then reply db (log ++ [(Warn, "Invalid authorization format")]) 401 "unauthorized"
             "Invalid authorization format"
      else
        let log := log ++ [(Info, "Verifying JWT token")] in
        match jwt_verify srv token with
        | JwtError code message =>
            reply db (log ++ [(Error, "JWT verification failed:")]) 401 "unauthorized"
              (jwtErrorDiagnostics code message)
        | Decoded decoded =>
            resolve srv f req db decoded (log ++ [(Info, "Token decoded successfully")])
        end.

(** ** Token issuing ([routes/auth.ts]) *)

(** The object literal of both [server.jwt.sign] calls:
    [{ userId: user.id, email: user.email, role: user.role }]. *)
Definition signedClaims (userId userEmail userRole : string) : Claims :=
  <["userId" := userId]> (<["email" := userEmail]> (<["role" := userRole]> ∅)).

(** One entry of [organizations] in the login reply. *)
Record LoginOrganization := {
  lo_id : option string;
  lo_name : option string;
  lo_role : string
}.

Inductive LoginReply :=
| LoginOk (token : string) (userId userEmail userRole : string)
    (primary : option string) (orgs : list LoginOrganization)
| LoginFailed (status : nat) (body : OperationOutcome).

(** [POST /auth/login] on a store that answers: the handler, from the lookup
    by email to the reply.  ([lastLogin], which the handler updates, is not
    a column of the model.) *)
Definition login (srv : Server) (db : Prisma) (email password : string) : LoginReply :=
  match find (fun u => String.eqb (user_email u) email) (users db) with
  | None => LoginFailed 401 (createOperationOutcome "error" "unauthorized" "Invalid credentials")
  | Some u =>
      if negb (user_active u)
      then LoginFailed 401 (createOperationOutcome "error" "unauthorized" "Invalid credentials")
      else if negb (bcrypt_compare srv password (user_passwordHash u))
      then LoginFailed 401 (createOperationOutcome "error" "unauthorized" "Invalid credentials")
      else
        let token := jwt_sign srv (signedClaims (user_id u) (user_email u) (user_role u))
                       (expiresIn srv) in
        LoginOk token (user_id u) (user_email u) (user_role u)
          (user_primaryOrganizationId u)
          (map (fun a => {| lo_id := ref_id <$> uoa_organization a;
                            lo_name := ref_name <$> uoa_organization a;
                            lo_role := uoa_role a |})
             (activeAccessOf db (user_id u)))
  end.

(** [POST /auth/refresh]: the token signed for [request.user]. *)
Definition refresh (srv : Server) (user : User) : string :=
  jwt_sign srv (signedClaims (id user) (email user) (role user)) (expiresIn srv).

(** ** Patient search ([GET /fhir/Patient], [routes/patients.ts]) *)

(** The [where] clause of lines 36-44:
    [organizations: { some: { organizationId: { in: organizationIds }, status: 'active' } }]. *)
Definition patientInScope (organizationIds : list string) (p : PatientRow) : bool :=
  existsb (fun link => array_includes organizationIds (fst link) && String.eqb (snd link) "active")
    (patient_organizations p).

Inductive SearchReply :=
| Bundle (bundleType : string) (entries : list PatientRow)
| SearchFailed (status : nat) (body : OperationOutcome).

(** The handler on a store that answers: the scope filter, the optional
    [birthdate] condition of the query and the in-memory [name] filter.
    [birthDateIs s] stands for [where.birthDate = new Date(s)]: the test on
    the [birthDate] column, or [None] when [s] does not parse and the date is
    an Invalid Date, which [findMany] refuses, so that the [catch] replies
    500.  [nameMatches] stands for the test on the JSON [name] column. *)
Definition searchPatients (birthDateIs : string -> option (PatientRow -> bool))
    (nameMatches : string -> PatientRow -> bool)
    (user : User) (birthdate name : option string) (db : Prisma) : SearchReply :=
  let birthDate :=
    if truthy birthdate then birthDateIs (default "" birthdate)
    else Some (fun _ => true) in
  match birthDate with
  | None =>
      SearchFailed 500 (createOperationOutcome "error" "exception" "Internal server error")
  | Some onBirthDate =>
      let found :=
        filter (fun p => patientInScope (organizationIds user) p && onBirthDate p = true)
          (patients db) in
      let filteredPatients :=
        if truthy name
        then filter (fun p => nameMatches (default "" name) p = true) found
        else found in
      Bundle "searchset" filteredPatients
  end.

(** ** The hook as a sequence of store calls

    Between two [await]s the hook runs without interruption; every
    [await server.prisma...] is one atomic operation of the store.  A
    [Task] is the hook suspended at such a call, with the local variables
    the rest of the run reads. *)

Inductive Task :=
| AtFindUnique (decoded : JWTPayload)
| AtFindMany (user : LoadedUser)
| AtCreate (user : LoadedUser) (allOrganizations todo : list OrganizationRow)
| AtUpdate (user : LoadedUser) (allOrganizations : list OrganizationRow)
| Done (out : Outcome).

Record Thread := {
  th_faults : Faults;
  th_req : Request;
  th_task : Task
}.

(** The hook up to its first store call. *)
Definition spawn (srv : Server) (f : Faults) (req : Request) : Thread :=
  {| th_faults := f; th_req := req;
     th_task :=
       if isStaticOrDebug (url req) then Done Skipped
       else if isPublicRoute srv (url req) then Done Skipped
       else if negb (truthy (authorization req))
       then Done (Replied 401 (createOperationOutcome "error" "unauthorized"
                                 "Missing authorization header"))
       else
         let token := replace (default "" (authorization req)) "Bearer " "" in
         if String.eqb token ""
         then Done (Replied 401 (createOperationOutcome "error" "unauthorized"
                                   "Invalid authorization format"))
         else match jwt_verify srv token with
              | JwtError code message =>
                  Done (Replied 401 (createOperationOutcome "error" "unauthorized"
                                       (jwtErrorDiagnostics code message)))
              | Decoded decoded => AtFindUnique decoded
              end |}.

(** No self-heal, or its [catch]: the request goes on with what the lookup
    returned. *)
Definition proceed (req : Request) (user : LoadedUser) : Task :=
  Done (validate req user (map uoa_organizationId (loaded_access user))).2.

(** The end of the self-heal [try]. *)
Definition healDone (req : Request) (user : LoadedUser)
    (allOrganizations : list OrganizationRow) : Task :=
  Done (validate req
          {| row := row user;
             loaded_access := map (tempAccess (user_id (row user))) allOrganizations |}
          (map organization_id allOrganizations)).2.

(** After the loop: the update of the primary organization, if it is due. *)
Definition afterLoop (req : Request) (user : LoadedUser)
    (allOrganizations : list OrganizationRow) : Task :=
  if negb (truthy (user_primaryOrganizationId (row user)))
     && (0 <? length allOrganizations)%nat
  then AtUpdate user allOrganizations
  else healDone req user allOrganizations.

(** The loop head. *)
Definition enterLoop (req : Request) (user : LoadedUser)
    (allOrganizations todo : list OrganizationRow) : Task :=
  match todo with
  | [] => afterLoop req user allOrganizations
  | _ :: _ => AtCreate user allOrganizations todo
  end.

(** One store call of a suspended hook, and the run up to the next one. *)
Definition step (srv : Server) (db : Prisma) (th : Thread) : Prisma * Thread :=
  let f := th_faults th in
  let req := th_req th in
  let continue db' task := (db', {| th_faults := f; th_req := req; th_task := task |}) in
  match th_task th with
  | AtFindUnique decoded =>
      match call (findUnique_fault f) (Ok (user_findUnique db (jwt_userId decoded))) with
      | Throw m =>
          continue db (Done (Replied 500 (createOperationOutcome "error" "exception"
                                            ("Authentication error: " +:+ m))))
      | Ok None =>
          continue db (Done (Replied 401 (createOperationOutcome "error" "unauthorized"
                                            "User not found")))
      | Ok (Some user) =>
          if negb (user_active (row user))
          then continue db (Done (Replied 401 (createOperationOutcome "error" "unauthorized"
                                                 "User account is inactive")))
          else if (length (map uoa_organizationId (loaded_access user)) =? 0)%nat
                  && String.eqb (user_role (row user)) "super_admin"
          then continue db (AtFindMany user)
          else continue db (proceed req user)
      end
  | AtFindMany user =>
      match call (findMany_fault f) (Ok (organization_findMany_active db)) with
      | Throw _ => continue db (proceed req user)
      | Ok allOrganizations =>
          continue db (enterLoop req user allOrganizations allOrganizations)
      end
  | AtCreate user allOrganizations todo =>
      match todo with
      | [] => continue db (afterLoop req user allOrganizations)
      | org :: rest =>
          match call (create_fault f (organization_id org))
                  (userOrganizationAccess_create srv db (user_id (row user))
                     (organization_id org) "admin" "active") with
          | Ok db' => continue db' (enterLoop req user allOrganizations rest)
          | Throw _ => continue db (enterLoop req user allOrganizations rest)
          end
      end
  | AtUpdate user allOrganizations =>
      match allOrganizations with
      | org0 :: _ =>
          match call (update_fault f)
                  (user_update_primary db (user_id (row user)) (organization_id org0)) with
          | Ok db' => continue db' (healDone req user allOrganizations)
          | Throw _ => continue db (proceed req user)
          end
      | [] => continue db (proceed req user)
      end
  | Done _ => (db, th)
  end.

(** A single hook run for [n] store calls. *)
Fixpoint runAlone (srv : Server) (n : nat) (s : Prisma * Thread) : Prisma * Thread :=
  match n with
  | O => s
  | S n' => runAlone srv n' (step srv s.1 s.2)
  end.

(** Concurrent requests: the store and the suspended hooks.  The scheduler
    resumes hook [i]; a finished hook, or none, leaves the state as it is. *)
Definition resume (srv : Server) (s : Prisma * list Thread) (i : nat)
    : Prisma * list Thread :=
  match s.2 !! i with
  | Some th => let '(db', th') := step srv s.1 th in (db', <[i := th']> s.2)
  | None => s
  end.

Definition runSchedule (srv : Server) (schedule : list nat) (s : Prisma * list Thread)
    : Prisma * list Thread :=
  fold_left (resume srv) schedule s.

Definition finished (th : Thread) : bool :=
  match th_task th with
  | Done _ => true
  | _ => false
  end.

Definition accessKey (a : AccessRow) : string * string :=
  (access_userId a, access_organizationId a).

(** The rows of the access table for one user and one organization. *)
Definition accessRowsFor (db : Prisma) (uid oid : string) : list AccessRow :=
  filter (fun a => accessKey a = (uid, oid)) (userOrganizationAccess db).

(** ** Intermediate states of the hook *)

(** The [user] object at line 168, when the hook gets there: the request is
    not exempt, its token decodes, the lookup returns an active user. *)
Definition loadedUser (srv : Server) (f : Faults) (req : Request) (db : Prisma)
    : option LoadedUser :=
  match th_task (spawn srv f req) with
  | AtFindUnique decoded =>
      match call (findUnique_fault f) (Ok (user_findUnique db (jwt_userId decoded))) with
      | Ok (Some user) => if user_active (row user) then Some user else None
      | _ => None
      end
  | _ => None
  end.

(** The stored primary organization of a user. *)
Definition storedPrimary (db : Prisma) (uid : string) : option string :=
  match find (fun u => String.eqb (user_id u) uid) (users db) with
  | Some u => user_primaryOrganizationId u
  | None => None
  end.

(** ** The selection rule in the words of the specification

    "Candidate order: request-supplied organization-context header, then the
    identity's primaryOrganizationId, then the first element of
    organizationIds"; a candidate is absent when it is undefined, null or
    the empty string. *)

Definition absent (v : option string) : Prop := v = None \/ v = Some "".

Inductive SelectedFrom (header primary firstId : option string) : option string -> Prop :=
| FromHeader : ~ absent header -> SelectedFrom header primary firstId header
| FromPrimary : absent header -> ~ absent primary ->
    SelectedFrom header primary firstId primary
| FromOrganizationIds : absent header -> absent primary ->
    SelectedFrom header primary firstId firstId.

(** ** A deployment and a store for the examples *)

Definition asciiDigit (n : nat) : string := String (Ascii.ascii_of_nat (48 + n)) "".

(** A toy codec: the token is the user id. *)
Definition demoServer : Server :=
  {| basePath := "/api"; expiresIn := "24h";
     jwt_sign := fun claims _ => default "" (claims !! "userId");
     jwt_verify := fun token =>
       if String.eqb token "forged" then JwtError "FAST_JWT_INVALID_SIGNATURE" "bad signature"
       else Decoded {| jwt_userId := token; jwt_email := token +:+ "@clinic.example";
                       jwt_role := "" |};
     bcrypt_compare := String.eqb;
     cuid := fun n => "c" +:+ asciiDigit n |}.

Definition mkUser (uid rl : string) (primary : option string) : UserRow :=
  {| user_id := uid; user_email := uid +:+ "@clinic.example"; user_passwordHash := "pw";
     user_role := rl; user_primaryOrganizationId := primary; user_active := true |}.

Definition mkOrganization (oid : string) (act : bool) : OrganizationRow :=
  {| organization_id := oid; organization_name := "Clinic " +:+ oid;
     organization_active := act |}.

(** Super admin [A] without access, org admin [B] of [O3], staff [S] without
    access; [O1], [O2], [O3], [O4] active, [O5] inactive. *)
Definition demoDb : Prisma :=
  {| users := [ mkUser "A" "super_admin" None; mkUser "B" "org_admin" (Some "O3");
                mkUser "S" "staff" None; mkUser "P" "super_admin" (Some "O2") ];
     userOrganizationAccess :=
       [ {| access_id := "m1"; access_userId := "B"; access_organizationId := "O3";
            access_role := "admin"; access_status := "active" |} ];
     organizations := [ mkOrganization "O1" true; mkOrganization "O2" true;
                        mkOrganization "O3" true; mkOrganization "O4" true;
                        mkOrganization "O5" false ];
     patients := [ {| patient_id := "p1"; patient_organizations := [("O3", "active")] |} ] |}.

Definition mkRequest (u : string) (token header : option string) : Request :=
  {| url := u; method := "GET";
     authorization := (fun t => "Bearer " +:+ t) <$> token;
     x_organization_id := header |}.

(** The enumeration of the organizations fails. *)
Definition enumerationFails : Faults :=
  {| findUnique_fault := None; findMany_fault := Some "Can't reach database server";
     create_fault := fun _ => None; update_fault := None |}.

(** The same faults, with other faults of the inserts. *)
Definition withCreateFault (f : Faults) (cf : string -> option string) : Faults :=
  {| findUnique_fault := findUnique_fault f; findMany_fault := findMany_fault f;
     create_fault := cf; update_fault := update_fault f |}.

(** The reply of the validation to an organization the caller has no access to. *)
Definition forbidden : Outcome :=
  Replied 403 (createOperationOutcome "error" "forbidden"
                 "No access to specified organization").

(** The user objects the lookup returns on [demoDb]. *)
Definition loadedA : LoadedUser :=
  {| row := mkUser "A" "super_admin" None; loaded_access := [] |}.

Definition loadedB : LoadedUser :=
  {| row := mkUser "B" "org_admin" (Some "O3");
     loaded_access :=
       [ {| uoa_id := "m1"; uoa_userId := "B"; uoa_organizationId := "O3";
            uoa_role := "admin"; uoa_status := "active";
            uoa_organization :=
              Some {| ref_id := "O3"; ref_name := "Clinic O3"; ref_active := true |} |} ] |}.

Definition loadedS : LoadedUser :=
  {| row := mkUser "S" "staff" None; loaded_access := [] |}.

(** ** Concurrent first resolutions *)

(** The store raises nothing of its own accord before the update: a lookup,
    an enumeration or an insert fails only through a constraint. *)
Definition reachesStore (f : Faults) : Prop :=
  findUnique_fault f = None /\ findMany_fault f = None /\
  forall oid, create_fault f oid = None.

(** A hook of the identity [uid] suspended at its lookup. *)
Definition firstResolution (uid : string) (th : Thread) : Prop :=
  reachesStore (th_faults th) /\
  exists decoded, th_task th = AtFindUnique decoded /\ jwt_userId decoded = uid.

(** Every organization of [orgs] has an access row of [uid]. *)
Definition covered (db : Prisma) (uid : string) (orgs : list OrganizationRow) : Prop :=
  forall o, o ∈ orgs -> hasAccessRow db uid (organization_id o) = true.

(** The hook is inside the self-heal, before the end of its loop. *)
Definition healing (t : Task) : Prop :=
  match t with
  | AtFindMany _ | AtCreate _ _ _ => True
  | _ => False
  end.

(** What a suspended hook of [uid] knows, [act] being the active
    organizations: the loop has covered the organizations it went through. *)
Definition taskOk (uid : string) (act : list OrganizationRow) (db : Prisma) (t : Task) : Prop :=
  match t with
  | AtFindUnique decoded => jwt_userId decoded = uid
  | AtFindMany user => user_id (row user) = uid
  | AtCreate user allOrganizations todo =>
      user_id (row user) = uid /\ allOrganizations = act /\ todo <> [] /\
      exists gone, allOrganizations = gone ++ todo /\ covered db uid gone
  | AtUpdate user _ => user_id (row user) = uid /\ covered db uid act
  | Done _ => True
  end.

(** The invariant of the concurrent runs of hooks of the super admin [uid]
    over the organizations of [db0]. *)
Record Invariant (uid : string) (db0 : Prisma) (s : Prisma * list Thread) : Prop := {
  inv_keys : NoDup (map accessKey (userOrganizationAccess s.1));
  inv_organizations : organizations s.1 = organizations db0;
  inv_user : exists u,
      find (fun r => String.eqb (user_id r) uid) (users s.1) = Some u /\
      user_role u = "super_admin" /\ user_active u = true;
  inv_threads :
    Forall (fun th => reachesStore (th_faults th) /\
                      taskOk uid (organization_findMany_active db0) s.1 (th_task th)) s.2;
  inv_progress :
    covered s.1 uid (organization_findMany_active db0)
    \/ (exists i th, s.2 !! i = Some th /\ healing (th_task th))
    \/ (activeAccessOf s.1 uid = [] /\
        exists i th decoded, s.2 !! i = Some th /\ th_task th = AtFindUnique decoded)
}.

(** An upper bound on the store calls a suspended hook still makes, [n]
    being the number of organizations. *)
Definition callsLeft (n : nat) (t : Task) : nat :=
  match t with
  | AtFindUnique _ => 4 + n
  | AtFindMany _ => 3 + n
  | AtCreate _ _ todo => 2 + length todo
  | AtUpdate _ _ => 1
  | Done _ => 0
  end.

(** Two first requests of super admin [A], and an interleaving of their
    store calls. *)
Definition demoPool : list Thread :=
  [ spawn demoServer noFaults (mkRequest "/fhir/Patient" (Some "A") None);
    spawn demoServer noFaults (mkRequest "/fhir/Organization" (Some "A") None) ].

Definition demoSchedule : list nat :=
  [0; 1; 0; 1; 1; 0; 0; 1; 1; 0; 0; 1; 0; 1]%nat.

(** ** Registration ([POST /auth/register], [routes/auth.ts]) *)

Definition emailViolation : string :=
  "Unique constraint failed on the fields: (`email`)".

Definition idViolation : string :=
  "Unique constraint failed on the fields: (`id`)".

(** [server.prisma.user.create({ data })]: the row gets its [cuid()] and is
    appended unless [email] ([@unique]) or [id] ([@id]) is taken. *)
Definition user_create (srv : Server) (db : Prisma) (em hash rl : string)
    (primary : option string) : Result (Prisma * UserRow) :=
  let u := {| user_id := cuid srv (length (users db)); user_email := em;
              user_passwordHash := hash; user_role := rl;
              user_primaryOrganizationId := primary; user_active := true |} in
  if existsb (fun r => String.eqb (user_email r) em) (users db) then Throw emailViolation
  else if existsb (fun r => String.eqb (user_id r) (user_id u)) (users db)
  then Throw idViolation
  else Ok ({| users := users db ++ [u];
              userOrganizationAccess := userOrganizationAccess db;
              organizations := organizations db;
              patients := patients db |}, u).

Inductive RegisterReply :=
| Registered                                        (* 201, "User registered successfully" *)
| RegisterFailed (status : nat) (body : OperationOutcome).

(** The handler on a store that answers; [bcrypt_hash] stands for
    [bcrypt.hash(., config.security.bcryptRounds)]. *)
Definition register (srv : Server) (bcrypt_hash : string -> string) (db : Prisma)
    (em password rl : string) (organizationId : option string)
    : Prisma * RegisterReply :=
  match find (fun u => String.eqb (user_email u) em) (users db) with
  | Some _ =>
      (db, RegisterFailed 409 (createOperationOutcome "error" "conflict" "User already exists"))
  | None =>
      match user_create srv db em (bcrypt_hash password) rl (js_or organizationId None) with
      | Throw _ =>
          (db, RegisterFailed 500
                 (createOperationOutcome "error" "exception" "Internal server error"))
      | Ok (db1, user) =>
          if truthy organizationId
          then
            (* the inner [try]: a failed insert does not fail the registration *)
            match userOrganizationAccess_create srv db1 (user_id user)
                    (default "" organizationId)
                    (if String.eqb rl "super_admin" then "admin" else rl) "active" with
            | Ok db2 => (db2, Registered)
            | Throw _ => (db1, Registered)
            end
          else (db1, Registered)
      end
  end.

(** ** Patient handlers ([routes/patients.ts])

    [request.user] is [None] when the hook returned without attaching a
    context: reading a property of it throws inside the handler's [try], and
    the [catch] replies 500.  The handlers are taken on a store that
    answers. *)

Inductive PatientReply :=
| PatientSent (status : nat) (p : PatientRow)      (* [transformPatientFromDB(patient)] *)
| PatientInformation (status : nat) (diag : string)
| PatientFailed (status : nat) (body : OperationOutcome).

Definition internalServerError : OperationOutcome :=
  createOperationOutcome "error" "exception" "Internal server error".

Definition patientNotFound : OperationOutcome :=
  createOperationOutcome "error" "not-found" "Patient not found".

(** [GET /fhir/Patient] with the [request.user] the hook left. *)
Definition searchPatientsHandler (birthDateIs : string -> option (PatientRow -> bool))
    (nameMatches : string -> PatientRow -> bool) (reqUser : option User) (birthdate name : option string) (db : Prisma) : SearchReply :=
  match reqUser with
  | None => SearchFailed 500 internalServerError
  | Some user => searchPatients birthDateIs nameMatches user birthdate name db
  end.

(** [server.prisma.patient.findFirst({ where: { id, organizations: { some: ... } } })]. *)
Definition patient_findFirst_inScope (db : Prisma) (pid : string)
    (organizationIds : list string) : option PatientRow :=
  find (fun p => String.eqb (patient_id p) pid && patientInScope organizationIds p)
    (patients db).

(** [GET /fhir/Patient/:id]. *)
Definition getPatient (reqUser : option User) (pid : string) (db : Prisma) : PatientReply :=
  match reqUser with
  | None => PatientFailed 500 internalServerError
  | Some user =>
      match patient_findFirst_inScope db pid (organizationIds user) with
      | Some p => PatientSent 200 p
      | None => PatientFailed 404 patientNotFound
      end
  end.

(** [server.prisma.patient.create({ data })]: the new row has no link yet. *)
Definition patient_create (srv : Server) (db : Prisma) : Result (Prisma * PatientRow) :=
  let p := {| patient_id := cuid srv (length (patients db)); patient_organizations := [] |} in
  if existsb (fun r => String.eqb (patient_id r) (patient_id p)) (patients db)
  then Throw idViolation
  else Ok ({| users := users db; userOrganizationAccess := userOrganizationAccess db;
              organizations := organizations db; patients := patients db ++ [p] |}, p).

Definition hasPatientLink (db : Prisma) (pid oid : string) : bool :=
  existsb (fun p => String.eqb (patient_id p) pid
                    && existsb (fun l => String.eqb (fst l) oid) (patient_organizations p))
    (patients db).

Definition addPatientLink (pid oid : string) (p : PatientRow) : PatientRow :=
  if String.eqb (patient_id p) pid
  then {| patient_id := patient_id p;
          patient_organizations := patient_organizations p ++ [(oid, "active")] |}
  else p.

(** [server.prisma.patientOrganization.create({ data })] with the default
    [status] "active": refused for a missing [organizationId], by the two
    foreign keys and by [@@unique([patientId, organizationId])]. *)
Definition patientOrganization_create (db : Prisma) (pid : string) (oid : option string)
    : Result Prisma :=
  match oid with
  | None => Throw "Argument `organizationId` is missing."
  | Some o =>
      if negb (existsb (fun p => String.eqb (patient_id p) pid) (patients db)
               && existsb (fun r => String.eqb (organization_id r) o) (organizations db))
      then Throw "Foreign key constraint failed on the field: `patient_organizations`"
      else if hasPatientLink db pid o
      then Throw "Unique constraint failed on the fields: (`patientId`,`organizationId`)"
      else Ok {| users := users db; userOrganizationAccess := userOrganizationAccess db;
                 organizations := organizations db;
                 patients := map (addPatientLink pid o) (patients db) |}
  end.

(** [POST /fhir/Patient]: the patient, then its link to the current
    organization; the two inserts are not one transaction. *)
Definition createPatient (srv : Server) (reqUser : option User) (db : Prisma)
    : Prisma * PatientReply :=
  match reqUser with
  | None => (db, PatientFailed 500 internalServerError)
  | Some user =>
      match patient_create srv db with
      | Throw _ => (db, PatientFailed 500 internalServerError)
      | Ok (db1, p) =>
          match patientOrganization_create db1 (patient_id p) (currentOrganizationId user) with
          | Throw _ => (db1, PatientFailed 500 internalServerError)
          | Ok db2 => (db2, PatientSent 201 p)
          end
      end
  end.

(** [POST /fhir/Patient/:id/assign-organization]. *)
Definition assignOrganization (reqUser : option User) (pid oid : string) (db : Prisma)
    : Prisma * PatientReply :=
  match reqUser with
  | None => (db, PatientFailed 500 internalServerError)
  | Some user =>
      if negb (array_includes (organizationIds user) oid)
      then (db, PatientFailed 403
                  (createOperationOutcome "error" "forbidden"
                     "No access to target organization"))
      else if hasPatientLink db pid oid
      then (db, PatientFailed 409
                  (createOperationOutcome "error" "conflict"
                     "Patient already assigned to organization"))
      else match patientOrganization_create db pid (Some oid) with
           | Ok db' =>
               (db', PatientInformation 201 "Patient successfully assigned to organization")
           | Throw _ => (db, PatientFailed 500 internalServerError)
           end
  end.

(** What the hook leaves in [request.user]. *)
Definition requestUser (out : Outcome) : option User :=
  match out with
  | Attached ctx => Some ctx
  | _ => None
  end.

(** ** Organization handlers ([routes/organizations.ts]) *)

(** Without [request.user] the first line of a handler raises a TypeError;
    [typeError] is its [error.message], which these handlers put into their
    reply. *)

Inductive OrganizationReply :=
| OrganizationSent (status : nat) (o : OrganizationRow)
| OrganizationFailed (status : nat) (body : OperationOutcome).

Definition insufficientPermissions : OperationOutcome :=
  createOperationOutcome "error" "forbidden" "Insufficient permissions".

(** [GET /fhir/Organization/:id]: the membership test comes before the
    lookup. *)
Definition getOrganization (typeError : string) (reqUser : option User) (oid : string)
    (db : Prisma) : OrganizationReply :=
  match reqUser with
  | None =>
      OrganizationFailed 500
        (createOperationOutcome "error" "exception"
           ("Failed to get organization: " +:+ typeError))
  | Some user =>
      if negb (array_includes (organizationIds user) oid)
      then OrganizationFailed 403
             (createOperationOutcome "error" "forbidden" "No access to specified organization")
      else match find (fun o => String.eqb (organization_id o) oid) (organizations db) with
           | Some o => OrganizationSent 200 o
           | None => OrganizationFailed 404
                       (createOperationOutcome "error" "not-found" "Organization not found")
           end
  end.

(** [request.user.organizationAccess.some(access => access.organizationId === id
    && ["admin", "super_admin"].includes(access.role))]. *)
Definition hasAdminAccess (user : User) (oid : string) : bool :=
  existsb (fun a => String.eqb (uoa_organizationId a) oid
                    && array_includes ["admin"; "super_admin"] (uoa_role a))
    (organizationAccess user).

Definition setOrganization (oid name : string) (act : bool) (o : OrganizationRow)
    : OrganizationRow :=
  if String.eqb (organization_id o) oid
  then {| organization_id := organization_id o; organization_name := name;
          organization_active := act |}
  else o.

(** [server.prisma.organization.update({ where: { id }, data })]; of
    [transformOrganizationToDB] the model keeps [name] and [active]. *)
Definition organization_update (db : Prisma) (oid name : string) (act : bool)
    : Result (Prisma * OrganizationRow) :=
  match find (fun o => String.eqb (organization_id o) oid) (organizations db) with
  | None => Throw "Record to update not found."
  | Some o =>
      Ok ({| users := users db; userOrganizationAccess := userOrganizationAccess db;
             organizations := map (setOrganization oid name act) (organizations db);
             patients := patients db |},
          setOrganization oid name act o)
  end.

(** [PUT /fhir/Organization/:id], with [name: body.name || ''] and
    [active: body.active ?? true]; [fault] is what the store raises over the
    columns the model leaves out (the unique [identifier]). *)
Definition updateOrganization (typeError : string) (reqUser : option User)
    (fault : option string) (oid : string) (name : option string) (act : option bool)
    (db : Prisma) : Prisma * OrganizationReply :=
  match reqUser with
  | None =>
      (db, OrganizationFailed 500
             (createOperationOutcome "error" "exception"
                ("Failed to update organization: " +:+ typeError)))
  | Some user =>
      if negb (hasAdminAccess user oid)
      then (db, OrganizationFailed 403 insufficientPermissions)
      else
        match call fault (organization_update db oid (default "" (js_or name (Some "")))
                            (default true act)) with
        | Ok (db', o) => (db', OrganizationSent 200 o)
        | Throw m =>
            (db, OrganizationFailed 500
                   (createOperationOutcome "error" "exception"
                      ("Failed to update organization: " +:+ m)))
        end
  end.

(** ** Hook and handler

    On a route the hook runs on, Fastify runs the route handler unless the
    hook has sent a reply, and the handler finds in [request.user] what the
    hook left there; on any other route the handler runs at once and
    [request.user] is what the decorator of the JWT plugin put there, [null].
    [installed] says which of the two a route is.  [server.ts] registers
    [authMiddleware] with [server.register], as a plugin of its own that is
    not wrapped by [fastify-plugin]: its hook is encapsulated in that plugin,
    which has no routes, so that [installed] is [false] for every route of
    the server as it is wired. *)

Definition hookRun (installed : bool) (srv : Server) (f : Faults) (req : Request)
    (db : Prisma) : Prisma * list LogEntry * Outcome :=
  if installed then preHandler srv f req db else (db, [], Skipped).

Definition servePatientSearch (installed : bool) (srv : Server) (f : Faults)
    (birthDateIs : string -> option (PatientRow -> bool))
    (nameMatches : string -> PatientRow -> bool) (req : Request)
    (birthdate name : option string) (db : Prisma) : Prisma * SearchReply :=
  let '(db', _, out) := hookRun installed srv f req db in
  match out with
  | Replied status body => (db', SearchFailed status body)
  | _ => (db', searchPatientsHandler birthDateIs nameMatches (requestUser out)
                 birthdate name db')
  end.

Definition servePatient (installed : bool) (srv : Server) (f : Faults) (req : Request)
    (pid : string) (db : Prisma) : Prisma * PatientReply :=
  let '(db', _, out) := hookRun installed srv f req db in
  match out with
  | Replied status body => (db', PatientFailed status body)
  | _ => (db', getPatient (requestUser out) pid db')
  end.

Definition serveCreatePatient (installed : bool) (srv : Server) (f : Faults)
    (req : Request) (db : Prisma) : Prisma * PatientReply :=
  let '(db', _, out) := hookRun installed srv f req db in
  match out with
  | Replied status body => (db', PatientFailed status body)
  | _ => createPatient srv (requestUser out) db'
  end.

Definition serveAssignOrganization (installed : bool) (srv : Server) (f : Faults)
    (req : Request) (pid oid : string) (db : Prisma) : Prisma * PatientReply :=
  let '(db', _, out) := hookRun installed srv f req db in
  match out with
  | Replied status body => (db', PatientFailed status body)
  | _ => assignOrganization (requestUser out) pid oid db'
  end.

(** The row [createPatient] stores for a patient of organization [o]. *)
Definition linkedPatient (pid o : string) : PatientRow :=
  {| patient_id := pid; patient_organizations := [(o, "active")] |}.

(** The store with one more patient. *)
Definition withPatient (db : Prisma) (p : PatientRow) : Prisma :=
  {| users := users db; userOrganizationAccess := userOrganizationAccess db;
     organizations := organizations db; patients := patients db ++ [p] |}.

(** An access row of user [uid], active, for organization [o]. *)
Definition activeMembership (db : Prisma) (uid o : string) : Prop :=
  exists a, a ∈ userOrganizationAccess db /\
            access_userId a = uid /\ access_status a = "active" /\
            access_organizationId a = o.

(** The scope the self-heal gives a super admin without active access. *)
Definition healedScope (db : Prisma) (user : LoadedUser) (o : string) : Prop :=
  user_role (row user) = "super_admin" /\ loaded_access user = [] /\
  exists org, org ∈ organizations db /\ organization_active org = true /\
              organization_id org = o.

(** The user row [register] inserts. *)
Definition registeredUser (srv : Server) (bcrypt_hash : string -> string) (db : Prisma)
    (em password rl : string) (organizationId : option string) : UserRow :=
  {| user_id := cuid srv (length (users db)); user_email := em;
     user_passwordHash := bcrypt_hash password; user_role := rl;
     user_primaryOrganizationId := js_or organizationId None; user_active := true |}.

(** [POST /fhir/Organization]: for super admins only; the creator gets no
    access row.  [fault] is what the store raises over the unique
    [identifier]. *)
Definition organization_create (srv : Server) (db : Prisma) (name : string) (act : bool)
    : Result (Prisma * OrganizationRow) :=
  let o := {| organization_id := cuid srv (length (organizations db));
              organization_name := name; organization_active := act |} in
  if existsb (fun r => String.eqb (organization_id r) (organization_id o)) (organizations db)
  then Throw idViolation
  else Ok ({| users := users db; userOrganizationAccess := userOrganizationAccess db;
              organizations := organizations db ++ [o]; patients := patients db |}, o).

Definition createOrganization (srv : Server) (typeError : string) (reqUser : option User)
    (fault : option string) (name : option string) (act : option bool) (db : Prisma)
    : Prisma * OrganizationReply :=
  match reqUser with
  | None =>
      (db, OrganizationFailed 500
             (createOperationOutcome "error" "exception"
                ("Failed to create organization: " +:+ typeError)))
  | Some user =>
      if negb (String.eqb (role user) "super_admin")
      then (db, OrganizationFailed 403 insufficientPermissions)
      else
        match call fault (organization_create srv db (default "" (js_or name (Some "")))
                            (default true act)) with
        | Ok (db', o) => (db', OrganizationSent 201 o)
        | Throw m =>
            (db, OrganizationFailed 500
                   (createOperationOutcome "error" "exception"
                      ("Failed to create organization: " +:+ m)))
        end
  end.

(** ** Practitioners and appointments ([routes/practitioners.ts],
       [routes/appointments.ts]) *)

Record PractitionerRow := {
  practitioner_id : string;
  practitioner_organizations : list (string * string)   (* organizationId, status *)
}.

Record AppointmentRow := {
  appointment_id : string;
  appointment_status : string;
  appointment_patientId : string;
  appointment_practitionerId : string;
  appointment_organizationId : string
}.

(** The tables of these handlers, next to those of the hook. *)
Record Database := {
  core : Prisma;
  practitioners : list PractitionerRow;
  appointments : list AppointmentRow
}.

Inductive Reply (A : Type) :=
| Sent (status : nat) (resource : A)
| SentBundle (bundleType : string) (entries : list A)
| NoContent (status : nat)
| Failed (status : nat) (body : OperationOutcome).

Arguments Sent {A} status resource.
Arguments SentBundle {A} bundleType entries.
Arguments NoContent {A} status.
Arguments Failed {A} status body.

(** A condition [field: v] of a [where] with a value that may be
    [undefined]: Prisma leaves a condition whose value is [undefined] out of
    the query. *)
Definition whereEquals (v : option string) (x : string) : bool :=
  match v with
  | Some y => String.eqb x y
  | None => true
  end.

(** [organizations: { some: { organizationId: v, status: 'active' } }]. *)
Definition someActiveLink (v : option string) (links : list (string * string)) : bool :=
  existsb (fun link => whereEquals v (fst link) && String.eqb (snd link) "active") links.

(** [organizations: { some: { organizationId: { in: ids }, status: 'active' } }]. *)
Definition someActiveLinkIn (ids : list string) (links : list (string * string)) : bool :=
  existsb (fun link => array_includes ids (fst link) && String.eqb (snd link) "active") links.

(** [GET /fhir/Practitioner]: the organization of the search is
    [query.organization || currentOrganizationId].  A non-empty [name] or
    [specialty] adds a JSON filter whose [path] is a string; the datasource
    is PostgreSQL, for which Prisma wants an array of keys, so that
    [findMany] throws and the [catch] replies 500. *)
Definition searchPractitioners (reqUser : option User)
    (organization name specialty : option string) (db : Database)
    : Reply PractitionerRow :=
  match reqUser with
  | None => Failed 500 internalServerError
  | Some user =>
      if truthy name || truthy specialty
      then Failed 500 internalServerError
      else
        SentBundle "searchset"
          (filter (fun p =>
                     someActiveLink (js_or organization (currentOrganizationId user))
                       (practitioner_organizations p) = true)
             (practitioners db))
  end.

(** [GET /fhir/Practitioner/:id]. *)
Definition getPractitioner (reqUser : option User) (pid : string) (db : Database)
    : Reply PractitionerRow :=
  match reqUser with
  | None => Failed 500 internalServerError
  | Some user =>
      match find (fun p => String.eqb (practitioner_id p) pid
                           && someActiveLinkIn (organizationIds user)
                                (practitioner_organizations p))
              (practitioners db) with
      | Some p => Sent 200 p
      | None => Failed 404 (createOperationOutcome "error" "not-found" "Practitioner not found")
      end
  end.

Definition appointmentNotFound : OperationOutcome :=
  createOperationOutcome "error" "not-found" "Appointment not found".

(** [server.prisma.appointment.findFirst({ where: { id, organizationId: { in: organizationIds } } })]. *)
Definition appointment_findFirst_inScope (db : Database) (aid : string)
    (organizationIds : list string) : option AppointmentRow :=
  find (fun a => String.eqb (appointment_id a) aid
                 && array_includes organizationIds (appointment_organizationId a))
    (appointments db).

(** [GET /fhir/Appointment]; [startsOn] stands for the test on [start]. *)
Definition searchAppointments (startsOn : string -> AppointmentRow -> bool)
    (reqUser : option User) (patient practitioner date status : option string)
    (db : Database) : Reply AppointmentRow :=
  match reqUser with
  | None => Failed 500 internalServerError
  | Some user =>
      SentBundle "searchset"
        (filter (fun a =>
                   array_includes (organizationIds user) (appointment_organizationId a)
                   && (if truthy patient
                       then String.eqb (appointment_patientId a) (default "" patient)
                       else true)
                   && (if truthy practitioner
                       then String.eqb (appointment_practitionerId a) (default "" practitioner)
                       else true)
                   && (if truthy date then startsOn (default "" date) a else true)
                   && (if truthy status
                       then String.eqb (appointment_status a) (default "" status)
                       else true) = true)
           (appointments db))
  end.

(** [GET /fhir/Appointment/:id]. *)
Definition getAppointment (reqUser : option User) (aid : string) (db : Database)
    : Reply AppointmentRow :=
  match reqUser with
  | None => Failed 500 internalServerError
  | Some user =>
      match appointment_findFirst_inScope db aid (organizationIds user) with
      | Some a => Sent 200 a
      | None => Failed 404 appointmentNotFound
      end
  end.

(** [server.prisma.appointment.create({ data })]: [status], [patientId],
    [practitionerId] and [organizationId] are required, the last three are
    foreign keys. *)
Definition appointment_create (srv : Server) (db : Database)
    (status patientId practitionerId organizationId : option string)
    : Result (Database * AppointmentRow) :=
  match status, patientId, practitionerId, organizationId with
  | Some st, Some pat, Some pra, Some o =>
      let a := {| appointment_id := cuid srv (length (appointments db));
                  appointment_status := st; appointment_patientId := pat;
                  appointment_practitionerId := pra; appointment_organizationId := o |} in
      if existsb (fun r => String.eqb (appointment_id r) (appointment_id a)) (appointments db)
      then Throw idViolation
      else if negb (existsb (fun p => String.eqb (patient_id p) pat) (patients (core db))
                    && existsb (fun p => String.eqb (practitioner_id p) pra) (practitioners db)
                    && existsb (fun r => String.eqb (organization_id r) o)
                         (organizations (core db)))
      then Throw "Foreign key constraint failed on the field: `appointments`"
      else Ok ({| core := core db; practitioners := practitioners db;
                  appointments := appointments db ++ [a] |}, a)
  | _, _, _, _ => Throw "Argument is missing."
  end.

(** [POST /fhir/Appointment]: patient and practitioner are looked up with an
    active link to the current organization, then the appointment is
    inserted for that organization. *)
Definition createAppointment (srv : Server) (reqUser : option User)
    (status patientId practitionerId : option string) (db : Database)
    : Database * Reply AppointmentRow :=
  match reqUser with
  | None => (db, Failed 500 internalServerError)
  | Some user =>
      match find (fun p => whereEquals patientId (patient_id p)
                           && someActiveLink (currentOrganizationId user)
                                (patient_organizations p))
              (patients (core db)) with
      | None =>
          (db, Failed 404 (createOperationOutcome "error" "not-found"
                             "Patient not found or no access"))
      | Some _ =>
          match find (fun p => whereEquals practitionerId (practitioner_id p)
                               && someActiveLink (currentOrganizationId user)
                                    (practitioner_organizations p))
                  (practitioners db) with
          | None =>
              (db, Failed 404 (createOperationOutcome "error" "not-found"
                                 "Practitioner not found or no access"))
          | Some _ =>
              match appointment_create srv db status patientId practitionerId
                      (currentOrganizationId user) with
              | Ok (db', a) => (db', Sent 201 a)
              | Throw _ => (db, Failed 500 internalServerError)
              end
          end
      end
  end.

Definition setStatus (aid : string) (status : option string) (a : AppointmentRow)
    : AppointmentRow :=
  if String.eqb (appointment_id a) aid
  then {| appointment_id := appointment_id a;
          appointment_status := default (appointment_status a) status;
          appointment_patientId := appointment_patientId a;
          appointment_practitionerId := appointment_practitionerId a;
          appointment_organizationId := appointment_organizationId a |}
  else a.

(** [server.prisma.appointment.update({ where: { id }, data })]; of the
    columns the handlers write the model has [status]. *)
Definition appointment_update (db : Database) (aid : string) (status : option string)
    : Database :=
  {| core := core db; practitioners := practitioners db;
     appointments := map (setStatus aid status) (appointments db) |}.

(** [PUT /fhir/Appointment/:id]: a [status] the body leaves out is not
    written. *)
Definition updateAppointment (reqUser : option User) (aid : string) (status : option string)
    (db : Database) : Database * Reply AppointmentRow :=
  match reqUser with
  | None => (db, Failed 500 internalServerError)
  | Some user =>
      match appointment_findFirst_inScope db aid (organizationIds user) with
      | None => (db, Failed 404 appointmentNotFound)
      | Some a => (appointment_update db aid status, Sent 200 (setStatus aid status a))
      end
  end.

(** [DELETE /fhir/Appointment/:id]. *)
Definition cancelAppointment (reqUser : option User) (aid : string) (db : Database)
    : Database * Reply AppointmentRow :=
  match reqUser with
  | None => (db, Failed 500 internalServerError)
  | Some user =>
      match appointment_findFirst_inScope db aid (organizationIds user) with
      | None => (db, Failed 404 appointmentNotFound)
      | Some _ => (appointment_update db aid (Some "cancelled"), NoContent 204)
      end
  end.

(** The row [DELETE /fhir/Appointment/:id] leaves of an appointment. *)
Definition cancelled (a : AppointmentRow) : AppointmentRow :=
  {| appointment_id := appointment_id a; appointment_status := "cancelled";
     appointment_patientId := appointment_patientId a;
     appointment_practitionerId := appointment_practitionerId a;
     appointment_organizationId := appointment_organizationId a |}.

(** Patient and practitioner of an appointment have an active link to the
    organization of the appointment. *)
Definition appointmentLinked (db : Database) (a : AppointmentRow) : Prop :=
  (exists p, p ∈ patients (core db) /\ patient_id p = appointment_patientId a /\
             (appointment_organizationId a, "active") ∈ patient_organizations p) /\
  (exists p, p ∈ practitioners db /\ practitioner_id p = appointment_practitionerId a /\
             (appointment_organizationId a, "active") ∈ practitioner_organizations p).

(** ** Integrity of the store ([prisma/schema.prisma]) *)

(** [@@unique([patientId, organizationId])] and [Patient.id @id]. *)
Definition patientKeysUnique (db : Prisma) : Prop :=
  NoDup (map patient_id (patients db)) /\
  forall p, p ∈ patients db -> NoDup (map fst (patient_organizations p)).

(** The foreign key [UserOrganizationAccess.userId]. *)
Definition accessRefersToUsers (db : Prisma) : Prop :=
  forall a, a ∈ userOrganizationAccess db ->
            existsb (fun u => String.eqb (user_id u) (access_userId a)) (users db) = true.

(** The foreign key [UserOrganizationAccess.organizationId]. *)
Definition accessRefersToOrganizations (db : Prisma) : Prop :=
  forall a, a ∈ userOrganizationAccess db ->
            existsb (fun o => String.eqb (organization_id o) (access_organizationId a))
              (organizations db) = true.

(** ** More of the example deployment *)

(** Practitioner [d1] of [O1], practitioner [d3] of [O3]; one booked
    appointment of patient [p1] with [d3] at [O3]. *)
Definition demoDatabase : Database :=
  {| core := demoDb;
     practitioners :=
       [ {| practitioner_id := "d1"; practitioner_organizations := [("O1", "active")] |};
         {| practitioner_id := "d3"; practitioner_organizations := [("O3", "active")] |} ];
     appointments :=
       [ {| appointment_id := "a1"; appointment_status := "booked";
            appointment_patientId := "p1"; appointment_practitionerId := "d3";
            appointment_organizationId := "O3" |} ] |}.

(** The context of org admin [B]: organization [O3] only. *)
Definition contextB : User := userContext loadedB ["O3"] (Some "O3").


Definition withAuthorization (req : Request) (a : option string) : Request :=
  {| url := url req; method := method req; authorization := a;
     x_organization_id := x_organization_id req |}.

(** Super admin [P] with one active membership, of [O2]. *)
Definition demoDbP : Prisma :=
  {| users := users demoDb;
     userOrganizationAccess :=
       userOrganizationAccess demoDb ++
       [ {| access_id := "m2"; access_userId := "P"; access_organizationId := "O2";
            access_role := "admin"; access_status := "active" |} ];
     organizations := organizations demoDb;
     patients := patients demoDb |}.

Definition loadedP : LoadedUser :=
  {| row := mkUser "P" "super_admin" (Some "O2");
     loaded_access :=
       [ {| uoa_id := "m2"; uoa_userId := "P"; uoa_organizationId := "O2";
            uoa_role := "admin"; uoa_status := "active";
            uoa_organization :=
              Some {| ref_id := "O2"; ref_name := "Clinic O2"; ref_active := true |} |} ] |}.

(** Super admin [A] with a suspended access row for every active
    organization. *)
Definition suspendedRow (n oid : string) : AccessRow :=
  {| access_id := n; access_userId := "A"; access_organizationId := oid;
     access_role := "admin"; access_status := "suspended" |}.

Definition demoDbSuspended : Prisma :=
  {| users := users demoDb;
     userOrganizationAccess :=
       [ suspendedRow "s1" "O1"; suspendedRow "s2" "O2";
         suspendedRow "s3" "O3"; suspendedRow "s4" "O4" ];
     organizations := organizations demoDb;
     patients := patients demoDb |}.

(** Every hook is resumed nine times. *)
Definition demoFairSchedule : list nat :=
  [0; 1; 0; 1; 0; 1; 0; 1; 0; 1; 0; 1; 0; 1; 0; 1; 0; 1]%nat.

(** Only the first hook is resumed, nine times. *)
Definition demoOneSidedSchedule : list nat :=
  [0; 0; 0; 0; 0; 0; 0; 0; 0]%nat.

(** * Properties *)

(** ** Strings and values *)

Lemma append_cons (c : Ascii.ascii) (s t : string) :
  String c s +:+ t = String c (s +:+ t).
Proof. reflexivity. Qed.

Lemma startsWith_spec (s p : string) :
  startsWith s p = true <-> exists t, s = p +:+ t.
Proof.
  revert s; induction p as [|c p IH]; intros s; simpl.
  - split; [intros _; by exists s | done].
  - destruct s as [|d s].
    + split; [done | intros [t Ht]; rewrite append_cons in Ht; discriminate].
    + destruct (Ascii.eqb_spec c d) as [->|Hne].
      * rewrite IH.
        split; intros [t Ht]; exists t; rewrite append_cons in *; congruence.
      * split; [done | intros [t Ht]; rewrite append_cons in Ht; congruence].
Qed.

Lemma includes_spec (s p : string) :
  includes s p = true <-> exists a b, s = a +:+ p +:+ b.
Proof.
  induction s as [|c s IH]; simpl; rewrite orb_true_iff.
  - split.
    + intros [H|H]; [|done]. apply startsWith_spec in H as [t Ht]. by exists "", t.
    + intros ([|? ?] & b & H); [|rewrite append_cons in H; discriminate].
      left. apply startsWith_spec. by exists b.
  - split.
    + intros [H|H].
      * apply startsWith_spec in H as [t Ht]. by exists "", t.
      * apply IH in H as (a & b & ->). by exists (String c a), b.
    + intros ([|c' a] & b & H).
      * left. apply startsWith_spec. by exists b.
      * right. apply IH. exists a, b. rewrite append_cons in H. congruence.
Qed.

Lemma array_includes_spec (xs : list string) (x : string) :
  array_includes xs x = true <-> x ∈ xs.
Proof.
  unfold array_includes. rewrite existsb_exists. split.
  - intros (y & Hy & Heq). apply String.eqb_eq in Heq as ->. by apply list_elem_of_In.
  - intros H. exists x. split; [by apply list_elem_of_In | apply String.eqb_refl].
Qed.

Lemma array_includes_false (xs : list string) (x : string) :
  array_includes xs x = false <-> x ∉ xs.
Proof.
  rewrite <- array_includes_spec. by destruct (array_includes xs x).
Qed.

Lemma truthy_spec (v : option string) : truthy v = false <-> absent v.
Proof.
  unfold absent. destruct v as [s|]; simpl.
  - destruct (String.eqb_spec s "") as [->|Hne]; simpl.
    + split; [by right | done].
    + split; [done | intros [H|H]; congruence].
  - split; [by left | done].
Qed.

Lemma truthy_Some (v : option string) :
  truthy v = true -> exists c, v = Some c /\ c <> "".
Proof.
  destruct v as [s|]; simpl; [|done].
  destruct (String.eqb_spec s ""); simpl; [done|]. intros _. by exists s.
Qed.

Lemma truthy_Some_ne (c : string) : c <> "" -> truthy (Some c) = true.
Proof. intros H. simpl. by destruct (String.eqb_spec c ""). Qed.

(** When header and primary organization are both falsy, [||] yields its
    last operand, whatever it is. *)
Lemma selectCurrent_falsy (req : Request) (user : LoadedUser) (ids : list string) :
  truthy (selectCurrent req user ids) = false ->
  selectCurrent req user ids = first ids.
Proof.
  unfold selectCurrent, js_or.
  destruct (truthy (x_organization_id req)) eqn:Hh.
  - rewrite Hh. congruence.
  - destruct (truthy (user_primaryOrganizationId (row user))) eqn:Hp; [|done].
    rewrite Hp. congruence.
Qed.

Lemma selectCurrent_header (req : Request) (user : LoadedUser) (ids : list string) :
  truthy (x_organization_id req) = true ->
  selectCurrent req user ids = x_organization_id req.
Proof. unfold selectCurrent, js_or. intros H. by rewrite !H. Qed.

(** ** The stages of the hook *)

Lemma validate_cases (req : Request) (user : LoadedUser) (ids : list string) :
  (exists c, selectCurrent req user ids = Some c /\ c <> "" /\ (c ∉ ids) /\
     (validate req user ids).2 =
       Replied 403 (createOperationOutcome "error" "forbidden"
                      "No access to specified organization"))
  \/ ((truthy (selectCurrent req user ids) = false
       \/ exists c, selectCurrent req user ids = Some c /\ c ∈ ids) /\
      (validate req user ids).2 =
        Attached (userContext user ids (selectCurrent req user ids))).
Proof.
  unfold validate.
  destruct (truthy (selectCurrent req user ids)) eqn:Ht; simpl.
  - destruct (truthy_Some _ Ht) as (c & Hc & Hne). rewrite Hc. simpl.
    destruct (array_includes ids c) eqn:Hi; simpl.
    + right. split; [|done]. right. exists c. split; [done|].
      by apply array_includes_spec.
    + left. exists c. repeat split; try done. by apply array_includes_false.
  - right. split; [by left | done].
Qed.

(** Once the user object is loaded, the hook is the self-heal followed by the
    validation; its store is the one the self-heal leaves. *)
Lemma preHandler_loaded (srv : Server) (f : Faults) (req : Request) (db : Prisma)
    (user : LoadedUser) :
  loadedUser srv f req db = Some user ->
  exists log,
    preHandler srv f req db =
      (healed_db (selfHeal srv f db user), log,
       (validate req (healed_user (selfHeal srv f db user))
          (healed_organizationIds (selfHeal srv f db user))).2).
Proof.
  unfold loadedUser, spawn, preHandler, resolve, attach. simpl.
  destruct (isStaticOrDebug (url req)); [done|].
  destruct (isPublicRoute srv (url req)); [done|].
  destruct (truthy (authorization req)); simpl; [|done].
  destruct (String.eqb _ ""); [done|].
  destruct (jwt_verify srv _) as [decoded|]; [|done].
  destruct (call _ _) as [[u|]|]; try done.
  destruct (user_active (row u)) eqn:Hact; simpl; [|done].
  intros [= ->].
  destruct (validate req _ _) as [lg out]. simpl. eauto.
Qed.

(** Before that point the hook leaves the store alone and ends without a
    context: exempt (no reply), 401, or 500 from the outer [catch]. *)
Lemma preHandler_unloaded (srv : Server) (f : Faults) (req : Request) (db : Prisma) :
  loadedUser srv f req db = None ->
  exists log out,
    preHandler srv f req db = (db, log, out) /\
    (out = Skipped \/ exists status body,
        out = Replied status body /\ (status = 401 \/ status = 500)).
Proof.
  unfold loadedUser, spawn, preHandler, resolve, reply. simpl.
  destruct (isStaticOrDebug (url req)); [eauto 10|].
  destruct (isPublicRoute srv (url req)); [eauto 10|].
  destruct (truthy (authorization req)); simpl; [|eauto 10].
  destruct (String.eqb _ ""); [eauto 10|].
  destruct (jwt_verify srv _) as [decoded|]; [|eauto 10].
  destruct (call _ _) as [[u|]|]; [|eauto 10..].
  destruct (user_active (row u)); simpl; [done | eauto 10].
Qed.

Lemma preHandler_attached (srv : Server) (f : Faults) (req : Request) (db db' : Prisma)
    (log : list LogEntry) (ctx : User) :
  preHandler srv f req db = (db', log, Attached ctx) ->
  exists user,
    loadedUser srv f req db = Some user /\
    ctx = userContext (healed_user (selfHeal srv f db user))
            (healed_organizationIds (selfHeal srv f db user))
            (selectCurrent req (healed_user (selfHeal srv f db user))
               (healed_organizationIds (selfHeal srv f db user))).
Proof.
  intros H. destruct (loadedUser srv f req db) as [user|] eqn:Hl.
  - exists user. split; [done|].
    destruct (preHandler_loaded _ _ _ _ _ Hl) as [lg Hp]. rewrite Hp in H.
    destruct (validate_cases req (healed_user (selfHeal srv f db user))
                (healed_organizationIds (selfHeal srv f db user)))
      as [(c & _ & _ & _ & Hv)|[_ Hv]]; rewrite Hv in H; congruence.
  - destruct (preHandler_unloaded _ _ _ _ Hl) as (lg & out & Hp & [->|(st & body & -> & _)]);
      rewrite Hp in H; congruence.
Qed.

Lemma first_nonempty (ids : list string) :
  ids <> [] -> exists c, first ids = Some c /\ c ∈ ids.
Proof.
  destruct ids as [|c ids]; [done|]. intros _. exists c. split; [done|]. left.
Qed.

(** With a non-empty [organizationIds], the validation either attaches a
    context whose current organization is a member, or replies 403. *)
Lemma validation_dichotomy (req : Request) (user : LoadedUser) (ids : list string) :
  ids <> [] ->
  (exists c, selectCurrent req user ids = Some c /\ c ∈ ids /\
     (validate req user ids).2 = Attached (userContext user ids (Some c)))
  \/ (exists c, selectCurrent req user ids = Some c /\ (c ∉ ids) /\
        (validate req user ids).2 =
          Replied 403 (createOperationOutcome "error" "forbidden"
                         "No access to specified organization")).
Proof.
  intros Hne.
  destruct (validate_cases req user ids) as [(c & Hc & _ & Hn & Hv)|[[Hf|(c & Hc & Hin)] Hv]].
  - right. by exists c.
  - left. destruct (first_nonempty ids Hne) as (c & Hc & Hin).
    rewrite (selectCurrent_falsy _ _ _ Hf) in Hv |- *. rewrite Hc in Hv |- *.
    by exists c.
  - left. rewrite Hc in Hv. by exists c.
Qed.

(** Every context the hook attaches with a non-empty [organizationIds] has
    its current organization among them. *)
Lemma attached_current_member (srv : Server) (f : Faults) (req : Request)
    (db db' : Prisma) (log : list LogEntry) (ctx : User) :
  preHandler srv f req db = (db', log, Attached ctx) ->
  organizationIds ctx <> [] ->
  exists c, currentOrganizationId ctx = Some c /\ c ∈ organizationIds ctx.
Proof.
  intros H Hne. destruct (preHandler_attached _ _ _ _ _ _ _ H) as (user & Hl & ->).
  simpl in *.
  destruct (validation_dichotomy req (healed_user (selfHeal srv f db user)) _ Hne)
    as [(c & Hc & Hin & _)|(c & Hc & Hn & Hv)].
  - by exists c.
  - destruct (preHandler_loaded _ _ _ _ _ Hl) as [lg Hp].
    rewrite Hp, Hv in H. congruence.
Qed.

(** ** C9: exempt URLs *)

(** C9.  A request whose URL contains "/docs/" or "/static/" anywhere, or
    starts with "/debug", or starts with one of the public routes, leaves the
    hook at once: no reply, no context, store untouched, whatever the
    authorization header, the token verifier and the store would have said.
    The test is a substring or prefix test on the raw URL, so it also exempts
    resource URLs that merely contain these substrings. *)
Theorem C9_exempt_urls (srv : Server) (f : Faults) (req : Request) (db : Prisma) :
  (exists a b, url req = a +:+ "/docs/" +:+ b) \/
  (exists a b, url req = a +:+ "/static/" +:+ b) \/
  (exists t, url req = "/debug" +:+ t) \/
  (exists route t, route ∈ publicRoutes srv /\ url req = route +:+ t) ->
  exists log, preHandler srv f req db = (db, log, Skipped).
Proof.
  intros H. unfold preHandler.
  destruct (isStaticOrDebug (url req)) eqn:Hs; [eauto|].
  unfold isStaticOrDebug in Hs.
  apply orb_false_iff in Hs as [Hs Hdebug]. apply orb_false_iff in Hs as [Hdocs Hstatic].
  destruct H as [H|[H|[H|(route & t & Hin & Hurl)]]].
  - apply includes_spec in H. congruence.
  - apply includes_spec in H. congruence.
  - apply startsWith_spec in H. congruence.
  - assert (isPublicRoute srv (url req) = true) as ->; [|eauto].
    unfold isPublicRoute. apply existsb_exists. exists route.
    split; [by apply list_elem_of_In|].
    apply orb_true_iff. left. apply startsWith_spec. by exists t.
Qed.

(** A patient URL that merely contains "/static/" is exempt, without any
    authorization header. *)
Lemma C9_exempt_urls_witness :
  exists log,
    preHandler demoServer noFaults (mkRequest "/fhir/Patient/static/x" None None) demoDb
    = (demoDb, log, Skipped).
Proof.
  apply (C9_exempt_urls demoServer noFaults
           (mkRequest "/fhir/Patient/static/x" None None) demoDb).
  right. left. exists "/fhir/Patient", "x". reflexivity.
Defined.

(** ** C1: the current organization is a member *)

(** C1.  Every context the hook attaches with a non-empty [organizationIds]
    has its [currentOrganizationId] among them.  The request is rejected
    otherwise: once the identity is resolved (the user object is loaded) and
    [organizationIds] is non-empty at the validation, the hook either
    attaches such a context or replies 403 because the selected organization
    is not an element. *)
Theorem C1_current_in_organizationIds (srv : Server) (f : Faults) (req : Request)
    (db : Prisma) :
  (forall db' log ctx,
      preHandler srv f req db = (db', log, Attached ctx) ->
      organizationIds ctx <> [] ->
      exists c, currentOrganizationId ctx = Some c /\ c ∈ organizationIds ctx) /\
  (forall user,
      loadedUser srv f req db = Some user ->
      healed_organizationIds (selfHeal srv f db user) <> [] ->
      (exists ctx c,
          (preHandler srv f req db).2 = Attached ctx /\
          organizationIds ctx = healed_organizationIds (selfHeal srv f db user) /\
          currentOrganizationId ctx = Some c /\ c ∈ organizationIds ctx)
      \/ (exists c,
            (preHandler srv f req db).2 = forbidden /\
            selectCurrent req (healed_user (selfHeal srv f db user))
              (healed_organizationIds (selfHeal srv f db user)) = Some c /\
            c ∉ healed_organizationIds (selfHeal srv f db user))).
Proof.
  split.
  - intros db' log ctx. apply attached_current_member.
  - intros user Hl Hne.
    destruct (preHandler_loaded _ _ _ _ _ Hl) as [lg Hp]. rewrite Hp. simpl.
    destruct (validation_dichotomy req (healed_user (selfHeal srv f db user)) _ Hne)
      as [(c & Hc & Hin & Hv)|(c & Hc & Hn & Hv)]; rewrite Hv.
    + left. eexists _, c. by repeat split.
    + right. by exists c.
Qed.

(** Org admin [B], member of [O3] only, asks without a header: the context
    is attached, with [O3] as current organization. *)
Lemma C1_current_in_organizationIds_witness :
  exists c,
    currentOrganizationId (userContext loadedB ["O3"] (Some "O3")) = Some c /\
    c ∈ organizationIds (userContext loadedB ["O3"] (Some "O3")).
Proof.
  refine (proj1 (C1_current_in_organizationIds demoServer noFaults
                   (mkRequest "/fhir/Patient" (Some "B") None) demoDb)
            demoDb _ (userContext loadedB ["O3"] (Some "O3")) _ _).
  - reflexivity.
  - discriminate.
Defined.

(** ** C3: a foreign header is refused *)

(** C3.  A request of a resolved identity whose [x-organization-id] header
    names an organization that is not in the caller's [organizationIds] is
    answered 403 "forbidden"; no context is attached, so neither the primary
    organization nor any member organization is used instead. *)
Theorem C3_foreign_header_forbidden (srv : Server) (f : Faults) (req : Request)
    (db : Prisma) (user : LoadedUser) (hdr : string) :
  loadedUser srv f req db = Some user ->
  x_organization_id req = Some hdr ->
  hdr <> "" ->
  hdr ∉ healed_organizationIds (selfHeal srv f db user) ->
  exists log,
    preHandler srv f req db =
      (healed_db (selfHeal srv f db user), log,
       forbidden).
Proof.
  intros Hl Hh Hne Hn. destruct (preHandler_loaded _ _ _ _ _ Hl) as [lg Hp].
  exists lg. rewrite Hp. do 2 f_equal.
  assert (selectCurrent req (healed_user (selfHeal srv f db user))
            (healed_organizationIds (selfHeal srv f db user)) = Some hdr) as Hsel.
  { rewrite selectCurrent_header; rewrite Hh; [done | by apply truthy_Some_ne]. }
  destruct (validate_cases req (healed_user (selfHeal srv f db user))
              (healed_organizationIds (selfHeal srv f db user)))
    as [(c & _ & _ & _ & Hv)|[[Hf|(c & Hc & Hin)] _]]; [done|..].
  - rewrite Hsel, truthy_Some_ne in Hf; done.
  - rewrite Hsel in Hc. by injection Hc as <-.
Qed.

(** Org admin [B], member of [O3] only, sends the header [O4]. *)
Lemma C3_foreign_header_forbidden_witness :
  exists log,
    preHandler demoServer noFaults (mkRequest "/fhir/Patient" (Some "B") (Some "O4")) demoDb
    = (demoDb, log, forbidden).
Proof.
  apply (C3_foreign_header_forbidden demoServer noFaults
           (mkRequest "/fhir/Patient" (Some "B") (Some "O4")) demoDb
           loadedB "O4").
  - reflexivity.
  - reflexivity.
  - discriminate.
  - simpl. intros H. apply list_elem_of_In in H. simpl in H. destruct H as [H|[]].
    discriminate.
Defined.

(** ** The store under the self-heal *)

Lemma loadedUser_found (srv : Server) (f : Faults) (req : Request) (db : Prisma)
    (user : LoadedUser) :
  loadedUser srv f req db = Some user ->
  exists decoded,
    th_task (spawn srv f req) = AtFindUnique decoded /\
    findUnique_fault f = None /\
    user_findUnique db (jwt_userId decoded) = Some user /\
    user_active (row user) = true.
Proof.
  unfold loadedUser. destruct (th_task (spawn srv f req)) as [decoded| | | |]; try done.
  destruct (findUnique_fault f); simpl; [done|].
  destruct (user_findUnique db (jwt_userId decoded)) as [u|] eqn:Hu; [|done].
  destruct (user_active (row u)) eqn:Hact; [|done].
  intros [= <-]. by exists decoded.
Qed.

Lemma user_findUnique_Some (db : Prisma) (uid : string) (user : LoadedUser) :
  user_findUnique db uid = Some user ->
  find (fun u => String.eqb (user_id u) uid) (users db) = Some (row user) /\
  user_id (row user) = uid /\
  loaded_access user = activeAccessOf db uid.
Proof.
  unfold user_findUnique.
  destruct (find _ (users db)) as [u|] eqn:Hf; [|done].
  intros [= <-]. simpl. repeat split.
  apply find_some in Hf as [_ Heq]. by apply String.eqb_eq.
Qed.

Lemma find_existsb {A : Type} (p : A -> bool) (l : list A) (x : A) :
  find p l = Some x -> existsb p l = true.
Proof.
  intros H. apply find_some in H as [Hin Hp]. apply existsb_exists. eauto.
Qed.

Lemma loadedUser_exists (srv : Server) (f : Faults) (req : Request) (db : Prisma)
    (user : LoadedUser) :
  loadedUser srv f req db = Some user ->
  find (fun u => String.eqb (user_id u) (user_id (row user))) (users db) = Some (row user).
Proof.
  intros H. apply loadedUser_found in H as (d & _ & _ & Hu & _).
  apply user_findUnique_Some in Hu as (Hf & Hid & _). by rewrite Hid.
Qed.

Lemma setPrimary_id (uid oid : string) (u : UserRow) :
  user_id (setPrimary uid oid u) = user_id u.
Proof. unfold setPrimary. by destruct (String.eqb (user_id u) uid). Qed.

Lemma find_setPrimary (us : list UserRow) (uid oid x : string) (u : UserRow) :
  find (fun r => String.eqb (user_id r) x) us = Some u ->
  find (fun r => String.eqb (user_id r) x) (map (setPrimary uid oid) us)
  = Some (setPrimary uid oid u).
Proof.
  induction us as [|r us IH]; simpl; [done|].
  rewrite setPrimary_id. destruct (String.eqb (user_id r) x); [congruence | done].
Qed.

Lemma create_frame (srv : Server) (db db' : Prisma) (uid oid rl st : string) :
  userOrganizationAccess_create srv db uid oid rl st = Ok db' ->
  users db' = users db /\ organizations db' = organizations db /\
  patients db' = patients db.
Proof.
  unfold userOrganizationAccess_create.
  destruct (hasAccessRow db uid oid); [done|].
  destruct (negb _); [done|]. by intros [= <-].
Qed.

Lemma createAccessForAll_frame (srv : Server) (f : Faults) (uid : string)
    (orgs : list OrganizationRow) (db : Prisma) :
  users (createAccessForAll srv f uid orgs db).1 = users db /\
  organizations (createAccessForAll srv f uid orgs db).1 = organizations db /\
  patients (createAccessForAll srv f uid orgs db).1 = patients db.
Proof.
  revert db; induction orgs as [|org orgs IH]; intros db; simpl; [done|].
  destruct (call _ _) as [db1|m] eqn:Hc.
  - destruct (createAccessForAll srv f uid orgs db1) as [db2 l2] eqn:Hrec.
    simpl. specialize (IH db1). rewrite Hrec in IH. simpl in IH.
    unfold call in Hc. destruct (create_fault f _); [done|].
    apply create_frame in Hc as (Hu & Ho & Hp). by rewrite Hu, Ho, Hp in IH.
  - destruct (createAccessForAll srv f uid orgs db) as [db2 l2] eqn:Hrec.
    simpl. specialize (IH db). by rewrite Hrec in IH.
Qed.

Lemma selfHeal_row (srv : Server) (f : Faults) (db : Prisma) (user : LoadedUser) :
  row (healed_user (selfHeal srv f db user)) = row user.
Proof.
  unfold selfHeal. destruct (_ && _); [|done].
  destruct (call _ _) as [allOrganizations|]; [|done].
  destruct (createAccessForAll _ _ _ _ _) as [db1 log2].
  by destruct (updatePrimary _ _ _ _) as [[db2 log3]|].
Qed.

(** Without self-heal the lookup result goes on unchanged. *)
Lemma selfHeal_skipped (srv : Server) (f : Faults) (db : Prisma) (user : LoadedUser) :
  loaded_access user <> [] \/ user_role (row user) <> "super_admin" ->
  selfHeal srv f db user =
    {| healed_db := db; healed_log := []; healed_user := user;
       healed_organizationIds := map uoa_organizationId (loaded_access user) |}.
Proof.
  intros H. unfold selfHeal.
  destruct (_ && _) eqn:Hc; [|done].
  apply andb_true_iff in Hc as [Hlen Hrole].
  apply Nat.eqb_eq in Hlen. rewrite length_map in Hlen.
  apply String.eqb_eq in Hrole.
  destruct H as [H|H]; [|done]. by destruct (loaded_access user).
Qed.

(** The self-heal of a super admin without access, when the enumeration and
    the update of the primary organization go through: whatever the inserts
    did, the request goes on with all active organizations. *)
Lemma selfHeal_granted (srv : Server) (f : Faults) (db : Prisma) (user : LoadedUser) :
  loaded_access user = [] ->
  user_role (row user) = "super_admin" ->
  findMany_fault f = None ->
  update_fault f = None ->
  existsb (fun u => String.eqb (user_id u) (user_id (row user))) (users db) = true ->
  healed_organizationIds (selfHeal srv f db user)
    = map organization_id (organization_findMany_active db) /\
  healed_user (selfHeal srv f db user)
    = {| row := row user;
         loaded_access := map (tempAccess (user_id (row user)))
                            (organization_findMany_active db) |} /\
  users (healed_db (selfHeal srv f db user))
    = match organization_findMany_active db with
      | org0 :: _ =>
          if truthy (user_primaryOrganizationId (row user)) then users db
          else map (setPrimary (user_id (row user)) (organization_id org0)) (users db)
      | [] => users db
      end /\
  organizations (healed_db (selfHeal srv f db user)) = organizations db.
Proof.
  intros Hacc Hrole Hfm Hup Hex. unfold selfHeal.
  rewrite Hacc, Hrole, Hfm. simpl.
  pose proof (createAccessForAll_frame srv f (user_id (row user))
                (organization_findMany_active db) db) as (Hu & Ho & _).
  destruct (createAccessForAll _ _ _ _ _) as [db1 log2]. simpl in Hu, Ho.
  unfold updatePrimary. rewrite Hup.
  destruct (organization_findMany_active db) as [|org0 rest] eqn:Hall.
  - rewrite andb_false_r. simpl. by rewrite Ho.
  - destruct (truthy (user_primaryOrganizationId (row user))); simpl.
    + by rewrite Ho.
    + unfold user_update_primary. rewrite Hu, Hex. simpl. by rewrite Ho.
Qed.

Lemma elem_of_map {A B : Type} (g : A -> B) (l : list A) (y : B) :
  y ∈ map g l <-> exists x, y = g x /\ x ∈ l.
Proof.
  rewrite list_elem_of_In, in_map_iff.
  split; intros (x & H1 & H2); exists x; (split; [done | by apply list_elem_of_In]).
Qed.

Lemma storedPrimary_setPrimary (db : Prisma) (uid oid : string) (u : UserRow) :
  find (fun r => String.eqb (user_id r) uid) (users db) = Some u ->
  forall db',
    users db' = map (setPrimary uid oid) (users db) ->
    storedPrimary db' uid = Some oid.
Proof.
  intros Hf db' Hu. unfold storedPrimary. rewrite Hu.
  rewrite (find_setPrimary _ _ _ _ _ Hf). unfold setPrimary.
  apply find_some in Hf as [_ Heq]. by rewrite Heq.
Qed.

(** ** C5: the order of the candidates *)

Lemma SelectedFrom_functional (header primary firstId c1 c2 : option string) :
  SelectedFrom header primary firstId c1 ->
  SelectedFrom header primary firstId c2 ->
  c1 = c2.
Proof. intros [] []; done. Qed.

Lemma selectCurrent_SelectedFrom (req : Request) (user : LoadedUser) (ids : list string) :
  SelectedFrom (x_organization_id req) (user_primaryOrganizationId (row user))
    (head ids) (selectCurrent req user ids).
Proof.
  unfold selectCurrent, js_or.
  destruct (truthy (x_organization_id req)) eqn:Hh; cbv iota.
  - rewrite Hh. apply FromHeader. rewrite <- truthy_spec. congruence.
  - apply truthy_spec in Hh.
    destruct (truthy (user_primaryOrganizationId (row user))) eqn:Hp; cbv iota.
    + apply FromPrimary; [done|]. rewrite <- truthy_spec. congruence.
    + apply truthy_spec in Hp. by apply FromOrganizationIds.
Qed.

(** C5.  For every resolution of an identity, exactly one value is selected
    from (header, primary organization of the identity, first element of
    [organizationIds]) by the rule "header if present, else primary
    organization if present, else first element"; it is the
    [currentOrganizationId] of the attached context, or the organization the
    403 reply refuses. *)
Theorem C5_candidate_order (srv : Server) (f : Faults) (req : Request) (db : Prisma)
    (user : LoadedUser) :
  loadedUser srv f req db = Some user ->
  exists chosen,
    SelectedFrom (x_organization_id req) (user_primaryOrganizationId (row user))
      (head (healed_organizationIds (selfHeal srv f db user))) chosen /\
    (forall c', SelectedFrom (x_organization_id req) (user_primaryOrganizationId (row user))
                  (head (healed_organizationIds (selfHeal srv f db user))) c' ->
                c' = chosen) /\
    ((exists ctx,
         (preHandler srv f req db).2 = Attached ctx /\
         currentOrganizationId ctx = chosen /\
         organizationIds ctx = healed_organizationIds (selfHeal srv f db user))
     \/ ((preHandler srv f req db).2 =
           Replied 403 (createOperationOutcome "error" "forbidden"
                          "No access to specified organization") /\
         exists c, chosen = Some c /\ c ∉ healed_organizationIds (selfHeal srv f db user))).
Proof.
  intros Hl. destruct (preHandler_loaded _ _ _ _ _ Hl) as [lg Hp]. rewrite Hp. simpl.
  set (h := selfHeal srv f db user).
  pose proof (selectCurrent_SelectedFrom req (healed_user h) (healed_organizationIds h)) as Hs.
  unfold h in Hs at 1. rewrite selfHeal_row in Hs. fold h in Hs.
  exists (selectCurrent req (healed_user h) (healed_organizationIds h)).
  split; [done|]. split.
  - intros c' Hc'. by apply (SelectedFrom_functional _ _ _ _ _ Hc' Hs).
  - destruct (validate_cases req (healed_user h) (healed_organizationIds h))
      as [(c & Hc & _ & Hn & Hv)|[_ Hv]]; rewrite Hv.
    + right. split; [done|]. by exists c.
    + left. by eexists.
Qed.

(** Super admin [P] has the primary organization [O2] and no access yet; no
    header: the primary organization wins over the first enumerated one. *)
Lemma C5_candidate_order_witness :
  exists chosen,
    SelectedFrom None (Some "O2") (Some "O1") chosen /\
    (forall c', SelectedFrom None (Some "O2") (Some "O1") c' -> c' = chosen) /\
    ((exists ctx,
         (preHandler demoServer noFaults (mkRequest "/fhir/Patient" (Some "P") None) demoDb).2
           = Attached ctx /\
         currentOrganizationId ctx = chosen /\
         organizationIds ctx = ["O1"; "O2"; "O3"; "O4"])
     \/ ((preHandler demoServer noFaults (mkRequest "/fhir/Patient" (Some "P") None) demoDb).2
           = Replied 403 (createOperationOutcome "error" "forbidden"
                            "No access to specified organization") /\
         exists c, chosen = Some c /\ c ∉ ["O1"; "O2"; "O3"; "O4"])).
Proof.
  apply (C5_candidate_order demoServer noFaults
           (mkRequest "/fhir/Patient" (Some "P") None) demoDb
           {| row := mkUser "P" "super_admin" (Some "O2"); loaded_access := [] |}).
  reflexivity.
Defined.

(** ** C2: the self-heal of a super admin *)

(** C2.  For a super admin whose lookup returns no active access, one pass
    of the hook in which the enumeration and the update of the primary
    organization go through leaves [organizationIds] equal to the ids of all
    organizations with [active = true] (whatever the single inserts did), and
    the stored [primaryOrganizationId] of the identity equal to the first
    enumerated organization if it was unset before. *)
Theorem C2_super_admin_self_heal (srv : Server) (f : Faults) (req : Request)
    (db : Prisma) (user : LoadedUser) :
  loadedUser srv f req db = Some user ->
  user_role (row user) = "super_admin" ->
  loaded_access user = [] ->
  findMany_fault f = None ->
  update_fault f = None ->
  healed_organizationIds (selfHeal srv f db user)
    = map organization_id (organization_findMany_active db) /\
  (forall x, x ∈ healed_organizationIds (selfHeal srv f db user) <->
             exists o, o ∈ organizations db /\ organization_active o = true /\
                       organization_id o = x) /\
  (preHandler srv f req db).1.1 = healed_db (selfHeal srv f db user) /\
  (forall ctx, (preHandler srv f req db).2 = Attached ctx ->
               organizationIds ctx = map organization_id (organization_findMany_active db)) /\
  (forall org0 rest,
      organization_findMany_active db = org0 :: rest ->
      truthy (user_primaryOrganizationId (row user)) = false ->
      storedPrimary (healed_db (selfHeal srv f db user)) (user_id (row user))
        = Some (organization_id org0)).
Proof.
  intros Hl Hrole Hacc Hfm Hup.
  pose proof (loadedUser_exists _ _ _ _ _ Hl) as Hfind.
  destruct (selfHeal_granted srv f db user Hacc Hrole Hfm Hup (find_existsb _ _ _ Hfind))
    as (Hids & Huser & Husers & Horgs).
  destruct (preHandler_loaded _ _ _ _ _ Hl) as [lg Hp].
  split; [done|]. split; [|split; [|split]].
  - intros x. rewrite Hids, elem_of_map. unfold organization_findMany_active. split.
    + intros (o & -> & Ho). apply list_elem_of_filter in Ho as [Hact Ho]. by exists o.
    + intros (o & Ho & Hact & <-). exists o. split; [done|].
      by apply list_elem_of_filter.
  - by rewrite Hp.
  - intros ctx Hctx. rewrite Hp in Hctx. simpl in Hctx.
    destruct (validate_cases req (healed_user (selfHeal srv f db user))
                (healed_organizationIds (selfHeal srv f db user)))
      as [(c & _ & _ & _ & Hv)|[_ Hv]]; rewrite Hv in Hctx; [done|].
    injection Hctx as <-. simpl. done.
  - intros org0 rest Hall Hunset. rewrite Hall, Hunset in Husers.
    by apply (storedPrimary_setPrimary db _ _ _ Hfind).
Qed.

(** Super admin [A] without access and without primary organization. *)
Lemma C2_super_admin_self_heal_witness :
  healed_organizationIds
    (selfHeal demoServer noFaults demoDb
       {| row := mkUser "A" "super_admin" None; loaded_access := [] |})
  = ["O1"; "O2"; "O3"; "O4"] /\
  storedPrimary
    (preHandler demoServer noFaults (mkRequest "/fhir/Patient" (Some "A") None) demoDb).1.1
    "A" = Some "O1".
Proof.
  destruct (C2_super_admin_self_heal demoServer noFaults
              (mkRequest "/fhir/Patient" (Some "A") None) demoDb
              {| row := mkUser "A" "super_admin" None; loaded_access := [] |}
              eq_refl eq_refl eq_refl eq_refl eq_refl)
    as (Hids & _ & Hdb & _ & Hprim).
  split; [exact Hids|].
  rewrite Hdb. exact (Hprim (mkOrganization "O1" true) _ eq_refl eq_refl).
Defined.

(** ** C10: the new primary organization is not seen by the same request *)

Lemma js_or_None_falsy (v : option string) : truthy v = false -> js_or v None = None.
Proof. unfold js_or. by intros ->. Qed.

(** C10.  When the self-heal runs for a super admin whose primary
    organization is unset, and at least one organization is enumerated, the
    store holds the first enumerated organization as primary afterwards and
    any later lookup of the identity returns it, but every context attached
    by the same request still has [primaryOrganizationId] undefined.  A
    request without organization header gets its context, with the first
    enumerated organization as [currentOrganizationId], through
    [organizationIds[0]]. *)
Theorem C10_primary_not_reflected (srv : Server) (f : Faults) (req : Request)
    (db : Prisma) (user : LoadedUser) (org0 : OrganizationRow)
    (rest : list OrganizationRow) :
  loadedUser srv f req db = Some user ->
  user_role (row user) = "super_admin" ->
  loaded_access user = [] ->
  truthy (user_primaryOrganizationId (row user)) = false ->
  findMany_fault f = None ->
  update_fault f = None ->
  organization_findMany_active db = org0 :: rest ->
  storedPrimary (healed_db (selfHeal srv f db user)) (user_id (row user))
    = Some (organization_id org0) /\
  (forall f2 req2 user2,
      loadedUser srv f2 req2 (healed_db (selfHeal srv f db user)) = Some user2 ->
      user_id (row user2) = user_id (row user) ->
      user_primaryOrganizationId (row user2) = Some (organization_id org0)) /\
  (forall ctx, (preHandler srv f req db).2 = Attached ctx ->
               primaryOrganizationId ctx = None) /\
  (truthy (x_organization_id req) = false ->
   exists log ctx,
     preHandler srv f req db = (healed_db (selfHeal srv f db user), log, Attached ctx) /\
     primaryOrganizationId ctx = None /\
     currentOrganizationId ctx = Some (organization_id org0)).
Proof.
  intros Hl Hrole Hacc Hunset Hfm Hup Hall.
  pose proof (loadedUser_exists _ _ _ _ _ Hl) as Hfind.
  destruct (selfHeal_granted srv f db user Hacc Hrole Hfm Hup (find_existsb _ _ _ Hfind))
    as (Hids & Huser & Husers & Horgs).
  rewrite Hall, Hunset in Husers. rewrite Hall in Hids. simpl in Hids.
  destruct (preHandler_loaded _ _ _ _ _ Hl) as [lg Hp].
  split; [|split; [|split]].
  - by apply (storedPrimary_setPrimary db _ _ _ Hfind).
  - intros f2 req2 user2 Hl2 Hid.
    apply loadedUser_exists in Hl2. rewrite Husers, Hid in Hl2.
    rewrite (find_setPrimary _ _ _ _ _ Hfind) in Hl2. injection Hl2 as <-.
    unfold setPrimary. by rewrite String.eqb_refl.
  - intros ctx Hctx. rewrite Hp in Hctx. simpl in Hctx.
    destruct (validate_cases req (healed_user (selfHeal srv f db user))
                (healed_organizationIds (selfHeal srv f db user)))
      as [(c & _ & _ & _ & Hv)|[_ Hv]]; rewrite Hv in Hctx; [done|].
    injection Hctx as <-. simpl. rewrite selfHeal_row. by apply js_or_None_falsy.
  - intros Hhdr.
    assert (selectCurrent req (healed_user (selfHeal srv f db user))
              (healed_organizationIds (selfHeal srv f db user))
            = Some (organization_id org0)) as Hsel.
    { unfold selectCurrent, js_or. rewrite selfHeal_row, Hhdr, Hunset, Hids. done. }
    destruct (validate_cases req (healed_user (selfHeal srv f db user))
                (healed_organizationIds (selfHeal srv f db user)))
      as [(c & Hc & _ & Hn & Hv)|[_ Hv]].
    + rewrite Hsel in Hc. injection Hc as <-. destruct Hn. rewrite Hids. left.
    + exists lg. eexists. rewrite Hp, Hv. split; [done|]. simpl.
      rewrite selfHeal_row, Hsel. split; [by apply js_or_None_falsy | done].
Qed.

(** Super admin [A], first request, no header: [O1] is stored as primary and
    is the current organization, while the context has no primary. *)
Lemma C10_primary_not_reflected_witness :
  storedPrimary (healed_db (selfHeal demoServer noFaults demoDb loadedA)) "A" = Some "O1" /\
  exists log ctx,
    preHandler demoServer noFaults (mkRequest "/fhir/Patient" (Some "A") None) demoDb
      = (healed_db (selfHeal demoServer noFaults demoDb loadedA), log, Attached ctx) /\
    primaryOrganizationId ctx = None /\
    currentOrganizationId ctx = Some "O1".
Proof.
  destruct (C10_primary_not_reflected demoServer noFaults
              (mkRequest "/fhir/Patient" (Some "A") None) demoDb loadedA
              (mkOrganization "O1" true)
              [mkOrganization "O2" true; mkOrganization "O3" true; mkOrganization "O4" true]
              eq_refl eq_refl eq_refl eq_refl eq_refl eq_refl eq_refl)
    as (Hstored & _ & _ & Hctx).
  split; [exact Hstored | exact (Hctx eq_refl)].
Defined.

(** ** C4: an identity without access *)

Lemma patientInScope_nil (p : PatientRow) : patientInScope [] p = false.
Proof.
  unfold patientInScope. apply not_true_iff_false. rewrite existsb_exists.
  intros (l & _ & H). simpl in H. done.
Qed.

Lemma filter_none {A : Type} (P : A -> Prop) `{forall x, Decision (P x)} (l : list A) :
  (forall x, ~ P x) -> filter P l = [].
Proof.
  intros Hn. induction l as [|x l IH]; [done|].
  rewrite filter_cons_False; [done | apply Hn].
Qed.

(** With an empty scope the patient search finds nothing: it replies an
    empty bundle, unless the [birthdate] of the query does not parse. *)
Lemma searchPatients_empty_scope (birthDateIs : string -> option (PatientRow -> bool))
    (nameMatches : string -> PatientRow -> bool)
    (user : User) (birthdate name : option string) (db : Prisma) :
  organizationIds user = [] ->
  searchPatients birthDateIs nameMatches user birthdate name db
  = match (if truthy birthdate then birthDateIs (default "" birthdate)
           else Some (fun _ => true)) with
    | Some _ => Bundle "searchset" []
    | None =>
        SearchFailed 500 (createOperationOutcome "error" "exception" "Internal server error")
    end.
Proof.
  intros Hids. unfold searchPatients. rewrite Hids.
  destruct (if truthy birthdate then _ else _) as [onBirthDate|]; [|done].
  rewrite (filter_none _ (patients db)).
  - by destruct (truthy name).
  - intros p. by rewrite patientInScope_nil.
Qed.

(** C4.  For a non-super-admin identity whose lookup returns no
    active access, [organizationIds] is empty.  The hook replies 403 when the
    request carries an organization header or the identity has a primary
    organization; otherwise the resolution does not fail: the hook replies
    nothing and attaches a context of that identity with empty
    [organizationIds] and undefined [currentOrganizationId]. *)
Theorem C4_no_access_identity (srv : Server) (f : Faults) (req : Request)
    (db : Prisma) (user : LoadedUser) :
  loadedUser srv f req db = Some user ->
  user_role (row user) <> "super_admin" ->
  loaded_access user = [] ->
  healed_organizationIds (selfHeal srv f db user) = [] /\
  (truthy (js_or (x_organization_id req) (user_primaryOrganizationId (row user))) = true ->
   (preHandler srv f req db).2 = forbidden) /\
  (truthy (js_or (x_organization_id req) (user_primaryOrganizationId (row user))) = false ->
   (forall status body, (preHandler srv f req db).2 <> Replied status body) /\
   exists ctx,
     (preHandler srv f req db).2 = Attached ctx /\
     id ctx = user_id (row user) /\
     organizationIds ctx = [] /\
     currentOrganizationId ctx = None).
Proof.
  intros Hl Hrole Hacc.
  destruct (preHandler_loaded _ _ _ _ _ Hl) as [lg Hp]. rewrite Hp.
  rewrite (selfHeal_skipped srv f db user (or_intror Hrole)). simpl. rewrite Hacc. simpl.
  split; [done|].
  unfold validate, selectCurrent. simpl.
  assert (forall v, js_or v None = if truthy v then v else None) as Hor by done.
  split; intros Ht.
  - rewrite Hor, Ht, Ht. simpl.
    destruct (truthy_Some _ Ht) as (c & -> & _). done.
  - rewrite Hor, Ht. simpl. split; [done|]. by eexists.
Qed.

(** Staff [S] has no access; with the header [O1] the request is refused. *)
Lemma C4_no_access_identity_witness :
  (preHandler demoServer noFaults (mkRequest "/fhir/Patient" (Some "S") (Some "O1")) demoDb).2
  = forbidden.
Proof.
  apply (C4_no_access_identity demoServer noFaults
           (mkRequest "/fhir/Patient" (Some "S") (Some "O1")) demoDb loadedS);
    [reflexivity | discriminate | reflexivity | reflexivity].
Defined.

(** Staff [S], no access, no header, no primary organization: the
    resolution does not fail, the hook attaches a context with an empty
    scope. *)
Lemma C4_counterexample :
  loadedUser demoServer noFaults (mkRequest "/fhir/Patient" (Some "S") None) demoDb
    = Some loadedS /\
  user_role (row loadedS) <> "super_admin" /\
  loaded_access loadedS = [] /\
  (preHandler demoServer noFaults (mkRequest "/fhir/Patient" (Some "S") None) demoDb).2
    = Attached (userContext loadedS [] None) /\
  (forall status body,
      (preHandler demoServer noFaults (mkRequest "/fhir/Patient" (Some "S") None) demoDb).2
      <> Replied status body).
Proof.
  repeat split; try reflexivity; discriminate.
Qed.

(** ** C6: failures inside the self-heal *)

Lemma preHandler_loaded_log (srv : Server) (f : Faults) (req : Request) (db : Prisma)
    (user : LoadedUser) :
  loadedUser srv f req db = Some user ->
  exists pre post,
    (preHandler srv f req db).1.2 = pre ++ healed_log (selfHeal srv f db user) ++ post.
Proof.
  unfold loadedUser, spawn, preHandler, resolve, attach. simpl.
  destruct (isStaticOrDebug (url req)); [done|].
  destruct (isPublicRoute srv (url req)); [done|].
  destruct (truthy (authorization req)); simpl; [|done].
  destruct (String.eqb _ ""); [done|].
  destruct (jwt_verify srv _) as [decoded|]; [|done].
  destruct (call _ _) as [[u|]|]; try done.
  destruct (user_active (row u)) eqn:Hact; simpl; [|done].
  intros [= ->].
  destruct (validate req _ _) as [lg out]. simpl.
  by exists [(Info, "Auth check"); (Info, "Verifying JWT token");
             (Info, "Token decoded successfully");
             (Info, "Looking up user in database"); (Info, "User found")], lg.
Qed.

Lemma loadedUser_withCreateFault (srv : Server) (f : Faults) (cf : string -> option string)
    (req : Request) (db : Prisma) :
  loadedUser srv (withCreateFault f cf) req db = loadedUser srv f req db.
Proof. reflexivity. Qed.

(** Whether the update of the primary organization throws depends on the
    users of the store only. *)
Lemma updatePrimary_throws (f : Faults) (user : LoadedUser)
    (all : list OrganizationRow) (db1 db2 : Prisma) :
  users db1 = users db2 ->
  match updatePrimary f user all db1, updatePrimary f user all db2 with
  | Ok _, Ok _ | Throw _, Throw _ => True
  | _, _ => False
  end.
Proof.
  intros Hu. unfold updatePrimary, user_update_primary. rewrite Hu.
  destruct (_ && _); [|done]. destruct all as [|org0 ?]; [done|].
  destruct (update_fault f); simpl; [done|]. by destruct (existsb _ _).
Qed.

(** What the request goes on with does not depend on the inserts. *)
Lemma selfHeal_inserts_irrelevant (srv : Server) (f : Faults)
    (cf : string -> option string) (db : Prisma) (user : LoadedUser) :
  healed_user (selfHeal srv (withCreateFault f cf) db user)
    = healed_user (selfHeal srv f db user) /\
  healed_organizationIds (selfHeal srv (withCreateFault f cf) db user)
    = healed_organizationIds (selfHeal srv f db user).
Proof.
  unfold selfHeal. simpl. destruct (_ && _); [|done].
  destruct (call (findMany_fault f) _) as [all|]; [|done].
  pose proof (createAccessForAll_frame srv (withCreateFault f cf) (user_id (row user)) all db)
    as (Hu1 & _).
  pose proof (createAccessForAll_frame srv f (user_id (row user)) all db) as (Hu2 & _).
  destruct (createAccessForAll srv (withCreateFault f cf) _ _ _) as [db1 l1].
  destruct (createAccessForAll srv f _ _ _) as [db2 l2]. simpl in Hu1, Hu2.
  assert (updatePrimary (withCreateFault f cf) user all db1 = updatePrimary f user all db1)
    as -> by done.
  pose proof (updatePrimary_throws f user all db1 db2) as Hthrow.
  rewrite Hu1, Hu2 in Hthrow. specialize (Hthrow eq_refl).
  destruct (updatePrimary f user all db1) as [[? ?]|],
           (updatePrimary f user all db2) as [[? ?]|]; done.
Qed.

(** With an empty [organizationIds] the request is refused exactly when a
    header or a primary organization is there to be refused. *)
Lemma validate_empty_scope (req : Request) (user : LoadedUser) :
  (validate req user []).2
  = if truthy (js_or (x_organization_id req) (user_primaryOrganizationId (row user)))
    then forbidden
    else Attached (userContext user [] None).
Proof.
  unfold validate, selectCurrent. simpl.
  assert (forall v, js_or v None = if truthy v then v else None) as Hor by done.
  rewrite Hor.
  destruct (truthy (js_or _ _)) eqn:Ht; rewrite ?Ht; simpl; [|done].
  by destruct (truthy_Some _ Ht) as (c & -> & _).
Qed.

(** An insert that meets the uniqueness constraint is ignored without a log
    entry. *)
Lemma conflict_is_silent (srv : Server) (f : Faults) (db : Prisma) (uid : string)
    (org : OrganizationRow) :
  create_fault f (organization_id org) = None ->
  hasAccessRow db uid (organization_id org) = true ->
  createAccessForAll srv f uid [org] db = (db, []).
Proof.
  intros Hf Hrow. simpl. rewrite Hf. simpl.
  unfold userOrganizationAccess_create. by rewrite Hrow.
Qed.

(** C6.  No failure inside the self-heal surfaces as Conflict or Internal:
    once the identity is loaded the hook ends with a context or with 403.
    Failures of the single inserts never change how the request ends, and an
    insert that meets the uniqueness constraint is ignored without a log
    entry.  A failure of the enumeration is logged as an error and leaves
    [organizationIds] empty, so that the request is refused with 403 when it
    carries an organization header or the identity has a primary
    organization. *)
Theorem C6_self_heal_failures (srv : Server) (f : Faults) (req : Request)
    (db : Prisma) (user : LoadedUser) :
  loadedUser srv f req db = Some user ->
  ((exists ctx, (preHandler srv f req db).2 = Attached ctx)
   \/ (preHandler srv f req db).2 = forbidden) /\
  (forall cf, (preHandler srv (withCreateFault f cf) req db).2 = (preHandler srv f req db).2) /\
  (forall db1 org,
      create_fault f (organization_id org) = None ->
      hasAccessRow db1 (user_id (row user)) (organization_id org) = true ->
      createAccessForAll srv f (user_id (row user)) [org] db1 = (db1, [])) /\
  (forall m,
      user_role (row user) = "super_admin" ->
      loaded_access user = [] ->
      findMany_fault f = Some m ->
      (Error, "Failed to grant organization access to super admin")
        ∈ (preHandler srv f req db).1.2 /\
      healed_organizationIds (selfHeal srv f db user) = [] /\
      (truthy (js_or (x_organization_id req) (user_primaryOrganizationId (row user))) = true ->
       (preHandler srv f req db).2 = forbidden)).
Proof.
  intros Hl. destruct (preHandler_loaded _ _ _ _ _ Hl) as [lg Hp].
  split; [|split; [|split]].
  - rewrite Hp. simpl.
    destruct (validate_cases req (healed_user (selfHeal srv f db user))
                (healed_organizationIds (selfHeal srv f db user)))
      as [(c & _ & _ & _ & Hv)|[_ Hv]]; rewrite Hv; [by right | left; by eexists].
  - intros cf.
    pose proof Hl as Hl'. rewrite <- (loadedUser_withCreateFault srv f cf) in Hl'.
    destruct (preHandler_loaded _ _ _ _ _ Hl') as [lg' Hp'].
    rewrite Hp, Hp'. simpl.
    by destruct (selfHeal_inserts_irrelevant srv f cf db user) as [-> ->].
  - intros db1 org. apply conflict_is_silent.
  - intros m Hrole Hacc Hfm.
    assert (selfHeal srv f db user =
              {| healed_db := db;
                 healed_log :=
                   [(Info, "Super admin has no organization access, granting access to all organizations");
                    (Error, "Failed to grant organization access to super admin")];
                 healed_user := user; healed_organizationIds := [] |}) as Hh.
    { unfold selfHeal. by rewrite Hacc, Hrole, Hfm. }
    split; [|split].
    + destruct (preHandler_loaded_log _ _ _ _ _ Hl) as (pre & post & ->).
      rewrite Hh. simpl. apply elem_of_app. right.
      apply elem_of_cons. right. apply elem_of_cons. by left.
    + by rewrite Hh.
    + intros Ht. rewrite Hp, Hh. simpl. by rewrite validate_empty_scope, Ht.
Qed.

(** Super admin [A] sends the header [O1] while the enumeration fails. *)
Lemma C6_self_heal_failures_witness :
  (Error, "Failed to grant organization access to super admin")
    ∈ (preHandler demoServer enumerationFails
         (mkRequest "/fhir/Patient" (Some "A") (Some "O1")) demoDb).1.2 /\
  healed_organizationIds (selfHeal demoServer enumerationFails demoDb loadedA) = [] /\
  (preHandler demoServer enumerationFails
     (mkRequest "/fhir/Patient" (Some "A") (Some "O1")) demoDb).2 = forbidden.
Proof.
  destruct (C6_self_heal_failures demoServer enumerationFails
              (mkRequest "/fhir/Patient" (Some "A") (Some "O1")) demoDb loadedA eq_refl)
    as (_ & _ & _ & Henum).
  destruct (Henum "Can't reach database server" eq_refl eq_refl eq_refl)
    as (Hlog & Hids & Hrefused).
  split; [exact Hlog|]. split; [exact Hids | exact (Hrefused eq_refl)].
Defined.

(** Super admin [A] has no access yet and asks for the active organization
    [O1].  When the enumeration fails the request is refused with 403; when
    nothing fails the same request gets its context. *)
Lemma C6_counterexample :
  loadedUser demoServer enumerationFails
    (mkRequest "/fhir/Patient" (Some "A") (Some "O1")) demoDb = Some loadedA /\
  (preHandler demoServer enumerationFails
     (mkRequest "/fhir/Patient" (Some "A") (Some "O1")) demoDb).2 = forbidden /\
  (preHandler demoServer noFaults
     (mkRequest "/fhir/Patient" (Some "A") (Some "O1")) demoDb).2
  = Attached (userContext
                {| row := row loadedA;
                   loaded_access :=
                     map (tempAccess "A") (organization_findMany_active demoDb) |}
                ["O1"; "O2"; "O3"; "O4"] (Some "O1")).
Proof. repeat split. Qed.

(** ** C7: the claims of a token *)

Lemma signedClaims_dom (userId userEmail userRole : string) :
  dom (signedClaims userId userEmail userRole)
  = ({["userId"; "email"; "role"]} : gset string).
Proof.
  unfold signedClaims. rewrite !dom_insert_L, dom_empty_L. set_solver.
Qed.

(** C7.  The token of a successful login and the token of a refresh are
    signed over the object [{userId, email, role}] of the user: its property
    names are exactly these three, so no organization access is part of
    it. *)
Theorem C7_token_claims (srv : Server) :
  (forall db e p token uid em rl primary orgs,
      login srv db e p = LoginOk token uid em rl primary orgs ->
      token = jwt_sign srv (signedClaims uid em rl) (expiresIn srv)) /\
  (forall user,
      refresh srv user
      = jwt_sign srv (signedClaims (id user) (email user) (role user)) (expiresIn srv)) /\
  (forall uid em rl,
      dom (signedClaims uid em rl) = ({["userId"; "email"; "role"]} : gset string) /\
      signedClaims uid em rl !! "userId" = Some uid /\
      signedClaims uid em rl !! "email" = Some em /\
      signedClaims uid em rl !! "role" = Some rl /\
      forall k, k <> "userId" -> k <> "email" -> k <> "role" ->
                signedClaims uid em rl !! k = None).
Proof.
  split; [|split].
  - intros db e p token uid em rl primary orgs. unfold login.
    destruct (find _ _) as [u|]; [|done].
    destruct (negb (user_active u)); [done|].
    destruct (negb (bcrypt_compare srv p _)); [done|].
    by intros [= <- <- <- <- _ _].
  - done.
  - intros uid em rl. split; [apply signedClaims_dom|].
    unfold signedClaims. split; [|split; [|split]].
    + by rewrite lookup_insert_eq.
    + rewrite lookup_insert_ne; [|done]. by rewrite lookup_insert_eq.
    + do 2 (rewrite lookup_insert_ne; [|done]). by rewrite lookup_insert_eq.
    + intros k H1 H2 H3. by rewrite !lookup_insert_ne.
Qed.

(** Org admin [B] logs in: the reply lists the organization [O3], the token
    is signed over the three claims only. *)
Lemma C7_token_claims_witness :
  login demoServer demoDb "B@clinic.example" "pw"
    = LoginOk "B" "B" "B@clinic.example" "org_admin" (Some "O3")
        [ {| lo_id := Some "O3"; lo_name := Some "Clinic O3"; lo_role := "admin" |} ] /\
  "B" = jwt_sign demoServer (signedClaims "B" "B@clinic.example" "org_admin")
          (expiresIn demoServer).
Proof.
  assert (login demoServer demoDb "B@clinic.example" "pw"
          = LoginOk "B" "B" "B@clinic.example" "org_admin" (Some "O3")
              [ {| lo_id := Some "O3"; lo_name := Some "Clinic O3"; lo_role := "admin" |} ])
    as H by (vm_compute; reflexivity).
  split; [exact H|].
  exact (proj1 (C7_token_claims demoServer) _ _ _ _ _ _ _ _ _ H).
Defined.

(** ** C8: concurrent first resolutions *)

Lemma hasAccessRow_key (db : Prisma) (uid oid : string) :
  hasAccessRow db uid oid = true <-> (uid, oid) ∈ map accessKey (userOrganizationAccess db).
Proof.
  unfold hasAccessRow. rewrite existsb_exists, elem_of_map. split.
  - intros (a & Hin & H). apply andb_true_iff in H as [H1 H2].
    apply String.eqb_eq in H1, H2. exists a. split.
    + unfold accessKey. congruence.
    + by apply list_elem_of_In.
  - intros (a & Hk & Hin). exists a. split; [by apply list_elem_of_In|].
    unfold accessKey in Hk. injection Hk as -> ->. by rewrite !String.eqb_refl.
Qed.

Lemma filter_key_nil (l : list AccessRow) (k : string * string) :
  k ∉ map accessKey l -> filter (fun a => accessKey a = k) l = [].
Proof.
  induction l as [|a l IH]; simpl; intros Hn; [done|].
  apply not_elem_of_cons in Hn as [Hne Hn].
  rewrite filter_cons_False by congruence. by apply IH.
Qed.

(** Under the uniqueness of the keys, a key that occurs has one row. *)
Lemma filter_key_length (l : list AccessRow) (k : string * string) :
  NoDup (map accessKey l) -> k ∈ map accessKey l ->
  length (filter (fun a => accessKey a = k) l) = 1.
Proof.
  induction l as [|a l IH]; simpl; intros Hnd Hin.
  - by apply elem_of_nil in Hin.
  - apply NoDup_cons in Hnd as [Hna Hnd].
    destruct (decide (accessKey a = k)) as [Heq|Hne].
    + rewrite filter_cons_True by done. simpl.
      rewrite filter_key_nil; [done | by rewrite <- Heq].
    + rewrite filter_cons_False by done.
      apply elem_of_cons in Hin as [Hin|Hin]; [congruence | by apply IH].
Qed.

(** An insert that the constraints allow adds the row and keeps the keys
    unique; one that the uniqueness forbids finds the row in place. *)
Lemma create_step (srv : Server) (db : Prisma) (uid oid rl st : string) :
  NoDup (map accessKey (userOrganizationAccess db)) ->
  existsb (fun u => String.eqb (user_id u) uid) (users db) = true ->
  existsb (fun o => String.eqb (organization_id o) oid) (organizations db) = true ->
  match userOrganizationAccess_create srv db uid oid rl st with
  | Ok db' =>
      NoDup (map accessKey (userOrganizationAccess db')) /\
      users db' = users db /\ organizations db' = organizations db /\
      hasAccessRow db' uid oid = true /\
      (forall x o, hasAccessRow db x o = true -> hasAccessRow db' x o = true)
  | Throw _ => hasAccessRow db uid oid = true
  end.
Proof.
  intros Hnd Hu Ho. unfold userOrganizationAccess_create.
  destruct (hasAccessRow db uid oid) eqn:Hrow; [done|].
  rewrite Hu, Ho. simpl. split; [|split; [done|split; [done|split]]].
  - rewrite map_app. simpl. apply NoDup_app. split; [done|]. split.
    + intros k Hk Hin. apply list_elem_of_singleton in Hin as ->.
      apply hasAccessRow_key in Hk. unfold accessKey in Hk. simpl in Hk. congruence.
    + apply NoDup_singleton.
  - unfold hasAccessRow. simpl. rewrite existsb_app. simpl.
    rewrite !String.eqb_refl. simpl. apply orb_true_r.
  - intros x o. unfold hasAccessRow. simpl. rewrite existsb_app. intros ->. done.
Qed.

Lemma covered_mono (db db' : Prisma) (uid : string) (orgs : list OrganizationRow) :
  (forall x o, hasAccessRow db x o = true -> hasAccessRow db' x o = true) ->
  covered db uid orgs -> covered db' uid orgs.
Proof. intros Hm Hc o Ho. apply Hm. by apply Hc. Qed.

Lemma taskOk_mono (uid : string) (act : list OrganizationRow) (db db' : Prisma) (t : Task) :
  (forall x o, hasAccessRow db x o = true -> hasAccessRow db' x o = true) ->
  taskOk uid act db t -> taskOk uid act db' t.
Proof.
  intros Hm. destruct t as [d|u|u all todo|u all|out]; simpl; try done.
  - intros (Hid & Hall & Hne & gone & Hsplit & Hc). repeat split; try done.
    exists gone. split; [done|]. by apply (covered_mono db).
  - intros [Hid Hc]. split; [done|]. by apply (covered_mono db).
Qed.

(** The loop head, entered with the organizations gone through covered. *)
Lemma enterLoop_ok (uid : string) (db : Prisma) (req : Request) (user : LoadedUser)
    (gone todo : list OrganizationRow) :
  user_id (row user) = uid ->
  covered db uid gone ->
  taskOk uid (gone ++ todo) db (enterLoop req user (gone ++ todo) todo) /\
  (healing (enterLoop req user (gone ++ todo) todo) \/ covered db uid (gone ++ todo)).
Proof.
  intros Hid Hc. destruct todo as [|o todo]; simpl.
  - rewrite app_nil_r. split; [|by right].
    unfold afterLoop, healDone. by destruct (_ && _).
  - split; [|by left]. repeat split; try done. by exists gone.
Qed.

Section Concurrent.

Variables (srv : Server) (uid : string) (db0 : Prisma).

(** One store call of a hook of [uid] keeps the facts about the store,
    never removes a row, and brings the hook forward. *)
Lemma step_preserves (db : Prisma) (th : Thread) :
  NoDup (map accessKey (userOrganizationAccess db)) ->
  organizations db = organizations db0 ->
  (exists u, find (fun r => String.eqb (user_id r) uid) (users db) = Some u /\
             user_role u = "super_admin" /\ user_active u = true) ->
  reachesStore (th_faults th) ->
  taskOk uid (organization_findMany_active db0) db (th_task th) ->
  NoDup (map accessKey (userOrganizationAccess (step srv db th).1)) /\
  organizations (step srv db th).1 = organizations db0 /\
  (exists u, find (fun r => String.eqb (user_id r) uid) (users (step srv db th).1) = Some u /\
             user_role u = "super_admin" /\ user_active u = true) /\
  (forall x o, hasAccessRow db x o = true -> hasAccessRow (step srv db th).1 x o = true) /\
  th_faults (step srv db th).2 = th_faults th /\
  taskOk uid (organization_findMany_active db0) (step srv db th).1
    (th_task (step srv db th).2) /\
  match th_task th with
  | AtFindUnique _ =>
      activeAccessOf db uid = [] -> healing (th_task (step srv db th).2)
  | AtFindMany _ | AtCreate _ _ _ =>
      healing (th_task (step srv db th).2)
      \/ covered (step srv db th).1 uid (organization_findMany_active db0)
  | AtUpdate _ _ => True
  | Done _ => step srv db th = (db, th)
  end.
Proof.
  intros Hnd Horgs (u & Hfind & Hrole & Hact) (Hfu & Hfm & Hfc) Hok.
  assert (organization_findMany_active db = organization_findMany_active db0) as Hactive
    by (unfold organization_findMany_active; by rewrite Horgs).
  destruct th as [f req t]. simpl in *.
  destruct t as [d|user|user all todo|user all|out]; unfold step; simpl.
  - (* the lookup *)
    rewrite Hfu. simpl. unfold user_findUnique. rewrite Hok, Hfind. simpl.
    rewrite Hact. simpl.
    assert (user_id u = uid) as Hid
      by (apply find_some in Hfind as [_ H]; by apply String.eqb_eq).
    destruct (_ && _) eqn:Hc; simpl.
    + repeat split; eauto.
    + repeat split; eauto. intros Hnone. rewrite Hnone, Hrole in Hc. done.
  - (* the enumeration *)
    rewrite Hfm. simpl. rewrite Hactive.
    destruct (enterLoop_ok uid db req user [] (organization_findMany_active db0) Hok)
      as [Htask Hprog]; [by intros o Ho; apply elem_of_nil in Ho|].
    simpl in Htask, Hprog. repeat split; eauto.
  - (* an insert *)
    destruct Hok as (Hid & Hall & Hne & gone & Hsplit & Hcov). subst all.
    destruct todo as [|org rest]; [done|]. rewrite Hfc. simpl.
    assert (existsb (fun o => String.eqb (organization_id o) (organization_id org))
              (organizations db) = true) as Hex.
    { apply existsb_exists. exists org. split; [|apply String.eqb_refl].
      assert (org ∈ organization_findMany_active db) as Hin.
      { rewrite Hactive, Hsplit. apply elem_of_app. right. left. }
      apply list_elem_of_filter in Hin as [_ Hin]. by apply list_elem_of_In. }
    pose proof (create_step srv db uid (organization_id org) "admin" "active" Hnd
                  (find_existsb _ _ _ Hfind) Hex) as Hcreate.
    rewrite Hid.
    destruct (userOrganizationAccess_create srv db uid (organization_id org) _ _)
      as [db'|m]; simpl.
    + destruct Hcreate as (Hnd' & Hu' & Ho' & Hrow & Hmono).
      assert (covered db' uid (gone ++ [org])) as Hcov'.
      { intros o Ho. apply elem_of_app in Ho as [Ho|Ho].
        - apply Hmono. by apply Hcov.
        - apply list_elem_of_singleton in Ho as ->. done. }
      destruct (enterLoop_ok uid db' req user (gone ++ [org]) rest Hid Hcov')
        as [Htask Hprog].
      rewrite <- app_assoc in Htask, Hprog. simpl in Htask, Hprog.
      rewrite <- Hsplit in Htask, Hprog.
      repeat split; try done.
      * by rewrite Ho'.
      * exists u. by rewrite Hu'.
    + assert (covered db uid (gone ++ [org])) as Hcov'.
      { intros o Ho. apply elem_of_app in Ho as [Ho|Ho].
        - by apply Hcov.
        - apply list_elem_of_singleton in Ho as ->. done. }
      destruct (enterLoop_ok uid db req user (gone ++ [org]) rest Hid Hcov')
        as [Htask Hprog].
      rewrite <- app_assoc in Htask, Hprog. simpl in Htask, Hprog.
      rewrite <- Hsplit in Htask, Hprog.
      repeat split; eauto.
  - (* the update of the primary organization *)
    destruct Hok as [Hid Hcov].
    destruct all as [|org0 all]; simpl; [repeat split; eauto|].
    unfold user_update_primary. rewrite Hid, (find_existsb _ _ _ Hfind).
    destruct (update_fault f); simpl; [repeat split; eauto|].
    repeat split; try done.
    exists (setPrimary uid (organization_id org0) u). split; [|split].
    + by apply find_setPrimary.
    + unfold setPrimary. by destruct (String.eqb _ _).
    + unfold setPrimary. by destruct (String.eqb _ _).
  - repeat split; eauto.
Qed.

(** Resuming any hook keeps the invariant. *)
Lemma resume_invariant (s : Prisma * list Thread) (i : nat) :
  Invariant uid db0 s -> Invariant uid db0 (resume srv s i).
Proof.
  intros [Hnd Horgs Huser Hthreads Hprog]. unfold resume.
  destruct s as [db pool]. simpl in *.
  destruct (pool !! i) as [th|] eqn:Hth; [|by constructor].
  destruct (Forall_lookup_1 _ _ _ _ Hthreads Hth) as [Hfaults Hok].
  pose proof (step_preserves db th Hnd Horgs Huser Hfaults Hok)
    as (Hnd' & Horgs' & Huser' & Hmono & Hf' & Hok' & Hcase).
  destruct (step srv db th) as [db' th'] eqn:Hstep. simpl in *.
  assert (i < length pool) as Hlt by by eapply lookup_lt_Some.
  constructor; simpl; try done.
  - apply Forall_insert.
    + eapply Forall_impl; [exact Hthreads|]. simpl. intros t [H1 H2]. split; [done|].
      by apply (taskOk_mono _ _ db).
    + split; [by rewrite Hf' | done].
  - destruct (th_task th) as [d|user|user all todo|user all|out] eqn:Htask.
    + (* the lookup leaves the store as it is *)
      assert (db' = db) as ->.
      { unfold step in Hstep. rewrite Htask in Hstep.
        destruct (call _ _) as [[lu|]|]; [|by injection Hstep..].
        destruct (negb _); [by injection Hstep|].
        destruct (_ && _); by injection Hstep. }
      destruct Hprog as [Hc|[(j & tj & Hj & Hheal)|(Hnone & _)]].
      * by left.
      * right. left. exists j, tj. split; [|done].
        rewrite list_lookup_insert_ne; [done|].
        intros ->. rewrite Hth in Hj. injection Hj as <-. by rewrite Htask in Hheal.
      * right. left. exists i, th'. split; [by apply list_lookup_insert_eq | by apply Hcase].
    + destruct Hcase as [Hheal|Hc]; [|by left].
      right. left. exists i, th'. split; [by apply list_lookup_insert_eq | done].
    + destruct Hcase as [Hheal|Hc]; [|by left].
      right. left. exists i, th'. split; [by apply list_lookup_insert_eq | done].
    + left. destruct Hok as [_ Hc]. by apply (covered_mono db).
    + injection Hcase as -> ->. rewrite list_insert_id by done. done.
Qed.

Lemma runSchedule_invariant (schedule : list nat) (s : Prisma * list Thread) :
  Invariant uid db0 s -> Invariant uid db0 (runSchedule srv schedule s).
Proof.
  revert s. induction schedule as [|i schedule IH]; intros s Hinv; [done|].
  simpl. apply IH. by apply resume_invariant.
Qed.

(** When every hook has ended, every active organization is covered. *)
Lemma invariant_finished (s : Prisma * list Thread) :
  Invariant uid db0 s ->
  Forall (fun th => finished th = true) s.2 ->
  covered s.1 uid (organization_findMany_active db0).
Proof.
  intros [_ _ _ _ Hprog] Hfin.
  destruct Hprog as [Hc|[(j & tj & Hj & Hheal)|(_ & j & tj & d & Hj & Htask)]]; [done|..].
  - pose proof (Forall_lookup_1 _ _ _ _ Hfin Hj) as Hf. unfold finished in Hf.
    by destruct (th_task tj).
  - pose proof (Forall_lookup_1 _ _ _ _ Hfin Hj) as Hf. unfold finished in Hf.
    by rewrite Htask in Hf.
Qed.

End Concurrent.

Lemma firstResolutions_invariant (uid : string) (db : Prisma) (pool : list Thread)
    (u : UserRow) :
  NoDup (map accessKey (userOrganizationAccess db)) ->
  find (fun r => String.eqb (user_id r) uid) (users db) = Some u ->
  user_role u = "super_admin" ->
  user_active u = true ->
  activeAccessOf db uid = [] ->
  pool <> [] ->
  Forall (firstResolution uid) pool ->
  Invariant uid db (db, pool).
Proof.
  intros Hnd Hfind Hrole Hact Hnone Hne Hpool. constructor; simpl; try done.
  - by exists u.
  - eapply Forall_impl; [exact Hpool|]. simpl.
    intros th (Hf & d & Htask & Hid). split; [done|]. by rewrite Htask.
  - right. right. split; [done|].
    destruct pool as [|th pool]; [done|].
    apply Forall_cons in Hpool as [(_ & d & Htask & _) _].
    by exists 0, th, d.
Qed.

(** C8.  Let any number of hooks of one super admin without active access
    start on a store whose access keys are unique, and let their store calls
    interleave in any order, the store raising nothing but constraint
    violations before the final update.  When all hooks have ended, the
    access table still has unique [(userId, organizationId)] keys and holds
    exactly one row of the super admin for every active organization: an
    insert that finds the row in place violates the uniqueness constraint
    and is absorbed. *)
Theorem C8_one_row_per_organization (srv : Server) (db : Prisma) (pool : list Thread)
    (schedule : list nat) (uid : string) (u : UserRow) :
  NoDup (map accessKey (userOrganizationAccess db)) ->
  find (fun r => String.eqb (user_id r) uid) (users db) = Some u ->
  user_role u = "super_admin" ->
  user_active u = true ->
  activeAccessOf db uid = [] ->
  pool <> [] ->
  Forall (firstResolution uid) pool ->
  Forall (fun th => finished th = true) (runSchedule srv schedule (db, pool)).2 ->
  NoDup (map accessKey (userOrganizationAccess (runSchedule srv schedule (db, pool)).1)) /\
  organizations (runSchedule srv schedule (db, pool)).1 = organizations db /\
  forall o, o ∈ organizations db -> organization_active o = true ->
            length (accessRowsFor (runSchedule srv schedule (db, pool)).1 uid
                      (organization_id o)) = 1.
Proof.
  intros Hnd Hfind Hrole Hact Hnone Hne Hpool Hfin.
  pose proof (firstResolutions_invariant uid db pool u Hnd Hfind Hrole Hact Hnone Hne Hpool)
    as Hinv.
  apply (runSchedule_invariant srv uid db schedule) in Hinv.
  pose proof (invariant_finished uid db _ Hinv Hfin) as Hcov.
  destruct Hinv as [Hnd' Horgs' _ _ _].
  split; [done|]. split; [done|].
  intros o Ho Hactive. unfold accessRowsFor.
  apply filter_key_length; [done|]. apply hasAccessRow_key. apply Hcov.
  unfold organization_findMany_active. by apply list_elem_of_filter.
Qed.

(** Two first requests of super admin [A] interleave call by call: [O2]
    ends with one row. *)
Lemma C8_one_row_per_organization_witness :
  length (accessRowsFor (runSchedule demoServer demoSchedule (demoDb, demoPool)).1 "A" "O2") = 1.
Proof.
  assert (NoDup (map accessKey (userOrganizationAccess demoDb))) as Hnd
    by (simpl; apply NoDup_singleton).
  assert (Forall (firstResolution "A") demoPool) as Hpool.
  { repeat constructor; simpl; eexists; split; reflexivity. }
  assert (Forall (fun th => finished th = true)
            (runSchedule demoServer demoSchedule (demoDb, demoPool)).2) as Hfin
    by (vm_compute; repeat constructor).
  destruct (C8_one_row_per_organization demoServer demoDb demoPool demoSchedule "A"
              (mkUser "A" "super_admin" None) Hnd eq_refl eq_refl eq_refl eq_refl
              ltac:(discriminate) Hpool Hfin) as (_ & _ & Hone).
  apply (Hone (mkOrganization "O2" true)); [|reflexivity].
  apply list_elem_of_In. simpl. auto.
Defined.

(** ** The hook, call by call, is the hook *)

Lemma runAlone_finished (srv : Server) (n : nat) (db : Prisma) (th : Thread) :
  finished th = true -> runAlone srv n (db, th) = (db, th).
Proof.
  intros Hfin. induction n as [|n IH]; [done|]. simpl.
  unfold step. unfold finished in Hfin. by destruct (th_task th).
Qed.

Lemma runAlone_add (srv : Server) (a b : nat) (s : Prisma * Thread) :
  runAlone srv (a + b) s = runAlone srv b (runAlone srv a s).
Proof. revert s. induction a as [|a IH]; intros s; simpl; [done | apply IH]. Qed.

(** The suspended loop makes the inserts of [createAccessForAll]. *)
Lemma runAlone_loop (srv : Server) (f : Faults) (req : Request) (user : LoadedUser)
    (all todo : list OrganizationRow) (db : Prisma) :
  runAlone srv (length todo)
    (db, {| th_faults := f; th_req := req; th_task := enterLoop req user all todo |})
  = ((createAccessForAll srv f (user_id (row user)) todo db).1,
     {| th_faults := f; th_req := req; th_task := afterLoop req user all |}).
Proof.
  revert db. induction todo as [|org rest IH]; intros db; [done|].
  change (length (org :: rest)) with (S (length rest)).
  cbn [runAlone enterLoop]. unfold step. simpl.
  destruct (call _ _) as [db'|m]; simpl.
  - rewrite IH. by destruct (createAccessForAll srv f _ rest db').
  - rewrite IH. by destruct (createAccessForAll srv f _ rest db).
Qed.

(** After the loop: at most the update is left. *)
Lemma runAlone_afterLoop (srv : Server) (f : Faults) (req : Request) (user : LoadedUser)
    (all : list OrganizationRow) (db : Prisma) :
  runAlone srv 1
    (db, {| th_faults := f; th_req := req; th_task := afterLoop req user all |})
  = match updatePrimary f user all db with
    | Ok (db', _) =>
        (db', {| th_faults := f; th_req := req; th_task := healDone req user all |})
    | Throw _ =>
        (db, {| th_faults := f; th_req := req; th_task := proceed req user |})
    end.
Proof.
  unfold afterLoop, updatePrimary. simpl.
  destruct (_ && _); [|done].
  unfold step. simpl. destruct all as [|org0 all]; [done|].
  by destruct (call _ _).
Qed.

Lemma runAlone_1 (srv : Server) (db : Prisma) (th : Thread) :
  runAlone srv 1 (db, th) = step srv db th.
Proof. reflexivity. Qed.

(** Run alone and with enough fuel, the suspended hook ends where
    [preHandler] ends: same store, same outcome. *)
Theorem runAlone_preHandler (srv : Server) (f : Faults) (req : Request) (db : Prisma)
    (n : nat) :
  3 + length (organizations db) <= n ->
  runAlone srv n (db, spawn srv f req)
  = ((preHandler srv f req db).1.1,
     {| th_faults := f; th_req := req; th_task := Done (preHandler srv f req db).2 |}).
Proof.
  intros Hn. unfold preHandler, spawn, reply.
  destruct (isStaticOrDebug (url req)); [by apply runAlone_finished|].
  destruct (isPublicRoute srv (url req)); [by apply runAlone_finished|].
  destruct (negb (truthy (authorization req))); [by apply runAlone_finished|].
  destruct (String.eqb _ ""); [by apply runAlone_finished|].
  destruct (jwt_verify srv _) as [decoded|code message]; [|by apply runAlone_finished].
  pose proof (length_filter (fun o => organization_active o = true) (organizations db))
    as Hlen.
  fold (organization_findMany_active db) in Hlen.
  set (m := n - 3 - length (organization_findMany_active db)).
  replace n with (1 + (1 + (length (organization_findMany_active db) + (1 + m))))
    by lia.
  remember (1 + (length (organization_findMany_active db) + (1 + m))) as k1 eqn:Hk1.
  rewrite (runAlone_add srv 1), runAlone_1. unfold step at 1, resolve, reply. simpl.
  destruct (call (findUnique_fault f) _) as [[user|]|msg];
    [|by rewrite runAlone_finished..].
  destruct (negb (user_active (row user))); [by rewrite runAlone_finished|].
  unfold attach, selfHeal.
  destruct (_ && _).
  - subst k1.
    remember (length (organization_findMany_active db) + (1 + m)) as k2 eqn:Hk2.
    rewrite (runAlone_add srv 1), runAlone_1. unfold step at 1. simpl.
    destruct (call (findMany_fault f) _) as [all|msg] eqn:Hcall.
    + assert (all = organization_findMany_active db) as ->.
      { unfold call in Hcall. destruct (findMany_fault f); congruence. }
      subst k2.
      rewrite runAlone_add, runAlone_loop, (runAlone_add srv 1), runAlone_afterLoop.
      destruct (createAccessForAll srv f _ _ db) as [db1 log2]. simpl.
      destruct (updatePrimary f user _ db1) as [[db2 log3]|msg].
      * rewrite runAlone_finished by done. unfold healDone. simpl.
        by destruct (validate req _ _).
      * rewrite runAlone_finished by done. unfold proceed. simpl.
        by destruct (validate req _ _).
    + rewrite runAlone_finished by done. unfold proceed. simpl.
      by destruct (validate req _ _).
  - rewrite runAlone_finished by done. unfold proceed. simpl.
    by destruct (validate req _ _).
Qed.

(** ** Every fair schedule ends all hooks *)

Lemma step_organizations (srv : Server) (db : Prisma) (th : Thread) :
  organizations (step srv db th).1 = organizations db.
Proof.
  unfold step. destruct (th_task th) as [d|user|user all todo|user all|out]; simpl.
  - destruct (call _ _) as [[lu|]|]; try done.
    destruct (negb _); [done|]. by destruct (_ && _).
  - by destruct (call _ _).
  - destruct todo as [|org rest]; [done|].
    destruct (call _ _) as [db'|m] eqn:Hc; [|done]. simpl.
    unfold call in Hc. destruct (create_fault _ _); [done|].
    by apply create_frame in Hc as (_ & -> & _).
  - destruct all as [|org0 all]; [done|].
    destruct (call _ _) as [db'|m] eqn:Hc; [|done]. simpl.
    unfold call, user_update_primary in Hc.
    destruct (update_fault _); [done|]. destruct (existsb _ _); [|done].
    by injection Hc as <-.
  - done.
Qed.

(** A store call brings an unfinished hook strictly closer to its end. *)
Lemma step_callsLeft (srv : Server) (db : Prisma) (th : Thread) :
  finished th = false ->
  callsLeft (length (organizations db)) (th_task (step srv db th).2)
  < callsLeft (length (organizations db)) (th_task th).
Proof.
  unfold finished, step.
  destruct (th_task th) as [d|user|user all todo|user all|out]; simpl; intros Hfin.
  - destruct (call _ _) as [[lu|]|]; simpl; try lia.
    destruct (negb _); simpl; [lia|]. destruct (_ && _); simpl; lia.
  - destruct (call _ _) as [all|m] eqn:Hc; simpl; [|lia].
    assert (length all <= length (organizations db)) as Hlen.
    { unfold call in Hc. destruct (findMany_fault _); [done|]. injection Hc as <-.
      apply length_filter. }
    destruct all as [|org rest]; simpl in *; [|lia].
    unfold afterLoop, healDone. destruct (_ && _); simpl; lia.
  - assert (forall rest, callsLeft (length (organizations db))
                           (enterLoop (th_req th) user all rest) <= 2 + length rest)
      as Hloop.
    { intros [|o rest]; simpl; [|lia].
      unfold afterLoop, healDone. destruct (_ && _); simpl; lia. }
    destruct todo as [|org rest]; simpl.
    + unfold afterLoop, healDone. destruct (_ && _); simpl; lia.
    + destruct (call _ _); simpl; specialize (Hloop rest); lia.
  - destruct all as [|org0 all]; simpl; [lia|]. destruct (call _ _); simpl; lia.
  - done.
Qed.

(** A schedule that resumes every hook often enough ends them all,
    whatever fails. *)
Theorem fair_schedule_finishes (srv : Server) (schedule : list nat)
    (s : Prisma * list Thread) :
  (forall i th, s.2 !! i = Some th ->
                callsLeft (length (organizations s.1)) (th_task th)
                <= count_occ Nat.eq_dec schedule i) ->
  Forall (fun th => finished th = true) (runSchedule srv schedule s).2.
Proof.
  revert s. induction schedule as [|j schedule IH]; intros [db pool] Hfair; simpl in *.
  - apply Forall_lookup_2. intros i th Hth. specialize (Hfair i th Hth).
    unfold finished. destruct (th_task th); simpl in Hfair; done || lia.
  - apply IH. unfold resume. simpl.
    destruct (pool !! j) as [th|] eqn:Hj; simpl.
    + pose proof (step_organizations srv db th) as Horgs.
      pose proof (step_callsLeft srv db th) as Hless.
      destruct (step srv db th) as [db' th'] eqn:Hstep. simpl in *.
      intros i ti Hi. rewrite Horgs.
      destruct (decide (j = i)) as [->|Hne].
      * rewrite list_lookup_insert_eq in Hi by (by eapply lookup_lt_Some).
        injection Hi as <-. specialize (Hfair i th Hj).
        destruct (Nat.eq_dec i i) as [_|]; [|done].
        destruct (finished th) eqn:Hfin.
        -- unfold step in Hstep. unfold finished in Hfin.
           destruct (th_task th) eqn:Htask; try done.
           injection Hstep as <- <-. rewrite Htask. simpl. lia.
        -- specialize (Hless eq_refl). lia.
      * rewrite list_lookup_insert_ne in Hi by done.
        specialize (Hfair i ti Hi). by destruct (Nat.eq_dec j i).
    + intros i ti Hi. specialize (Hfair i ti Hi).
      destruct (Nat.eq_dec j i) as [->|]; [congruence | done].
Qed.

(** * Further properties of the hook *)

(** ** The authorization header *)

Lemma replace_unfold (s p r : string) :
  replace s p r
  = if startsWith s p then r +:+ dropString (String.length p) s
    else match s with
         | EmptyString => EmptyString
         | String c s' => String c (replace s' p r)
         end.
Proof. by destruct s. Qed.

Lemma dropString_append (p t : string) : dropString (String.length p) (p +:+ t) = t.
Proof. induction p as [|c p IH]; [by destruct t | exact IH]. Qed.

Lemma replace_prefix (p t r : string) : replace (p +:+ t) p r = r +:+ t.
Proof.
  rewrite replace_unfold.
  assert (startsWith (p +:+ t) p = true) as -> by (apply startsWith_spec; by exists t).
  by rewrite dropString_append.
Qed.

Lemma replace_absent (s p r : string) : includes s p = false -> replace s p r = s.
Proof.
  induction s as [|c s IH]; simpl; intros H; apply orb_false_iff in H as [H1 H2].
  - by rewrite H1.
  - rewrite H1. by rewrite IH.
Qed.

(** The scheme word is optional: a header that holds the bare token is
    handled as the same token after "Bearer ". *)
Theorem bare_token_is_accepted (srv : Server) (f : Faults) (req : Request) (db : Prisma)
    (t : string) :
  authorization req = Some t ->
  t <> "" ->
  includes t "Bearer " = false ->
  preHandler srv f req db
  = preHandler srv f (withAuthorization req (Some ("Bearer " +:+ t))) db.
Proof.
  intros Ha Hne Hinc. unfold preHandler, withAuthorization.
  cbn [url authorization]. rewrite Ha.
  assert ("Bearer " +:+ t <> "") as Hb by (rewrite append_cons; discriminate).
  rewrite (truthy_Some_ne t Hne), (truthy_Some_ne _ Hb).
  cbn [from_option negb]. unfold Datatypes.id.
  rewrite (replace_absent t "Bearer " "" Hinc), replace_prefix.
  reflexivity.
Qed.

Lemma bare_token_is_accepted_witness :
  preHandler demoServer noFaults
    {| url := "/fhir/Patient"; method := "GET"; authorization := Some "B";
       x_organization_id := None |} demoDb
  = preHandler demoServer noFaults (mkRequest "/fhir/Patient" (Some "B") None) demoDb.
Proof.
  apply (bare_token_is_accepted demoServer noFaults
           {| url := "/fhir/Patient"; method := "GET"; authorization := Some "B";
              x_organization_id := None |} demoDb "B");
    [reflexivity | discriminate | reflexivity].
Defined.

(** ** Who gets a context *)

Lemma spawn_AtFindUnique (srv : Server) (f : Faults) (req : Request) (decoded : JWTPayload) :
  th_task (spawn srv f req) = AtFindUnique decoded ->
  isStaticOrDebug (url req) = false /\ isPublicRoute srv (url req) = false /\
  exists t, authorization req = Some t /\ t <> "" /\
            replace t "Bearer " "" <> "" /\
            jwt_verify srv (replace t "Bearer " "") = Decoded decoded.
Proof.
  unfold spawn. simpl.
  destruct (isStaticOrDebug (url req)); [done|].
  destruct (isPublicRoute srv (url req)); [done|].
  destruct (truthy (authorization req)) eqn:Ht; simpl; [|done].
  apply truthy_Some in Ht as (t & Ha & Hne). rewrite Ha. simpl.
  destruct (String.eqb_spec (replace t "Bearer " "") ""); [done|].
  destruct (jwt_verify srv _) as [d|] eqn:Hv; [|done].
  intros [= <-]. repeat split; try done. by exists t.
Qed.

(** A context is attached only to a request that is not exempt, carries a
    token the verifier accepts, and whose [userId] is the id of a stored,
    active user; id, email and role of the context are those of the stored
    row, whatever the token says about email and role. *)
Theorem context_is_of_stored_active_user (srv : Server) (f : Faults) (req : Request)
    (db db' : Prisma) (log : list LogEntry) (ctx : User) :
  preHandler srv f req db = (db', log, Attached ctx) ->
  isStaticOrDebug (url req) = false /\ isPublicRoute srv (url req) = false /\
  exists t decoded u,
    authorization req = Some t /\
    jwt_verify srv (replace t "Bearer " "") = Decoded decoded /\
    find (fun r => String.eqb (user_id r) (jwt_userId decoded)) (users db) = Some u /\
    user_active u = true /\
    id ctx = jwt_userId decoded /\ id ctx = user_id u /\
    email ctx = user_email u /\ role ctx = user_role u.
Proof.
  intros H. destruct (preHandler_attached _ _ _ _ _ _ _ H) as (user & Hl & ->).
  apply loadedUser_found in Hl as (decoded & Hspawn & _ & Hfind & Hact).
  apply spawn_AtFindUnique in Hspawn as (Hs & Hp & t & Ha & _ & _ & Hv).
  apply user_findUnique_Some in Hfind as (Hfind & Hid & _).
  split; [done|]. split; [done|].
  exists t, decoded, (row user). simpl. rewrite !selfHeal_row. by repeat split.
Qed.

Lemma context_is_of_stored_active_user_witness :
  exists t decoded u,
    authorization (mkRequest "/fhir/Patient" (Some "B") None) = Some t /\
    jwt_verify demoServer (replace t "Bearer " "") = Decoded decoded /\
    find (fun r => String.eqb (user_id r) (jwt_userId decoded)) (users demoDb) = Some u /\
    user_active u = true /\
    id (userContext loadedB ["O3"] (Some "O3")) = jwt_userId decoded /\
    id (userContext loadedB ["O3"] (Some "O3")) = user_id u /\
    email (userContext loadedB ["O3"] (Some "O3")) = user_email u /\
    role (userContext loadedB ["O3"] (Some "O3")) = user_role u.
Proof.
  refine (proj2 (proj2 (context_is_of_stored_active_user demoServer noFaults
                          (mkRequest "/fhir/Patient" (Some "B") None) demoDb demoDb _
                          (userContext loadedB ["O3"] (Some "O3")) _))).
  reflexivity.
Defined.

(** ** When the self-heal does not run *)

Lemma loaded_access_rows (srv : Server) (f : Faults) (req : Request) (db : Prisma)
    (user : LoadedUser) (x : string) :
  loadedUser srv f req db = Some user ->
  x ∈ map uoa_organizationId (loaded_access user) <->
  exists a, a ∈ userOrganizationAccess db /\
            access_userId a = user_id (row user) /\
            access_status a = "active" /\ access_organizationId a = x.
Proof.
  intros Hl. apply loadedUser_found in Hl as (d & _ & _ & Hu & _).
  apply user_findUnique_Some in Hu as (_ & Hid & ->). unfold activeAccessOf.
  rewrite List.map_map. rewrite elem_of_map. simpl. split.
  - intros (a & -> & Ha). apply list_elem_of_filter in Ha as [Hc Ha].
    apply andb_true_iff in Hc as [H1 H2].
    apply String.eqb_eq in H1, H2. exists a. repeat split; congruence.
  - intros (a & Ha & H1 & H2 & <-). exists a. split; [done|].
    apply list_elem_of_filter. split; [|done].
    rewrite H1, H2, Hid. by rewrite !String.eqb_refl.
Qed.

(** The self-heal runs on an empty set of active memberships only.  An
    identity with at least one active membership, super admin or not, and any
    identity that is no super admin, goes on with exactly the organizations of
    its active access rows, whether these organizations are active or not;
    the store is left as it is, and a header that names any other
    organization is refused. *)
Theorem no_self_heal_with_memberships (srv : Server) (f : Faults) (req : Request)
    (db : Prisma) (user : LoadedUser) :
  loadedUser srv f req db = Some user ->
  loaded_access user <> [] \/ user_role (row user) <> "super_admin" ->
  (preHandler srv f req db).1.1 = db /\
  (forall ctx x,
      (preHandler srv f req db).2 = Attached ctx ->
      x ∈ organizationIds ctx <->
      exists a, a ∈ userOrganizationAccess db /\
                access_userId a = user_id (row user) /\
                access_status a = "active" /\ access_organizationId a = x) /\
  (forall h,
      x_organization_id req = Some h -> h <> "" ->
      (forall a, a ∈ userOrganizationAccess db ->
                 access_userId a = user_id (row user) ->
                 access_status a = "active" -> access_organizationId a <> h) ->
      (preHandler srv f req db).2 = forbidden).
Proof.
  intros Hl Hskip. destruct (preHandler_loaded _ _ _ _ _ Hl) as [lg Hp].
  rewrite Hp. rewrite (selfHeal_skipped srv f db user Hskip). simpl.
  split; [done|]. split.
  - intros ctx x Hctx.
    destruct (validate_cases req user (map uoa_organizationId (loaded_access user)))
      as [(c & _ & _ & _ & Hv)|[_ Hv]]; rewrite Hv in Hctx; [done|].
    injection Hctx as <-. simpl. by apply (loaded_access_rows srv f req db).
  - intros h Hh Hne Hnone.
    assert (selectCurrent req user (map uoa_organizationId (loaded_access user)) = Some h)
      as Hsel.
    { rewrite selectCurrent_header; rewrite Hh; [done | by apply truthy_Some_ne]. }
    destruct (validate_cases req user (map uoa_organizationId (loaded_access user)))
      as [(c & _ & _ & _ & Hv)|[[Hf|(c & Hc & Hin)] _]]; [done|..].
    + rewrite Hsel, truthy_Some_ne in Hf; done.
    + rewrite Hsel in Hc. injection Hc as <-.
      apply (loaded_access_rows srv f req db user h Hl) in Hin
        as (a & Ha & H1 & H2 & H3).
      by destruct (Hnone a Ha H1 H2).
Qed.

(** Super admin [P] is a member of [O2] only and asks for the active
    organization [O1]. *)
Lemma no_self_heal_with_memberships_witness :
  (preHandler demoServer noFaults (mkRequest "/fhir/Patient" (Some "P") (Some "O1")) demoDbP).1.1
    = demoDbP /\
  (preHandler demoServer noFaults (mkRequest "/fhir/Patient" (Some "P") (Some "O1")) demoDbP).2
    = forbidden.
Proof.
  assert (loadedUser demoServer noFaults
            (mkRequest "/fhir/Patient" (Some "P") (Some "O1")) demoDbP = Some loadedP) as Hl
    by (vm_compute; reflexivity).
  assert (loaded_access loadedP <> [] \/ user_role (row loadedP) <> "super_admin") as Hm
    by (left; discriminate).
  pose proof (no_self_heal_with_memberships demoServer noFaults
                (mkRequest "/fhir/Patient" (Some "P") (Some "O1")) demoDbP loadedP
                Hl Hm) as (Hdb & _ & Hrefused).
  split; [exact Hdb|].
  apply (Hrefused "O1"); [reflexivity | discriminate |].
  intros a Ha Hu Hs Ho. apply list_elem_of_In in Ha. simpl in Ha.
  destruct Ha as [<-|[<-|[]]]; discriminate.
Defined.

(** ** What the hook writes *)

Lemma createAccessForAll_rows (srv : Server) (f : Faults) (uid : string)
    (orgs : list OrganizationRow) (db : Prisma) :
  exists added,
    userOrganizationAccess (createAccessForAll srv f uid orgs db).1
      = userOrganizationAccess db ++ added /\
    Forall (fun a => access_userId a = uid /\ access_role a = "admin" /\
                     access_status a = "active" /\
                     exists o, o ∈ orgs /\ access_organizationId a = organization_id o)
      added.
Proof.
  revert db. induction orgs as [|org orgs IH]; intros db; simpl.
  - exists []. by rewrite app_nil_r.
  - destruct (call _ _) as [db1|m] eqn:Hc.
    + destruct (IH db1) as (added & Hrows & Hall).
      destruct (createAccessForAll srv f uid orgs db1) as [db2 log2]. simpl in *.
      unfold call in Hc. destruct (create_fault f _); [done|].
      unfold userOrganizationAccess_create in Hc.
      destruct (hasAccessRow db uid _); [done|]. destruct (negb _); [done|].
      injection Hc as <-. simpl in Hrows. rewrite <- app_assoc in Hrows.
      eexists. split; [exact Hrows|]. simpl. constructor.
      * simpl. repeat split. exists org. split; [left | done].
      * eapply Forall_impl; [exact Hall|]. simpl.
        intros a (H1 & H2 & H3 & o & Ho & H4). repeat split; try done.
        exists o. split; [by right | done].
    + destruct (IH db) as (added & Hrows & Hall).
      destruct (createAccessForAll srv f uid orgs db) as [db2 log2]. simpl in *.
      exists added. split; [done|].
      eapply Forall_impl; [exact Hall|]. simpl.
      intros a (H1 & H2 & H3 & o & Ho & H4). repeat split; try done.
      exists o. split; [by right | done].
Qed.

Lemma updatePrimary_frame (f : Faults) (user : LoadedUser) (all : list OrganizationRow)
    (db db' : Prisma) (log : list LogEntry) :
  updatePrimary f user all db = Ok (db', log) ->
  userOrganizationAccess db' = userOrganizationAccess db /\
  organizations db' = organizations db /\ patients db' = patients db /\
  (users db' = users db
   \/ exists oid, truthy (user_primaryOrganizationId (row user)) = false /\
                  users db' = map (setPrimary (user_id (row user)) oid) (users db)).
Proof.
  unfold updatePrimary.
  destruct (negb (truthy _)) eqn:Hp; simpl; [|intros [= <- _]; by repeat split; left].
  destruct (0 <? length all)%nat; [|intros [= <- _]; by repeat split; left].
  destruct all as [|org0 all]; [done|].
  destruct (call _ _) as [db1|] eqn:Hc; [|done]. intros [= <- _].
  unfold call, user_update_primary in Hc. destruct (update_fault f); [done|].
  destruct (existsb _ _); [|done]. injection Hc as <-. simpl.
  repeat split. right. exists (organization_id org0). split; [|done].
  by apply negb_true_iff.
Qed.

(** The rows the self-heal leaves are those its loop leaves. *)
Lemma selfHeal_frame (srv : Server) (f : Faults) (db : Prisma) (user : LoadedUser) :
  organizations (healed_db (selfHeal srv f db user)) = organizations db /\
  patients (healed_db (selfHeal srv f db user)) = patients db /\
  (healed_db (selfHeal srv f db user) = db
   \/ (user_role (row user) = "super_admin" /\ loaded_access user = [] /\
       findMany_fault f = None /\
       userOrganizationAccess (healed_db (selfHeal srv f db user))
         = userOrganizationAccess
             (createAccessForAll srv f (user_id (row user))
                (organization_findMany_active db) db).1 /\
       (users (healed_db (selfHeal srv f db user)) = users db
        \/ exists oid,
             truthy (user_primaryOrganizationId (row user)) = false /\
             users (healed_db (selfHeal srv f db user))
               = map (setPrimary (user_id (row user)) oid) (users db)))).
Proof.
  unfold selfHeal. destruct (_ && _) eqn:Hc; [|by repeat split; left].
  apply andb_true_iff in Hc as [Hlen Hrole].
  apply Nat.eqb_eq in Hlen. rewrite length_map in Hlen.
  apply String.eqb_eq in Hrole.
  assert (loaded_access user = []) as Hacc by by destruct (loaded_access user).
  destruct (findMany_fault f) eqn:Hfm; simpl; [by repeat split; left|].
  pose proof (createAccessForAll_frame srv f (user_id (row user))
                (organization_findMany_active db) db) as (Hu & Ho & Hp).
  destruct (createAccessForAll _ _ _ _ _) as [db1 log2]. simpl in *.
  destruct (updatePrimary f user _ db1) as [[db2 log3]|m] eqn:Hup; simpl.
  - apply updatePrimary_frame in Hup as (Hr2 & Ho2 & Hp2 & Hu2).
    rewrite Ho2, Hp2, Hr2. repeat split; try done. right. repeat split; try done.
    by rewrite <- Hu.
  - repeat split; try done. right. repeat split; try done. by left.
Qed.

(** The hook writes nothing but its self-heal: organizations and patients
    are never touched; access rows are only appended, each for the super admin
    the request is of, who had no active access, with role "admin", status
    "active" and an active organization; and the users change at most in the
    primary organization of that super admin, when it was unset. *)
Theorem hook_writes_only_self_heal (srv : Server) (f : Faults) (req : Request) (db : Prisma) :
  organizations (preHandler srv f req db).1.1 = organizations db /\
  patients (preHandler srv f req db).1.1 = patients db /\
  (exists added,
      userOrganizationAccess (preHandler srv f req db).1.1
        = userOrganizationAccess db ++ added /\
      Forall (fun a =>
                access_role a = "admin" /\ access_status a = "active" /\
                (exists o, o ∈ organizations db /\ organization_active o = true /\
                           access_organizationId a = organization_id o) /\
                exists user,
                  loadedUser srv f req db = Some user /\
                  user_role (row user) = "super_admin" /\ loaded_access user = [] /\
                  access_userId a = user_id (row user))
        added) /\
  (users (preHandler srv f req db).1.1 = users db
   \/ exists user oid,
        loadedUser srv f req db = Some user /\
        user_role (row user) = "super_admin" /\ loaded_access user = [] /\
        truthy (user_primaryOrganizationId (row user)) = false /\
        users (preHandler srv f req db).1.1
          = map (setPrimary (user_id (row user)) oid) (users db)).
Proof.
  destruct (loadedUser srv f req db) as [user|] eqn:Hl.
  - destruct (preHandler_loaded _ _ _ _ _ Hl) as [lg Hp]. rewrite Hp. simpl.
    destruct (selfHeal_frame srv f db user) as (Ho & Hpat & [->|Hheal]).
    + repeat split; try done; [|by left]. exists []. by rewrite app_nil_r.
    + destruct Hheal as (Hrole & Hacc & Hfm & Hrows & Hu).
      split; [done|]. split; [done|]. split.
      * destruct (createAccessForAll_rows srv f (user_id (row user))
                    (organization_findMany_active db) db) as (added & Ha & Hall).
        exists added. rewrite Hrows. split; [done|].
        eapply Forall_impl; [exact Hall|]. simpl.
        intros a (H1 & H2 & H3 & o & Hin & H4). repeat split; try done.
        -- apply list_elem_of_filter in Hin as [Hact Hin]. by exists o.
        -- by exists user.
      * destruct Hu as [Hu|(oid & Hunset & Hu)]; [by left|]. right. by exists user, oid.
  - destruct (preHandler_unloaded _ _ _ _ Hl) as (lg & out & Hp & _). rewrite Hp. simpl.
    repeat split; try done; [|by left]. exists []. by rewrite app_nil_r.
Qed.

(** ** Suspended access of a super admin *)

Lemma createAccessForAll_covered (srv : Server) (f : Faults) (uid : string)
    (orgs : list OrganizationRow) (db : Prisma) :
  covered db uid orgs -> (createAccessForAll srv f uid orgs db).1 = db.
Proof.
  induction orgs as [|org orgs IH]; intros Hc; simpl; [done|].
  assert (hasAccessRow db uid (organization_id org) = true) as Hrow by (apply Hc; left).
  assert (covered db uid orgs) as Hc' by (intros o Ho; apply Hc; by right).
  assert (call (create_fault f (organization_id org))
            (userOrganizationAccess_create srv db uid (organization_id org) "admin" "active")
          = Throw (default uniqueViolation (create_fault f (organization_id org)))) as ->.
  { unfold call, userOrganizationAccess_create. rewrite Hrow.
    by destruct (create_fault f _). }
  specialize (IH Hc'). by destruct (createAccessForAll srv f uid orgs db).
Qed.

Lemma loaded_access_nil (srv : Server) (f : Faults) (req : Request) (db : Prisma)
    (user : LoadedUser) :
  loadedUser srv f req db = Some user ->
  loaded_access user = [] <->
  forall a, a ∈ userOrganizationAccess db ->
            access_userId a = user_id (row user) -> access_status a <> "active".
Proof.
  intros Hl. split.
  - intros Hnil a Ha Hu Hs.
    assert (access_organizationId a ∈ map uoa_organizationId (loaded_access user)) as Hin
      by (apply (loaded_access_rows srv f req db user _ Hl); by exists a).
    rewrite Hnil in Hin. by apply elem_of_nil in Hin.
  - intros Hnone. destruct (loaded_access user) as [|x l] eqn:Hacc; [done|].
    assert (uoa_organizationId x ∈ map uoa_organizationId (loaded_access user)) as Hin
      by (rewrite Hacc; left).
    apply (loaded_access_rows srv f req db user _ Hl) in Hin as (a & Ha & Hu & Hs & _).
    by destruct (Hnone a Ha Hu).
Qed.

(** Suspending the access of a super admin does not take it away: when
    every active organization has a row of the super admin and none of them is
    active, the self-heal runs, every insert meets the uniqueness constraint
    and the rows stay as they are; the request still goes on with all active
    organizations, and the next request of the identity finds no active
    access again. *)
Theorem suspended_super_admin_keeps_access (srv : Server) (f : Faults) (req : Request)
    (db : Prisma) (user : LoadedUser) :
  loadedUser srv f req db = Some user ->
  user_role (row user) = "super_admin" ->
  loaded_access user = [] ->
  covered db (user_id (row user)) (organization_findMany_active db) ->
  findMany_fault f = None ->
  update_fault f = None ->
  userOrganizationAccess (preHandler srv f req db).1.1 = userOrganizationAccess db /\
  healed_organizationIds (selfHeal srv f db user)
    = map organization_id (organization_findMany_active db) /\
  (forall ctx, (preHandler srv f req db).2 = Attached ctx ->
               organizationIds ctx = map organization_id (organization_findMany_active db)) /\
  (forall f2 req2 user2,
      loadedUser srv f2 req2 (preHandler srv f req db).1.1 = Some user2 ->
      user_id (row user2) = user_id (row user) ->
      loaded_access user2 = []).
Proof.
  intros Hl Hrole Hacc Hcov Hfm Hup.
  pose proof (loadedUser_exists _ _ _ _ _ Hl) as Hfind.
  destruct (selfHeal_granted srv f db user Hacc Hrole Hfm Hup (find_existsb _ _ _ Hfind))
    as (Hids & Huser & _ & _).
  destruct (preHandler_loaded _ _ _ _ _ Hl) as [lg Hp]. rewrite Hp. simpl.
  assert (userOrganizationAccess (healed_db (selfHeal srv f db user))
          = userOrganizationAccess db) as Hrows.
  { destruct (selfHeal_frame srv f db user) as (_ & _ & [->|(_ & _ & _ & Hr & _)]); [done|].
    by rewrite Hr, createAccessForAll_covered. }
  split; [done|]. split; [done|]. split.
  - intros ctx Hctx.
    destruct (validate_cases req (healed_user (selfHeal srv f db user))
                (healed_organizationIds (selfHeal srv f db user)))
      as [(c & _ & _ & _ & Hv)|[_ Hv]]; rewrite Hv in Hctx; [done|].
    injection Hctx as <-. done.
  - intros f2 req2 user2 Hl2 Hid.
    apply (loaded_access_nil srv f2 req2 _ user2 Hl2). rewrite Hrows, Hid.
    by apply (loaded_access_nil srv f req db user Hl).
Qed.

(** Super admin [A], suspended in [O1] .. [O4], is still given all four. *)
Lemma suspended_super_admin_keeps_access_witness :
  userOrganizationAccess
    (preHandler demoServer noFaults (mkRequest "/fhir/Patient" (Some "A") None)
       demoDbSuspended).1.1
    = userOrganizationAccess demoDbSuspended /\
  healed_organizationIds (selfHeal demoServer noFaults demoDbSuspended loadedA)
    = ["O1"; "O2"; "O3"; "O4"].
Proof.
  assert (covered demoDbSuspended "A" (organization_findMany_active demoDbSuspended)) as Hc.
  { intros o Ho. apply list_elem_of_In in Ho. simpl in Ho.
    destruct Ho as [<-|[<-|[<-|[<-|[]]]]]; reflexivity. }
  destruct (suspended_super_admin_keeps_access demoServer noFaults
              (mkRequest "/fhir/Patient" (Some "A") None) demoDbSuspended loadedA
              eq_refl eq_refl eq_refl Hc eq_refl eq_refl) as (Hrows & Hids & _).
  split; [exact Hrows | exact Hids].
Defined.

(** ** The request after the self-heal *)

Lemma create_covers (srv : Server) (db : Prisma) (uid oid rl st : string) :
  existsb (fun u => String.eqb (user_id u) uid) (users db) = true ->
  existsb (fun o => String.eqb (organization_id o) oid) (organizations db) = true ->
  match userOrganizationAccess_create srv db uid oid rl st with
  | Ok db' =>
      hasAccessRow db' uid oid = true /\
      (forall x o, hasAccessRow db x o = true -> hasAccessRow db' x o = true)
  | Throw _ => hasAccessRow db uid oid = true
  end.
Proof.
  intros Hu Ho. unfold userOrganizationAccess_create.
  destruct (hasAccessRow db uid oid) eqn:Hrow; [done|].
  rewrite Hu, Ho. simpl. split.
  - unfold hasAccessRow. simpl. rewrite existsb_app. simpl.
    rewrite !String.eqb_refl. simpl. apply orb_true_r.
  - intros x o. unfold hasAccessRow. simpl. rewrite existsb_app. intros ->. done.
Qed.

Lemma createAccessForAll_covers (srv : Server) (f : Faults) (uid : string)
    (orgs : list OrganizationRow) (db : Prisma) :
  (forall oid, create_fault f oid = None) ->
  existsb (fun u => String.eqb (user_id u) uid) (users db) = true ->
  (forall o, o ∈ orgs ->
             existsb (fun r => String.eqb (organization_id r) (organization_id o))
               (organizations db) = true) ->
  covered (createAccessForAll srv f uid orgs db).1 uid orgs /\
  (forall x o, hasAccessRow db x o = true ->
               hasAccessRow (createAccessForAll srv f uid orgs db).1 x o = true).
Proof.
  intros Hf. revert db. induction orgs as [|org orgs IH]; intros db Hu Ho; simpl.
  - split; [|done]. intros o Hin. by apply elem_of_nil in Hin.
  - rewrite Hf. simpl.
    pose proof (create_covers srv db uid (organization_id org) "admin" "active" Hu
                  (Ho org ltac:(left))) as Hc.
    destruct (userOrganizationAccess_create srv db uid (organization_id org) _ _)
      as [db1|m] eqn:Hcreate.
    + destruct Hc as [Hrow Hmono].
      apply create_frame in Hcreate as (Hu1 & Ho1 & _).
      destruct (IH db1) as [Hcov Hmono2].
      { by rewrite Hu1. }
      { intros o Hin. rewrite Ho1. apply Ho. by right. }
      destruct (createAccessForAll srv f uid orgs db1) as [db2 l2]. simpl in *.
      split.
      * intros o Hin. apply elem_of_cons in Hin as [->|Hin]; [by apply Hmono2 | by apply Hcov].
      * intros x o Hx. by apply Hmono2, Hmono.
    + destruct (IH db Hu) as [Hcov Hmono2].
      { intros o Hin. apply Ho. by right. }
      destruct (createAccessForAll srv f uid orgs db) as [db2 l2]. simpl in *.
      split; [|done].
      intros o Hin. apply elem_of_cons in Hin as [->|Hin]; [by apply Hmono2 | by apply Hcov].
Qed.

(** After the first pass of a super admin who had no access row at all, in
    which no lookup, enumeration or insert failed before it reached the
    store, every later lookup of the identity returns active access to
    exactly the active organizations: the hook leaves the store as it is from
    then on, and a header that names any active organization selects it. *)
Theorem request_after_self_heal (srv : Server) (f : Faults) (req : Request)
    (db : Prisma) (user : LoadedUser) :
  loadedUser srv f req db = Some user ->
  user_role (row user) = "super_admin" ->
  (forall a, a ∈ userOrganizationAccess db -> access_userId a <> user_id (row user)) ->
  reachesStore f ->
  forall f2 req2 user2,
    loadedUser srv f2 req2 (preHandler srv f req db).1.1 = Some user2 ->
    user_id (row user2) = user_id (row user) ->
    (forall x, x ∈ map uoa_organizationId (loaded_access user2) <->
               exists o, o ∈ organizations db /\ organization_active o = true /\
                         organization_id o = x) /\
    (preHandler srv f2 req2 (preHandler srv f req db).1.1).1.1
      = (preHandler srv f req db).1.1 /\
    (forall h,
        x_organization_id req2 = Some h -> h <> "" ->
        (exists o, o ∈ organizations db /\ organization_active o = true /\
                   organization_id o = h) ->
        exists ctx,
          (preHandler srv f2 req2 (preHandler srv f req db).1.1).2 = Attached ctx /\
          currentOrganizationId ctx = Some h).
Proof.
  intros Hl Hrole Hnone (Hfu & Hfm & Hfc) f2 req2 user2 Hl2 Hid.
  pose proof (loadedUser_exists _ _ _ _ _ Hl) as Hfind.
  assert (loaded_access user = []) as Hacc.
  { apply (loaded_access_nil srv f req db user Hl). intros a Ha Hu. by destruct (Hnone a Ha). }
  destruct (preHandler_loaded _ _ _ _ _ Hl) as [lg Hp].
  rewrite Hp in *. simpl in *.
  destruct (selfHeal_frame srv f db user) as (Horgs & _ & _).
  destruct (createAccessForAll_rows srv f (user_id (row user))
              (organization_findMany_active db) db) as (added & Hrows & Hall).
  destruct (createAccessForAll_covers srv f (user_id (row user))
              (organization_findMany_active db) db Hfc (find_existsb _ _ _ Hfind))
    as [Hcov _].
  { intros o Ho. apply list_elem_of_filter in Ho as [_ Ho].
    apply existsb_exists. exists o. split; [by apply list_elem_of_In | apply String.eqb_refl]. }
  assert (userOrganizationAccess (healed_db (selfHeal srv f db user))
          = userOrganizationAccess
              (createAccessForAll srv f (user_id (row user))
                 (organization_findMany_active db) db).1) as Hrows1.
  { clear -Hacc Hrole Hfm. unfold selfHeal. rewrite Hacc, Hrole, Hfm. simpl.
    destruct (createAccessForAll _ _ _ _ _) as [dbc logc]. simpl.
    destruct (updatePrimary f user _ dbc) as [[db2 log3]|m] eqn:Hu; simpl; [|done].
    by apply updatePrimary_frame in Hu as (Hr & _). }
  set (db1 := healed_db (selfHeal srv f db user)) in *.
  set (dbc := (createAccessForAll srv f (user_id (row user))
                 (organization_findMany_active db) db).1) in *.
  assert (forall x, x ∈ map uoa_organizationId (loaded_access user2) <->
                    exists o, o ∈ organizations db /\ organization_active o = true /\
                              organization_id o = x) as Hiff.
  { intros x. rewrite (loaded_access_rows srv f2 req2 db1 user2 x Hl2). rewrite Hid. split.
    - intros (a & Ha & Hu & Hs & <-). rewrite Hrows1, Hrows in Ha.
      apply elem_of_app in Ha as [Ha|Ha]; [by destruct (Hnone a Ha)|].
      rewrite Forall_forall in Hall. destruct (Hall a Ha) as (_ & _ & _ & o & Ho & Heq).
      apply list_elem_of_filter in Ho as [Hact Ho]. by exists o.
    - intros (o & Ho & Hact & <-).
      assert (o ∈ organization_findMany_active db) as Hin
        by by apply list_elem_of_filter.
      specialize (Hcov o Hin). apply hasAccessRow_key in Hcov.
      rewrite <- Hrows1 in Hcov.
      apply elem_of_map in Hcov as (a & Hk & Ha).
      unfold accessKey in Hk. injection Hk as Hk1 Hk2.
      exists a. split; [done|]. split; [done|]. split; [|done].
      rewrite Hrows1, Hrows in Ha. apply elem_of_app in Ha as [Ha|Ha].
      + by destruct (Hnone a Ha).
      + rewrite Forall_forall in Hall. by destruct (Hall a Ha) as (_ & _ & Hs & _). }
  split; [done|].
  destruct (preHandler_loaded _ _ _ _ _ Hl2) as [lg2 Hp2]. rewrite Hp2. simpl.
  destruct (loaded_access user2) as [|x2 l2] eqn:Hacc2.
  - (* no active organization at all *)
    assert (organization_findMany_active db1 = []) as Hnoorg.
    { unfold organization_findMany_active. rewrite Horgs.
      destruct (filter _ (organizations db)) as [|o os] eqn:Hfl; [done|].
      assert (o ∈ filter (fun o => organization_active o = true) (organizations db)) as Ho
        by (rewrite Hfl; left).
      apply list_elem_of_filter in Ho as [Hact Ho].
      assert (organization_id o ∈ map uoa_organizationId ([] : list UserOrganizationAccess))
        as Hin by (apply Hiff; by exists o).
      by apply elem_of_nil in Hin. }
    split.
    + unfold selfHeal. rewrite Hacc2. simpl.
      destruct (String.eqb _ _); [|done].
      destruct (findMany_fault f2); simpl; [done|]. rewrite Hnoorg. simpl.
      unfold updatePrimary. rewrite andb_false_r. done.
    + intros h _ _ (o & Ho & Hact & Hh).
      assert (h ∈ map uoa_organizationId ([] : list UserOrganizationAccess)) as Hin
        by (apply Hiff; by exists o).
      by apply elem_of_nil in Hin.
  - rewrite <- Hacc2 in *.
    assert (loaded_access user2 <> []) as Hne2 by (rewrite Hacc2; done).
    rewrite (selfHeal_skipped srv f2 db1 user2 (or_introl Hne2)). simpl.
    split; [done|].
    intros h Hh Hhne Hactive.
    assert (selectCurrent req2 user2 (map uoa_organizationId (loaded_access user2)) = Some h)
      as Hsel.
    { rewrite selectCurrent_header; rewrite Hh; [done | by apply truthy_Some_ne]. }
    destruct (validate_cases req2 user2 (map uoa_organizationId (loaded_access user2)))
      as [(c & Hc & _ & Hn & _)|[_ Hv]].
    + rewrite Hsel in Hc. injection Hc as <-. destruct Hn. by apply Hiff.
    + rewrite Hv. eexists. split; [done|]. simpl. done.
Qed.

(** Super admin [A]: the first request heals, the second asks for [O2]. *)
Lemma request_after_self_heal_witness :
  exists ctx,
    (preHandler demoServer noFaults (mkRequest "/fhir/Patient" (Some "A") (Some "O2"))
       (preHandler demoServer noFaults (mkRequest "/fhir/Patient" (Some "A") None) demoDb).1.1).2
      = Attached ctx /\
    currentOrganizationId ctx = Some "O2".
Proof.
  assert (forall a, a ∈ userOrganizationAccess demoDb -> access_userId a <> "A") as Hnone.
  { intros a Ha. apply list_elem_of_In in Ha. simpl in Ha.
    destruct Ha as [<-|[]]. discriminate. }
  assert (reachesStore noFaults) as Hf by (by repeat split).
  assert (exists user2,
             loadedUser demoServer noFaults
               (mkRequest "/fhir/Patient" (Some "A") (Some "O2"))
               (preHandler demoServer noFaults
                  (mkRequest "/fhir/Patient" (Some "A") None) demoDb).1.1 = Some user2 /\
             user_id (row user2) = "A") as (user2 & Hl2 & Hid2).
  { eexists. split; [vm_compute; reflexivity | reflexivity]. }
  assert (loadedUser demoServer noFaults (mkRequest "/fhir/Patient" (Some "A") None) demoDb
          = Some loadedA) as Hl by (vm_compute; reflexivity).
  assert (user_role (row loadedA) = "super_admin") as Hrole by reflexivity.
  pose proof (request_after_self_heal demoServer noFaults
                (mkRequest "/fhir/Patient" (Some "A") None) demoDb loadedA
                Hl Hrole Hnone Hf noFaults
                (mkRequest "/fhir/Patient" (Some "A") (Some "O2")) user2 Hl2 Hid2)
    as (_ & _ & Hheader).
  apply (Hheader "O2"); [reflexivity | discriminate |].
  exists (mkOrganization "O2" true). split; [|by split].
  apply list_elem_of_In. simpl. auto.
Defined.

(** ** The store calls of a hook *)

(** Two hooks of super admin [A], each resumed nine times. *)
Lemma fair_schedule_finishes_witness :
  Forall (fun th => finished th = true)
    (runSchedule demoServer demoFairSchedule (demoDb, demoPool)).2.
Proof.
  apply (fair_schedule_finishes demoServer demoFairSchedule (demoDb, demoPool)).
  intros i th Hi. destruct i as [|[|i]]; simpl in Hi.
  - injection Hi as <-. vm_compute. lia.
  - injection Hi as <-. vm_compute. lia.
  - done.
Defined.

(** A hook ends however the others are scheduled: under any interleaving
    of the store calls of any number of hooks, a hook that is resumed as
    often as it may still call the store (4 + n times at most from its start,
    n the number of organizations) has finished, whatever its store calls
    fail with and whether or not the other hooks are resumed. *)
Theorem hook_finishes (srv : Server) (schedule : list nat) (s : Prisma * list Thread)
    (i : nat) (th : Thread) :
  s.2 !! i = Some th ->
  callsLeft (length (organizations s.1)) (th_task th) <= count_occ Nat.eq_dec schedule i ->
  exists th', (runSchedule srv schedule s).2 !! i = Some th' /\ finished th' = true.
Proof.
  revert s th. induction schedule as [|j schedule IH]; intros [db pool] th Hi Hle;
    simpl in *.
  - exists th. split; [done|]. unfold finished.
    destruct (th_task th); simpl in Hle; done || lia.
  - unfold resume. simpl.
    destruct (pool !! j) as [tj|] eqn:Hj; simpl.
    + pose proof (step_organizations srv db tj) as Horgs.
      pose proof (step_callsLeft srv db tj) as Hless.
      destruct (step srv db tj) as [db' tj'] eqn:Hstep. simpl in *.
      destruct (decide (j = i)) as [->|Hne].
      * rewrite Hi in Hj. injection Hj as <-.
        destruct (Nat.eq_dec i i) as [_|]; [|done].
        apply (IH (db', <[i := tj']> pool) tj'); simpl.
        -- apply list_lookup_insert_eq. by eapply lookup_lt_Some.
        -- rewrite Horgs. destruct (finished th) eqn:Hfin.
           ++ unfold step in Hstep. unfold finished in Hfin.
              destruct (th_task th) eqn:Htask; try done.
              injection Hstep as <- <-. rewrite Htask. simpl. lia.
           ++ specialize (Hless eq_refl). lia.
      * apply (IH (db', <[j := tj']> pool) th); simpl.
        -- by rewrite list_lookup_insert_ne.
        -- rewrite Horgs. by destruct (Nat.eq_dec j i).
    + apply (IH (db, pool) th); simpl; [done|].
      destruct (Nat.eq_dec j i) as [->|]; [congruence | done].
Qed.

(** Of two hooks of super admin [A] only the first is resumed, nine times:
    it has finished, the second has not. *)
Lemma hook_finishes_witness :
  (exists th',
      (runSchedule demoServer demoOneSidedSchedule (demoDb, demoPool)).2 !! 0%nat = Some th' /\
      finished th' = true) /\
  (exists th1,
      (runSchedule demoServer demoOneSidedSchedule (demoDb, demoPool)).2 !! 1%nat = Some th1 /\
      finished th1 = false).
Proof.
  split.
  - assert (demoPool !! 0%nat
            = Some (spawn demoServer noFaults (mkRequest "/fhir/Patient" (Some "A") None)))
      as Hth by reflexivity.
    assert (callsLeft (length (organizations demoDb))
              (th_task (spawn demoServer noFaults (mkRequest "/fhir/Patient" (Some "A") None)))
            <= count_occ Nat.eq_dec demoOneSidedSchedule 0) as Hle
      by (vm_compute; lia).
    exact (hook_finishes demoServer demoOneSidedSchedule (demoDb, demoPool) 0 _ Hth Hle).
  - eexists. split; [vm_compute; reflexivity | reflexivity].
Defined.

(** * Registration and login *)

Lemma find_none_existsb {A : Type} (p : A -> bool) (l : list A) :
  find p l = None -> existsb p l = false.
Proof.
  intros H. apply not_true_iff_false. intros He. apply existsb_exists in He as (x & Hin & Hp).
  by rewrite (find_none _ _ H x Hin) in Hp.
Qed.

Lemma existsb_false_find {A : Type} (p : A -> bool) (l : list A) :
  existsb p l = false -> find p l = None.
Proof.
  intros H. destruct (find p l) as [x|] eqn:Hf; [|done].
  apply find_existsb in Hf. congruence.
Qed.

Lemma find_app_last {A : Type} (p : A -> bool) (l : list A) (x : A) :
  find p l = None -> find p (l ++ [x]) = if p x then Some x else None.
Proof. induction l as [|y l IH]; simpl; [done|]. by destruct (p y). Qed.

(** What a successful registration has done to the store. *)
Lemma register_Registered (srv : Server) (bcrypt_hash : string -> string) (db db' : Prisma)
    (em password rl : string) (organizationId : option string) :
  register srv bcrypt_hash db em password rl organizationId = (db', Registered) ->
  find (fun u => String.eqb (user_email u) em) (users db) = None /\
  existsb (fun r => String.eqb (user_id r) (cuid srv (length (users db)))) (users db) = false /\
  users db' = users db ++ [registeredUser srv bcrypt_hash db em password rl organizationId] /\
  organizations db' = organizations db /\ patients db' = patients db /\
  ((userOrganizationAccess db' = userOrganizationAccess db /\
    (truthy organizationId = true ->
     existsb (fun o => String.eqb (organization_id o) (default "" organizationId))
       (organizations db) = false
     \/ hasAccessRow db (cuid srv (length (users db))) (default "" organizationId) = true))
   \/ (truthy organizationId = true /\
       existsb (fun o => String.eqb (organization_id o) (default "" organizationId))
         (organizations db) = true /\
       userOrganizationAccess db' =
         userOrganizationAccess db ++
         [{| access_id := cuid srv (length (userOrganizationAccess db));
             access_userId := cuid srv (length (users db));
             access_organizationId := default "" organizationId;
             access_role := if String.eqb rl "super_admin" then "admin" else rl;
             access_status := "active" |}])).
Proof.
  unfold register, user_create, registeredUser.
  destruct (find _ (users db)) as [u|] eqn:Hfind; [done|].
  rewrite (find_none_existsb _ _ Hfind). simpl.
  destruct (existsb _ (users db)) eqn:Hid; [done|].
  destruct (truthy organizationId) eqn:Horg.
  - unfold userOrganizationAccess_create. simpl.
    unfold hasAccessRow at 1. simpl.
    destruct (existsb _ (userOrganizationAccess db)) eqn:Hrow.
    + intros [= <-]. simpl. repeat split. left. split; [done|]. intros _. by right.
    + rewrite existsb_app. simpl. rewrite String.eqb_refl, orb_true_r. simpl.
      destruct (existsb _ (organizations db)) eqn:Hex; simpl.
      * intros [= <-]. simpl. repeat split. by right.
      * intros [= <-]. simpl. repeat split. left. split; [done|]. intros _. by left.
  - intros [= <-]. simpl. repeat split. left. by split.
Qed.

(** Register, then log in: a registration that succeeded is followed by a
    successful login with the same email and password, whose token is signed
    over the new id, the email and the registered role. *)
Theorem register_then_login (srv : Server) (bcrypt_hash : string -> string)
    (db db' : Prisma) (em password rl : string) (organizationId : option string) :
  register srv bcrypt_hash db em password rl organizationId = (db', Registered) ->
  bcrypt_compare srv password (bcrypt_hash password) = true ->
  exists orgs,
    login srv db' em password
    = LoginOk (jwt_sign srv (signedClaims (cuid srv (length (users db))) em rl)
                 (expiresIn srv))
        (cuid srv (length (users db))) em rl (js_or organizationId None) orgs.
Proof.
  intros Hreg Hpw.
  apply register_Registered in Hreg as (Hfind & _ & Husers & _).
  unfold login. rewrite Husers, (find_app_last _ _ _ Hfind). simpl.
  rewrite String.eqb_refl. simpl. rewrite Hpw. simpl. by eexists.
Qed.

Lemma register_then_login_witness :
  exists orgs,
    login demoServer
      (register demoServer (fun p => p) demoDb "n@clinic.example" "secret12" "staff"
         (Some "O1")).1
      "n@clinic.example" "secret12"
    = LoginOk "c4" "c4" "n@clinic.example" "staff" (Some "O1") orgs.
Proof.
  apply (register_then_login demoServer (fun p => p) demoDb _ "n@clinic.example"
           "secret12" "staff" (Some "O1")); reflexivity.
Defined.

(** ** The identity a registration creates, before the hook *)

Lemma loaded_access_elem (srv : Server) (f : Faults) (req : Request) (db : Prisma)
    (user : LoadedUser) (x : UserOrganizationAccess) :
  loadedUser srv f req db = Some user ->
  x ∈ loaded_access user <->
  exists a, a ∈ userOrganizationAccess db /\
            access_userId a = user_id (row user) /\
            access_status a = "active" /\ x = loadAccess db a.
Proof.
  intros Hl. apply loadedUser_found in Hl as (d & _ & _ & Hu & _).
  apply user_findUnique_Some in Hu as (_ & Hid & ->). unfold activeAccessOf.
  rewrite elem_of_map. split.
  - intros (a & -> & Ha). apply list_elem_of_filter in Ha as [Hc Ha].
    apply andb_true_iff in Hc as [H1 H2].
    apply String.eqb_eq in H1, H2. exists a. repeat split; congruence.
  - intros (a & Ha & H1 & H2 & ->). exists a. split; [done|].
    apply list_elem_of_filter. split; [|done].
    rewrite H1, H2, Hid. by rewrite !String.eqb_refl.
Qed.

(** The self-heal goes on with the loaded organizations, or, for a super
    admin without any, with the enumerated ones. *)
Lemma healed_organizationIds_cases (srv : Server) (f : Faults) (db : Prisma)
    (user : LoadedUser) :
  (healed_organizationIds (selfHeal srv f db user)
     = map uoa_organizationId (loaded_access user) /\
   healed_user (selfHeal srv f db user) = user)
  \/ (user_role (row user) = "super_admin" /\ loaded_access user = [] /\
      healed_organizationIds (selfHeal srv f db user)
        = map organization_id (organization_findMany_active db)).
Proof.
  unfold selfHeal. destruct (_ && _) eqn:Hc; [|by left].
  apply andb_true_iff in Hc as [Hlen Hrole].
  apply Nat.eqb_eq in Hlen. rewrite length_map in Hlen.
  apply String.eqb_eq in Hrole.
  assert (loaded_access user = []) as Hacc by by destruct (loaded_access user).
  destruct (call _ _) as [all|] eqn:Hcall; [|by left].
  assert (all = organization_findMany_active db) as ->.
  { unfold call in Hcall. destruct (findMany_fault f); congruence. }
  destruct (createAccessForAll _ _ _ _ _) as [db1 log2].
  destruct (updatePrimary _ _ _ _) as [[db2 log3]|]; [by right | by left].
Qed.

Lemma registered_rows (srv : Server) (bcrypt_hash : string -> string) (db db' : Prisma)
    (em password rl : string) (organizationId : option string) (a : AccessRow) :
  register srv bcrypt_hash db em password rl organizationId = (db', Registered) ->
  accessRefersToUsers db ->
  a ∈ userOrganizationAccess db' ->
  access_userId a = cuid srv (length (users db)) ->
  truthy organizationId = true /\
  existsb (fun o => String.eqb (organization_id o) (default "" organizationId))
    (organizations db) = true /\
  access_organizationId a = default "" organizationId /\
  access_role a = (if String.eqb rl "super_admin" then "admin" else rl) /\
  access_status a = "active" /\
  userOrganizationAccess db' = userOrganizationAccess db ++ [a].
Proof.
  intros Hreg Hfk Ha Hu.
  apply register_Registered in Hreg as (_ & Hfresh & _ & _ & _ & Hrows).
  assert (forall b, b ∈ userOrganizationAccess db ->
                    access_userId b <> cuid srv (length (users db))) as Hold.
  { intros b Hb Heq. specialize (Hfk b Hb). rewrite Heq in Hfk. congruence. }
  destruct Hrows as [[Hr _]|(Ht & Hex & Hr)]; rewrite Hr in Ha.
  - by destruct (Hold a Ha).
  - apply elem_of_app in Ha as [Ha|Ha]; [by destruct (Hold a Ha)|].
    apply list_elem_of_singleton in Ha as ->. by rewrite Hr.
Qed.

Lemma registered_lookup (srv : Server) (bcrypt_hash : string -> string) (db db' : Prisma)
    (em password rl : string) (organizationId : option string)
    (f : Faults) (req : Request) (user : LoadedUser) :
  register srv bcrypt_hash db em password rl organizationId = (db', Registered) ->
  loadedUser srv f req db' = Some user ->
  user_id (row user) = cuid srv (length (users db)) ->
  row user = registeredUser srv bcrypt_hash db em password rl organizationId.
Proof.
  intros Hreg Hl Hid.
  apply register_Registered in Hreg as (_ & Hfresh & Husers & _).
  apply loadedUser_exists in Hl. rewrite Hid, Husers in Hl.
  rewrite (find_app_last _ _ _ (existsb_false_find _ _ Hfresh)) in Hl.
  simpl in Hl. rewrite String.eqb_refl in Hl. by injection Hl as <-.
Qed.

(** Registration with the id of an organization that does not exist
    succeeds (201): the user row is inserted with that id as primary
    organization, the access row is not.  The identity is then locked out:
    the hook refuses with 403 every request it sends without organization
    header, and, unless it is a super admin, every request at all. *)
Theorem registration_with_unknown_organization (srv : Server)
    (bcrypt_hash : string -> string) (db : Prisma) (em password rl o : string) :
  find (fun u => String.eqb (user_email u) em) (users db) = None ->
  existsb (fun r => String.eqb (user_id r) (cuid srv (length (users db)))) (users db) = false ->
  o <> "" ->
  existsb (fun r => String.eqb (organization_id r) o) (organizations db) = false ->
  accessRefersToUsers db ->
  exists db',
    register srv bcrypt_hash db em password rl (Some o) = (db', Registered) /\
    users db' = users db ++ [registeredUser srv bcrypt_hash db em password rl (Some o)] /\
    userOrganizationAccess db' = userOrganizationAccess db /\
    forall f req user,
      loadedUser srv f req db' = Some user ->
      user_id (row user) = cuid srv (length (users db)) ->
      rl <> "super_admin" \/ truthy (x_organization_id req) = false ->
      (preHandler srv f req db').2 = forbidden.
Proof.
  intros Hfind Hfresh Hne Horg Hfk.
  destruct (register srv bcrypt_hash db em password rl (Some o)) as [db' r] eqn:Hreg.
  assert (r = Registered) as ->.
  { revert Hreg. unfold register, user_create. rewrite Hfind.
    rewrite (find_none_existsb _ _ Hfind). cbn [user_id]. rewrite Hfresh.
    destruct (truthy (Some o)); [|by intros [= _ <-]].
    by destruct (userOrganizationAccess_create _ _ _ _ _ _); intros [= _ <-]. }
  exists db'. split; [done|].
  pose proof (register_Registered _ _ _ _ _ _ _ _ Hreg) as (_ & _ & Husers & Horgs & _ & Hrows).
  split; [done|].
  assert (truthy (Some o) = true) as Ht by by apply truthy_Some_ne.
  assert (userOrganizationAccess db' = userOrganizationAccess db) as Hr.
  { destruct Hrows as [[Hr _]|(_ & Hex & _)]; [done|]. simpl in Hex. congruence. }
  split; [done|].
  intros f req user Hl Hid Hcase.
  pose proof (registered_lookup _ _ _ _ _ _ _ _ _ _ _ Hreg Hl Hid) as Hrow.
  assert (loaded_access user = []) as Hacc.
  { apply (loaded_access_nil srv f req db' user Hl). intros a Ha Hu.
    rewrite Hid in Hu.
    destruct (registered_rows _ _ _ _ _ _ _ _ a Hreg Hfk Ha Hu) as (_ & Hex & _).
    simpl in Hex. congruence. }
  assert (user_primaryOrganizationId (row user) = Some o) as Hprim.
  { rewrite Hrow. simpl. unfold js_or. by rewrite Ht. }
  destruct (preHandler_loaded _ _ _ _ _ Hl) as [lg Hp]. rewrite Hp. simpl.
  destruct (healed_organizationIds_cases srv f db' user)
    as [[Hids Hu]|(Hrole & _ & Hids)].
  - rewrite Hids, Hu, Hacc. simpl. rewrite validate_empty_scope, Hprim.
    assert (truthy (js_or (x_organization_id req) (Some o)) = true) as ->; [|done].
    unfold js_or. by destruct (truthy (x_organization_id req)) eqn:Hh.
  - destruct Hcase as [Hrl|Hh].
    { rewrite Hrow in Hrole. simpl in Hrole. done. }
    assert (selectCurrent req (healed_user (selfHeal srv f db' user))
              (healed_organizationIds (selfHeal srv f db' user)) = Some o) as Hsel.
    { unfold selectCurrent, js_or. rewrite selfHeal_row, Hh, Hprim, Ht. done. }
    destruct (validate_cases req (healed_user (selfHeal srv f db' user))
                (healed_organizationIds (selfHeal srv f db' user)))
      as [(c & _ & _ & _ & Hv)|[[Hf|(c & Hc & Hin)] _]]; [done|..].
    + rewrite Hsel, Ht in Hf. done.
    + rewrite Hsel in Hc. injection Hc as <-. rewrite Hids in Hin.
      apply elem_of_map in Hin as (org & -> & Hin).
      apply list_elem_of_filter in Hin as [_ Hin]. rewrite Horgs in Hin.
      assert (existsb (fun r => String.eqb (organization_id r) (organization_id org))
                (organizations db) = true) as Hex; [|congruence].
      apply existsb_exists. exists org. split; [by apply list_elem_of_In | apply String.eqb_refl].
Qed.

Lemma filter_none_in {A : Type} (P : A -> Prop) `{forall x, Decision (P x)} (l : list A) :
  (forall x, x ∈ l -> ~ P x) -> filter P l = [].
Proof.
  induction l as [|x l IH]; intros Hn; [done|].
  rewrite filter_cons_False; [|apply Hn; left].
  apply IH. intros y Hy. apply Hn. by right.
Qed.

Lemma demoDb_accessRefersToUsers : accessRefersToUsers demoDb.
Proof.
  intros a Ha. apply list_elem_of_In in Ha. simpl in Ha. destruct Ha as [<-|[]]. reflexivity.
Qed.

(** A staff account registered for the unknown organization [O9] is
    refused even when it names the existing organization [O1]. *)
Lemma registration_with_unknown_organization_witness :
  (preHandler demoServer noFaults (mkRequest "/fhir/Patient" (Some "c4") (Some "O1"))
     (register demoServer (fun p => p) demoDb "n@clinic.example" "secret12" "staff"
        (Some "O9")).1).2
  = forbidden.
Proof.
  destruct (registration_with_unknown_organization demoServer (fun p => p) demoDb
              "n@clinic.example" "secret12" "staff" "O9"
              eq_refl eq_refl ltac:(discriminate) eq_refl demoDb_accessRefersToUsers)
    as (db' & Hreg & _ & _ & Hlocked).
  rewrite Hreg. simpl.
  assert (exists user,
             loadedUser demoServer noFaults
               (mkRequest "/fhir/Patient" (Some "c4") (Some "O1")) db' = Some user /\
             user_id (row user) = "c4") as (user & Hl & Hid).
  { injection Hreg as <-. eexists. split; [vm_compute; reflexivity | reflexivity]. }
  apply (Hlocked noFaults _ user Hl Hid). left. discriminate.
Defined.

(** Registration for an existing organization: the first request of the new
    identity without organization header gets a context with that
    organization as its only and its current organization and as primary
    organization; the hook writes nothing.  The access row carries the
    registered role, "admin" in place of "super_admin". *)
Theorem registration_with_organization (srv : Server) (bcrypt_hash : string -> string)
    (db db' : Prisma) (em password rl o : string)
    (f : Faults) (req : Request) (user : LoadedUser) :
  register srv bcrypt_hash db em password rl (Some o) = (db', Registered) ->
  o <> "" ->
  existsb (fun r => String.eqb (organization_id r) o) (organizations db) = true ->
  accessRefersToUsers db ->
  loadedUser srv f req db' = Some user ->
  user_id (row user) = cuid srv (length (users db)) ->
  truthy (x_organization_id req) = false ->
  exists ctx,
    (preHandler srv f req db').2 = Attached ctx /\
    (preHandler srv f req db').1.1 = db' /\
    role ctx = rl /\
    organizationIds ctx = [o] /\
    currentOrganizationId ctx = Some o /\
    primaryOrganizationId ctx = Some o /\
    map uoa_role (organizationAccess ctx)
      = [if String.eqb rl "super_admin" then "admin" else rl].
Proof.
  intros Hreg Hne Hex Hfk Hl Hid Hh.
  pose proof (registered_lookup _ _ _ _ _ _ _ _ _ _ _ Hreg Hl Hid) as Hrow.
  assert (truthy (Some o) = true) as Ht by by apply truthy_Some_ne.
  pose proof (register_Registered _ _ _ _ _ _ _ _ Hreg) as (_ & Hfresh & _ & _ & _ & Hrows).
  assert (forall b, b ∈ userOrganizationAccess db ->
                    access_userId b <> cuid srv (length (users db))) as Hold.
  { intros b Hb Heq. specialize (Hfk b Hb). rewrite Heq in Hfk. congruence. }
  destruct Hrows as [[_ Hno]|(_ & _ & Hr)].
  { destruct (Hno Ht) as [Hx|Hx]; simpl in Hx; [congruence|].
    apply hasAccessRow_key, elem_of_map in Hx as (b & Hk & Hb).
    unfold accessKey in Hk. injection Hk as Hk _. by destruct (Hold b Hb). }
  simpl in Hr.
  assert (loaded_access user
          = [loadAccess db'
               {| access_id := cuid srv (length (userOrganizationAccess db));
                  access_userId := cuid srv (length (users db));
                  access_organizationId := o;
                  access_role := if String.eqb rl "super_admin" then "admin" else rl;
                  access_status := "active" |}]) as Hacc.
  { pose proof Hl as Hl'. apply loadedUser_found in Hl' as (d & _ & _ & Hu & _).
    apply user_findUnique_Some in Hu as (_ & Hd & ->). rewrite <- Hd, Hid.
    unfold activeAccessOf. rewrite Hr, filter_app.
    rewrite (filter_none_in _ (userOrganizationAccess db)).
    2: { intros b Hb Hc. apply andb_true_iff in Hc as [Hc _].
         apply String.eqb_eq in Hc. by destruct (Hold b Hb). }
    rewrite filter_cons_True; [done|]. simpl. by rewrite String.eqb_refl. }
  destruct (preHandler_loaded _ _ _ _ _ Hl) as [lg Hp]. rewrite Hp. simpl.
  assert (loaded_access user <> []) as Hne2 by (by rewrite Hacc).
  rewrite (selfHeal_skipped srv f db' user (or_introl Hne2)). simpl.
  rewrite Hacc. simpl.
  assert (user_primaryOrganizationId (row user) = Some o) as Hprim.
  { rewrite Hrow. simpl. unfold js_or. by rewrite Ht. }
  unfold validate, selectCurrent, js_or. rewrite Hh, Hprim, Ht. simpl.
  rewrite String.eqb_refl. simpl. rewrite andb_false_r.
  eexists. split; [done|]. simpl. rewrite Hprim, Hacc, Hrow. simpl.
  unfold js_or. rewrite Ht. by repeat split.
Qed.

Lemma registration_with_organization_witness :
  exists ctx,
    (preHandler demoServer noFaults (mkRequest "/fhir/Patient" (Some "c4") None)
       (register demoServer (fun p => p) demoDb "n@clinic.example" "secret12" "super_admin"
          (Some "O3")).1).2 = Attached ctx /\
    organizationIds ctx = ["O3"] /\
    map uoa_role (organizationAccess ctx) = ["admin"].
Proof.
  assert (exists user,
             loadedUser demoServer noFaults (mkRequest "/fhir/Patient" (Some "c4") None)
               (register demoServer (fun p => p) demoDb "n@clinic.example" "secret12"
                  "super_admin" (Some "O3")).1 = Some user /\
             user_id (row user) = "c4") as (user & Hl & Hid).
  { eexists. split; [vm_compute; reflexivity | reflexivity]. }
  destruct (registration_with_organization demoServer (fun p => p) demoDb _
              "n@clinic.example" "secret12" "super_admin" "O3" noFaults
              (mkRequest "/fhir/Patient" (Some "c4") None) user
              eq_refl ltac:(discriminate) eq_refl demoDb_accessRefersToUsers Hl Hid eq_refl)
    as (ctx & Hout & _ & _ & Hids & _ & _ & Hroles).
  exists ctx. by repeat split.
Defined.

(** ** From login to the hook *)

Lemma find_unique_id (l : list UserRow) (u : UserRow) :
  NoDup (map user_id l) -> u ∈ l ->
  find (fun r => String.eqb (user_id r) (user_id u)) l = Some u.
Proof.
  induction l as [|x l IH]; simpl; intros Hnd Hin; [by apply elem_of_nil in Hin|].
  apply NoDup_cons in Hnd as [Hx Hnd].
  apply elem_of_cons in Hin as [->|Hin]; [by rewrite String.eqb_refl|].
  destruct (String.eqb (user_id x) (user_id u)) eqn:He; [|by apply IH].
  apply String.eqb_eq in He. destruct Hx. rewrite He. apply elem_of_map. by exists u.
Qed.

(** The token of a successful login, sent back as "Bearer <token>" on a
    protected URL while the store is as it was, is resolved to the user that
    logged in: the hook needs of the codec only that the token decodes to the
    signed [userId].  Email and role of the context are the stored ones, the
    organizations of the login reply are those of the access list the hook
    loads, and the request ends with the context or with 403, never with
    401. *)
Theorem login_token_authenticates (srv : Server) (f : Faults) (db : Prisma)
    (em password : string) (req : Request) (token uid uem rl : string)
    (prim : option string) (orgs : list LoginOrganization) (d : JWTPayload) :
  login srv db em password = LoginOk token uid uem rl prim orgs ->
  jwt_verify srv token = Decoded d ->
  jwt_userId d = uid ->
  token <> "" ->
  NoDup (map user_id (users db)) ->
  isStaticOrDebug (url req) = false ->
  isPublicRoute srv (url req) = false ->
  findUnique_fault f = None ->
  authorization req = Some ("Bearer " +:+ token) ->
  exists user,
    loadedUser srv f req db = Some user /\
    user_id (row user) = uid /\ user_email (row user) = em /\ uem = em /\
    user_role (row user) = rl /\
    orgs = map (fun a => {| lo_id := ref_id <$> uoa_organization a;
                            lo_name := ref_name <$> uoa_organization a;
                            lo_role := uoa_role a |}) (loaded_access user) /\
    ((preHandler srv f req db).2 = forbidden
     \/ exists ctx, (preHandler srv f req db).2 = Attached ctx /\
                    id ctx = uid /\ email ctx = em /\ role ctx = rl).
Proof.
  intros Hlogin Hver Hd Hne Hnd Hs Hp Hf Hauth.
  unfold login in Hlogin.
  destruct (find _ (users db)) as [u|] eqn:Hfind; [|done].
  destruct (user_active u) eqn:Hact; [|done]. simpl in Hlogin.
  destruct (bcrypt_compare srv password (user_passwordHash u)); [|done]. simpl in Hlogin.
  injection Hlogin as <- <- <- <- <- <-.
  pose proof (find_some _ _ Hfind) as [Hin Hem]. apply String.eqb_eq in Hem.
  apply list_elem_of_In in Hin.
  set (user := {| row := u; loaded_access := activeAccessOf db (user_id u) |}).
  assert (loadedUser srv f req db = Some user) as Hl.
  { unfold loadedUser, spawn. cbn [th_task]. rewrite Hs, Hp, Hauth.
    assert ("Bearer " +:+ jwt_sign srv (signedClaims (user_id u) (user_email u) (user_role u))
                            (expiresIn srv) <> "") as Hb
      by (rewrite append_cons; discriminate).
    rewrite (truthy_Some_ne _ Hb). cbn [from_option negb]. unfold Datatypes.id.
    rewrite replace_prefix.
    change ("" +:+ ?t) with t.
    destruct (String.eqb _ "") eqn:He; [by apply String.eqb_eq in He|].
    rewrite Hver, Hf. simpl. unfold user_findUnique.
    rewrite Hd, (find_unique_id _ _ Hnd Hin). fold user. simpl. by rewrite Hact. }
  exists user. repeat split; try done.
  destruct (preHandler_loaded _ _ _ _ _ Hl) as [lg Hpre]. rewrite Hpre. simpl.
  pose proof (selfHeal_row srv f db user) as Hrow.
  destruct (validate_cases req (healed_user (selfHeal srv f db user))
              (healed_organizationIds (selfHeal srv f db user)))
    as [(c & _ & _ & _ & Hv)|[_ Hv]]; rewrite Hv; [by left|].
  right. eexists. split; [done|]. simpl. by rewrite Hrow.
Qed.

Lemma login_token_authenticates_witness :
  exists user,
    loadedUser demoServer noFaults (mkRequest "/fhir/Patient" (Some "B") None) demoDb
      = Some user /\
    user_email (row user) = "B@clinic.example".
Proof.
  destruct (login_token_authenticates demoServer noFaults demoDb "B@clinic.example" "pw"
              (mkRequest "/fhir/Patient" (Some "B") None)
              "B" "B" "B@clinic.example" "org_admin" (Some "O3")
              [ {| lo_id := Some "O3"; lo_name := Some "Clinic O3"; lo_role := "admin" |} ]
              {| jwt_userId := "B"; jwt_email := "B@clinic.example"; jwt_role := "" |})
    as (user & Hl & _ & Hem & _); try reflexivity.
  - discriminate.
  - compute_done.
  - by exists user.
Defined.

(** ** Who reads a patient *)

Lemma patientInScope_spec (ids : list string) (p : PatientRow) :
  patientInScope ids p = true
  <-> exists o, o ∈ ids /\ (o, "active") ∈ patient_organizations p.
Proof.
  unfold patientInScope. rewrite existsb_exists. split.
  - intros ([o st] & Hin & Hc). simpl in Hc. apply andb_true_iff in Hc as [Ho Hst].
    apply String.eqb_eq in Hst as ->. exists o. split.
    + by apply array_includes_spec.
    + by apply list_elem_of_In.
  - intros (o & Ho & Hin). exists (o, "active"). split; [by apply list_elem_of_In|].
    simpl. apply andb_true_iff. split; [by apply array_includes_spec | done].
Qed.

Lemma healed_cases (srv : Server) (f : Faults) (db : Prisma) (user : LoadedUser) :
  (healed_organizationIds (selfHeal srv f db user)
     = map uoa_organizationId (loaded_access user) /\
   healed_user (selfHeal srv f db user) = user)
  \/ (user_role (row user) = "super_admin" /\ loaded_access user = [] /\
      healed_organizationIds (selfHeal srv f db user)
        = map organization_id (organization_findMany_active db) /\
      loaded_access (healed_user (selfHeal srv f db user))
        = map (tempAccess (user_id (row user))) (organization_findMany_active db)).
Proof.
  unfold selfHeal. destruct (_ && _) eqn:Hc; [|by left].
  apply andb_true_iff in Hc as [Hlen Hrole].
  apply Nat.eqb_eq in Hlen. rewrite length_map in Hlen.
  apply String.eqb_eq in Hrole.
  assert (loaded_access user = []) as Hacc by by destruct (loaded_access user).
  destruct (call _ _) as [all|] eqn:Hcall; [|by left].
  assert (all = organization_findMany_active db) as ->.
  { unfold call in Hcall. destruct (findMany_fault f); congruence. }
  destruct (createAccessForAll _ _ _ _ _) as [db1 log2].
  destruct (updatePrimary _ _ _ _) as [[db2 log3]|]; [by right | by left].
Qed.

(** Every organization of an attached context is one of an active access
    row of the authenticated user, or an active organization when that user
    is a super admin without active access. *)
Lemma attached_scope (srv : Server) (f : Faults) (req : Request) (db db' : Prisma)
    (log : list LogEntry) (ctx : User) :
  preHandler srv f req db = (db', log, Attached ctx) ->
  patients db' = patients db /\
  exists user,
    loadedUser srv f req db = Some user /\ id ctx = user_id (row user) /\
    forall o, o ∈ organizationIds ctx ->
              activeMembership db (user_id (row user)) o \/ healedScope db user o.
Proof.
  intros H. pose proof H as H0.
  apply preHandler_attached in H as (user & Hl & ->).
  destruct (preHandler_loaded _ _ _ _ _ Hl) as [lg Hp]. rewrite Hp in H0.
  injection H0 as <- _ _.
  destruct (selfHeal_frame srv f db user) as (_ & Hpat & _). split; [done|].
  exists user. split; [done|]. simpl. split; [by rewrite selfHeal_row|].
  intros o Ho.
  destruct (healed_organizationIds_cases srv f db user) as [[Hids _]|(Hr & Ha & Hids)];
    rewrite Hids in Ho.
  - left. by apply (loaded_access_rows _ _ _ _ _ o Hl).
  - right. repeat split; try done.
    apply elem_of_map in Ho as (org & -> & Hin).
    apply list_elem_of_filter in Hin as [Hact Hin]. by exists org.
Qed.

(** A context the hook attaches reads only patients of its user's
    organizations: [GET /fhir/Patient/:id] run with that context as
    [request.user] sends a patient only with status 200, only the stored
    patient of the requested id, and only when one of its active links names
    an organization in which the authenticated user has an active access row,
    or any active organization if that user is a super admin without active
    access. *)
Theorem patient_read_isolation (srv : Server) (f : Faults) (req : Request) (pid : string)
    (db db' : Prisma) (log : list LogEntry) (ctx : User) (st : nat) (p : PatientRow) :
  preHandler srv f req db = (db', log, Attached ctx) ->
  getPatient (Some ctx) pid db' = PatientSent st p ->
  st = 200%nat /\ patient_id p = pid /\ p ∈ patients db /\
  exists user o,
    loadedUser srv f req db = Some user /\
    (o, "active") ∈ patient_organizations p /\
    (activeMembership db (user_id (row user)) o \/ healedScope db user o).
Proof.
  intros Hp. unfold getPatient.
  destruct (patient_findFirst_inScope db' pid (organizationIds ctx)) as [q|] eqn:Hq; [|done].
  intros [= <- <-].
  apply attached_scope in Hp as (Hpat & user & Hl & _ & Hscope).
  apply find_some in Hq as [Hin Hc]. apply andb_true_iff in Hc as [Hid Hs].
  apply String.eqb_eq in Hid. apply patientInScope_spec in Hs as (o & Ho & Hlink).
  rewrite Hpat in Hin. repeat split; try done; [by apply list_elem_of_In|].
  exists user, o. repeat split; try done. by apply Hscope.
Qed.

(** Org admin [B] reads patient [p1] of [O3]. *)
Lemma patient_read_isolation_witness :
  exists user o,
    loadedUser demoServer noFaults (mkRequest "/fhir/Patient/p1" (Some "B") None) demoDb
      = Some user /\
    (o, "active") ∈ [("O3", "active")] /\
    (activeMembership demoDb (user_id (row user)) o \/ healedScope demoDb user o).
Proof.
  assert (preHandler demoServer noFaults (mkRequest "/fhir/Patient/p1" (Some "B") None) demoDb
          = (demoDb,
             (preHandler demoServer noFaults
                (mkRequest "/fhir/Patient/p1" (Some "B") None) demoDb).1.2,
             Attached contextB)) as Hp by (vm_compute; reflexivity).
  assert (getPatient (Some contextB) "p1" demoDb
          = PatientSent 200 {| patient_id := "p1";
                               patient_organizations := [("O3", "active")] |}) as Hg
    by (vm_compute; reflexivity).
  pose proof (patient_read_isolation demoServer noFaults
                (mkRequest "/fhir/Patient/p1" (Some "B") None) "p1" demoDb demoDb _ contextB
                200 _ Hp Hg) as (_ & _ & _ & H).
  exact H.
Defined.



(** ** Exempt URLs and the patient handlers *)

Lemma preHandler_exempt (srv : Server) (f : Faults) (req : Request) (db : Prisma) :
  isStaticOrDebug (url req) || isPublicRoute srv (url req) = true ->
  exists log, preHandler srv f req db = (db, log, Skipped).
Proof.
  intros H. unfold preHandler.
  destruct (isStaticOrDebug (url req)); [eauto|].
  simpl in H. rewrite H. eauto.
Qed.

(** A request the hook exempts reaches no patient: each patient handler
    finds no [request.user], replies 500 "Internal server error" and leaves
    the store as it is, whatever token the request carries, and whether or
    not the hook runs on the route. *)
Theorem exempt_request_reaches_no_patient (installed : bool) (srv : Server) (f : Faults)
    (birthDateIs : string -> option (PatientRow -> bool))
    (nameMatches : string -> PatientRow -> bool) (req : Request)
    (birthdate name : option string) (pid oid : string) (db : Prisma) :
  isStaticOrDebug (url req) || isPublicRoute srv (url req) = true ->
  servePatientSearch installed srv f birthDateIs nameMatches req birthdate name db
    = (db, SearchFailed 500 internalServerError) /\
  servePatient installed srv f req pid db = (db, PatientFailed 500 internalServerError) /\
  serveCreatePatient installed srv f req db = (db, PatientFailed 500 internalServerError) /\
  serveAssignOrganization installed srv f req pid oid db
    = (db, PatientFailed 500 internalServerError).
Proof.
  intros H.
  unfold servePatientSearch, servePatient, serveCreatePatient, serveAssignOrganization,
    hookRun.
  destruct installed; [|done].
  destruct (preHandler_exempt srv f req db H) as [lg Hp]. rewrite Hp. by simpl.
Qed.

(** A search whose query string contains "/docs/", with the token of [B],
    on a route the hook runs on. *)
Lemma exempt_request_reaches_no_patient_witness :
  servePatientSearch true demoServer noFaults (fun _ => Some (fun _ => true))
    (fun _ _ => true) (mkRequest "/fhir/Patient?name=/docs/" (Some "B") None) None
    (Some "/docs/") demoDb
  = (demoDb, SearchFailed 500 internalServerError).
Proof.
  assert (isStaticOrDebug (url (mkRequest "/fhir/Patient?name=/docs/" (Some "B") None))
          || isPublicRoute demoServer
               (url (mkRequest "/fhir/Patient?name=/docs/" (Some "B") None)) = true) as He
    by (vm_compute; reflexivity).
  pose proof (exempt_request_reaches_no_patient true demoServer noFaults
                (fun _ => Some (fun _ => true)) (fun _ _ => true)
                (mkRequest "/fhir/Patient?name=/docs/" (Some "B") None)
                None (Some "/docs/") "p1" "O3" demoDb He) as (H & _).
  exact H.
Defined.

(** ** Creating and sharing patients *)

Lemma addPatientLink_id (pid oid : string) (p : PatientRow) :
  patient_id (addPatientLink pid oid p) = patient_id p.
Proof. unfold addPatientLink. by destruct (String.eqb _ _). Qed.

Lemma addPatientLink_other (pid oid : string) (l : list PatientRow) :
  existsb (fun r => String.eqb (patient_id r) pid) l = false ->
  map (addPatientLink pid oid) l = l.
Proof.
  induction l as [|x l IH]; simpl; [done|]. intros H.
  apply orb_false_iff in H as [Hx Hl]. rewrite (IH Hl).
  unfold addPatientLink. by rewrite Hx.
Qed.

Lemma find_app_fresh (pid : string) (ids : list string) (l : list PatientRow)
    (p : PatientRow) :
  existsb (fun r => String.eqb (patient_id r) pid) l = false ->
  find (fun q => String.eqb (patient_id q) pid && patientInScope ids q) (l ++ [p])
  = if String.eqb (patient_id p) pid && patientInScope ids p then Some p else None.
Proof.
  induction l as [|x l IH]; simpl; [done|]. intros H.
  apply orb_false_iff in H as [Hx Hl]. rewrite Hx. simpl. by apply IH.
Qed.

Lemma hasPatientLink_fresh (db : Prisma) (pid oid : string) (p : PatientRow) :
  existsb (fun r => String.eqb (patient_id r) pid) (patients db) = false ->
  patient_organizations p = [] ->
  hasPatientLink (withPatient db p) pid oid = false.
Proof.
  intros Hfresh Hp. unfold hasPatientLink, withPatient. simpl.
  rewrite existsb_app. simpl. rewrite Hp. simpl. rewrite andb_false_r. simpl.
  rewrite orb_false_r.
  induction (patients db) as [|x l IH]; simpl in *; [done|].
  apply orb_false_iff in Hfresh as [Hx Hl]. rewrite Hx. simpl. by apply IH.
Qed.

(** What [createPatient] does for a context, by the current organization. *)
Lemma createPatient_cases (srv : Server) (user : User) (db : Prisma) :
  existsb (fun r => String.eqb (patient_id r) (cuid srv (length (patients db))))
    (patients db) = false ->
  createPatient srv (Some user) db
  = match currentOrganizationId user with
    | Some o =>
        if existsb (fun r => String.eqb (organization_id r) o) (organizations db)
        then (withPatient db (linkedPatient (cuid srv (length (patients db))) o),
              PatientSent 201 {| patient_id := cuid srv (length (patients db));
                                 patient_organizations := [] |})
        else (withPatient db {| patient_id := cuid srv (length (patients db));
                                patient_organizations := [] |},
              PatientFailed 500 internalServerError)
    | None =>
        (withPatient db {| patient_id := cuid srv (length (patients db));
                           patient_organizations := [] |},
         PatientFailed 500 internalServerError)
    end.
Proof.
  intros Hfresh. unfold createPatient, patient_create. simpl. rewrite Hfresh.
  set (pid := cuid srv (length (patients db))) in *.
  set (p0 := {| patient_id := pid; patient_organizations := [] |}).
  fold (withPatient db p0).
  destruct (currentOrganizationId user) as [o|]; [|done].
  unfold patientOrganization_create. change (patient_id p0) with pid.
  rewrite (hasPatientLink_fresh db pid o p0 Hfresh eq_refl).
  assert (existsb (fun p => String.eqb (patient_id p) pid) (patients (withPatient db p0))
          = true) as ->.
  { unfold withPatient. cbn [patients]. rewrite existsb_app. simpl.
    by rewrite String.eqb_refl, orb_true_r. }
  change (organizations (withPatient db p0)) with (organizations db).
  destruct (existsb _ (organizations db)); simpl; [|done].
  unfold withPatient, linkedPatient. simpl.
  rewrite map_app, (addPatientLink_other _ _ _ Hfresh). simpl.
  unfold addPatientLink. simpl. by rewrite String.eqb_refl.
Qed.

(** A patient [POST /fhir/Patient] reports as created is stored with one
    active link, to the current organization of the creating context, and
    [GET /fhir/Patient/:id] sends it to exactly the contexts whose
    [organizationIds] hold that organization: 404 for all others. *)
Theorem created_patient_is_readable (srv : Server) (user : User) (db db' : Prisma)
    (st : nat) (p : PatientRow) :
  createPatient srv (Some user) db = (db', PatientSent st p) ->
  exists o,
    currentOrganizationId user = Some o /\
    st = 201%nat /\
    db' = withPatient db (linkedPatient (patient_id p) o) /\
    forall reader,
      getPatient (Some reader) (patient_id p) db'
      = if array_includes (organizationIds reader) o
        then PatientSent 200 (linkedPatient (patient_id p) o)
        else PatientFailed 404 patientNotFound.
Proof.
  intros H.
  assert (existsb (fun r => String.eqb (patient_id r) (cuid srv (length (patients db))))
            (patients db) = false) as Hfresh.
  { unfold createPatient, patient_create in H. simpl in H.
    by destruct (existsb _ (patients db)). }
  rewrite (createPatient_cases srv user db Hfresh) in H.
  destruct (currentOrganizationId user) as [o|]; [|done].
  destruct (existsb _ (organizations db)); [|done].
  injection H as <- <- <-. exists o. repeat split. simpl.
  intros reader. unfold getPatient, patient_findFirst_inScope, withPatient.
  cbn [patients]. rewrite (find_app_fresh _ _ _ _ Hfresh).
  unfold linkedPatient at 1 2. cbn [patient_id]. rewrite String.eqb_refl.
  unfold patientInScope, linkedPatient. simpl.
  rewrite orb_false_r, andb_true_r. by destruct (array_includes _ o).
Qed.

(** Org admin [B], current organization [O3], creates patient [c1]. *)
Lemma created_patient_is_readable_witness :
  exists o,
    currentOrganizationId (userContext loadedB ["O3"] (Some "O3")) = Some o /\
    201%nat = 201%nat /\
    withPatient demoDb (linkedPatient "c1" "O3") = withPatient demoDb (linkedPatient "c1" o) /\
    forall reader,
      getPatient (Some reader) "c1" (withPatient demoDb (linkedPatient "c1" "O3"))
      = if array_includes (organizationIds reader) o
        then PatientSent 200 (linkedPatient "c1" o)
        else PatientFailed 404 patientNotFound.
Proof.
  exact (created_patient_is_readable demoServer (userContext loadedB ["O3"] (Some "O3"))
           demoDb (withPatient demoDb (linkedPatient "c1" "O3")) 201
           {| patient_id := "c1"; patient_organizations := [] |} eq_refl).
Defined.



Lemma patientInScope_addPatientLink (ids : list string) (pid oid : string) (p : PatientRow) :
  patientInScope ids p = true -> patientInScope ids (addPatientLink pid oid p) = true.
Proof.
  unfold addPatientLink, patientInScope. destruct (String.eqb _ _); [|done]. simpl.
  intros H. rewrite existsb_app. by rewrite H.
Qed.

Lemma find_assigned (ids : list string) (pid oid : string) (l : list PatientRow) :
  existsb (fun r => String.eqb (patient_id r) pid) l = true ->
  oid ∈ ids ->
  exists p,
    find (fun q => String.eqb (patient_id q) pid && patientInScope ids q)
      (map (addPatientLink pid oid) l) = Some p /\
    patient_id p = pid /\ (oid, "active") ∈ patient_organizations p.
Proof.
  intros Hex Hin. induction l as [|x l IH]; simpl in *; [done|].
  rewrite addPatientLink_id.
  destruct (String.eqb (patient_id x) pid) eqn:Hx; simpl.
  - assert ((oid, "active") ∈ patient_organizations (addPatientLink pid oid x)) as Hl.
    { unfold addPatientLink. rewrite Hx. simpl. apply elem_of_app. right.
      by apply list_elem_of_singleton. }
    assert (patientInScope ids (addPatientLink pid oid x) = true) as ->.
    { apply patientInScope_spec. by exists oid. }
    eexists. split; [done|]. split; [|done].
    rewrite addPatientLink_id. by apply String.eqb_eq.
  - by apply IH.
Qed.

Lemma find_still_visible (ids : list string) (pid' pid oid : string) (l : list PatientRow)
    (p : PatientRow) :
  find (fun q => String.eqb (patient_id q) pid' && patientInScope ids q) l = Some p ->
  exists p',
    find (fun q => String.eqb (patient_id q) pid' && patientInScope ids q)
      (map (addPatientLink pid oid) l) = Some p' /\
    patient_id p' = pid'.
Proof.
  induction l as [|x l IH]; simpl; [done|]. rewrite addPatientLink_id.
  destruct (String.eqb (patient_id x) pid') eqn:Hx; simpl.
  - destruct (patientInScope ids x) eqn:Hs.
    + intros _. rewrite (patientInScope_addPatientLink _ _ _ _ Hs).
      eexists. split; [done|]. rewrite addPatientLink_id. by apply String.eqb_eq.
    + intros H. destruct (patientInScope ids (addPatientLink pid oid x)); [|by apply IH].
      eexists. split; [done|]. rewrite addPatientLink_id. by apply String.eqb_eq.
  - apply IH.
Qed.

(** An assignment [POST /fhir/Patient/:id/assign-organization] reports as
    done was made by a context that holds the target organization; nothing
    is asked about the caller's access to the patient.  From then on every
    context that holds the target organization reads the patient, and who
    could read a patient before still can. *)
Theorem assigned_patient_is_shared (user : User) (pid oid : string) (db db' : Prisma)
    (st : nat) (msg : string) :
  assignOrganization (Some user) pid oid db = (db', PatientInformation st msg) ->
  st = 201%nat /\ oid ∈ organizationIds user /\
  (forall reader,
      oid ∈ organizationIds reader ->
      exists p, getPatient (Some reader) pid db' = PatientSent 200 p /\
                patient_id p = pid /\ (oid, "active") ∈ patient_organizations p) /\
  (forall reader pid' p,
      getPatient (Some reader) pid' db = PatientSent 200 p ->
      exists p', getPatient (Some reader) pid' db' = PatientSent 200 p' /\
                 patient_id p' = pid').
Proof.
  unfold assignOrganization.
  destruct (array_includes (organizationIds user) oid) eqn:Hinc; simpl; [|done].
  destruct (hasPatientLink db pid oid) eqn:Hlink; [done|].
  unfold patientOrganization_create. rewrite ?Hlink.
  destruct (existsb _ (patients db)) eqn:Hex; simpl; [|done].
  destruct (existsb _ (organizations db)); simpl; [|done].
  intros [= <- <- <-]. split; [done|]. split; [by apply array_includes_spec|]. split.
  - intros reader Hr. unfold getPatient, patient_findFirst_inScope. simpl.
    destruct (find_assigned (organizationIds reader) pid oid (patients db) Hex Hr)
      as (p & -> & Hid & Hl).
    by exists p.
  - intros reader pid' p. unfold getPatient, patient_findFirst_inScope. simpl.
    destruct (find _ (patients db)) as [q|] eqn:Hq; [|done]. intros _.
    destruct (find_still_visible _ _ pid oid _ _ Hq) as (p' & -> & Hid).
    by exists p'.
Qed.

(** A context of organization [O1] only, which cannot read patient [p1] of
    [O3], assigns [p1] to [O1] and reads it. *)
Lemma assigned_patient_is_shared_witness :
  getPatient (Some (userContext loadedS ["O1"] (Some "O1"))) "p1" demoDb
    = PatientFailed 404 patientNotFound /\
  exists p,
    getPatient (Some (userContext loadedS ["O1"] (Some "O1"))) "p1"
      (assignOrganization (Some (userContext loadedS ["O1"] (Some "O1"))) "p1" "O1" demoDb).1
    = PatientSent 200 p /\
    patient_id p = "p1" /\ ("O1", "active") ∈ patient_organizations p.
Proof.
  split; [reflexivity|].
  destruct (assigned_patient_is_shared (userContext loadedS ["O1"] (Some "O1")) "p1" "O1"
              demoDb _ 201 "Patient successfully assigned to organization" eq_refl)
    as (_ & Hin & Hread & _).
  exact (Hread _ Hin).
Defined.

(** ** The keys of patients and links *)

Lemma existsb_false_notin {A : Type} (g : A -> string) (x : string) (l : list A) :
  existsb (fun r => String.eqb (g r) x) l = false -> x ∉ map g l.
Proof.
  intros H Hin. apply elem_of_map in Hin as (r & -> & Hr).
  apply not_true_iff_false in H. apply H. apply existsb_exists.
  exists r. split; [by apply list_elem_of_In | apply String.eqb_refl].
Qed.

Lemma patient_create_keys (srv : Server) (db db1 : Prisma) (p : PatientRow) :
  patient_create srv db = Ok (db1, p) ->
  patientKeysUnique db -> patientKeysUnique db1.
Proof.
  unfold patient_create. simpl.
  destruct (existsb _ (patients db)) eqn:Hfresh; [done|].
  intros [= <- <-] [Hids Hlinks]. split; simpl.
  - rewrite map_app. apply NoDup_app. split; [done|]. split.
    + intros x Hx Hin. apply list_elem_of_singleton in Hin as ->.
      by apply (existsb_false_notin _ _ _ Hfresh).
    + apply NoDup_singleton.
  - intros q Hq. apply elem_of_app in Hq as [Hq|Hq]; [by apply Hlinks|].
    apply list_elem_of_singleton in Hq as ->. simpl. apply NoDup_nil_2.
Qed.

Lemma patientOrganization_create_keys (db db' : Prisma) (pid : string) (oid : option string) :
  patientOrganization_create db pid oid = Ok db' ->
  patientKeysUnique db -> patientKeysUnique db'.
Proof.
  unfold patientOrganization_create. destruct oid as [o|]; [|done].
  destruct (negb _); [done|].
  destruct (hasPatientLink db pid o) eqn:Hlink; [done|].
  intros [= <-] [Hids Hlinks]. split; simpl.
  - rewrite List.map_map.
    rewrite (map_ext _ patient_id (fun q => addPatientLink_id pid o q)). done.
  - intros q Hq. apply elem_of_map in Hq as (q0 & -> & Hq0).
    unfold addPatientLink. destruct (String.eqb (patient_id q0) pid) eqn:Hid;
      [|by apply Hlinks].
    simpl. rewrite map_app. apply NoDup_app. split; [by apply Hlinks|]. split.
    + intros x Hx Hin. apply list_elem_of_singleton in Hin. simpl in Hin. subst x.
      revert Hx. apply existsb_false_notin.
      unfold hasPatientLink in Hlink. apply not_true_iff_false in Hlink.
      apply not_true_iff_false. intros He. apply Hlink. apply existsb_exists.
      exists q0. split; [by apply list_elem_of_In|]. by rewrite Hid, He.
    + apply NoDup_singleton.
Qed.

(** The two handlers that write patients keep the keys of the schema: ids
    of patients stay distinct and no patient gets two links to one
    organization, whoever calls them and whatever they reply. *)
Theorem patient_writes_keep_keys_unique (srv : Server) (reqUser : option User)
    (pid oid : string) (db : Prisma) :
  patientKeysUnique db ->
  patientKeysUnique (createPatient srv reqUser db).1 /\
  patientKeysUnique (assignOrganization reqUser pid oid db).1.
Proof.
  intros Hk. split.
  - unfold createPatient. destruct reqUser as [user|]; [|done].
    destruct (patient_create srv db) as [[db1 p]|m] eqn:Hc; [|done].
    pose proof (patient_create_keys _ _ _ _ Hc Hk) as Hk1.
    destruct (patientOrganization_create db1 _ _) as [db2|m] eqn:Hl; [|done].
    simpl. by apply (patientOrganization_create_keys _ _ _ _ Hl).
  - unfold assignOrganization. destruct reqUser as [user|]; [|done].
    destruct (negb _); [done|]. destruct (hasPatientLink db pid oid); [done|].
    destruct (patientOrganization_create db pid (Some oid)) as [db2|m] eqn:Hl; [|done].
    simpl. by apply (patientOrganization_create_keys _ _ _ _ Hl).
Qed.

Lemma demoDb_patientKeysUnique : patientKeysUnique demoDb.
Proof.
  split; simpl.
  - apply NoDup_singleton.
  - intros p Hp. apply list_elem_of_singleton in Hp as ->. simpl. apply NoDup_singleton.
Qed.

Lemma patient_writes_keep_keys_unique_witness :
  patientKeysUnique
    (createPatient demoServer (Some (userContext loadedB ["O3"] (Some "O3"))) demoDb).1 /\
  patientKeysUnique
    (assignOrganization (Some (userContext loadedB ["O3"] (Some "O3"))) "p1" "O3" demoDb).1.
Proof.
  exact (patient_writes_keep_keys_unique demoServer
           (Some (userContext loadedB ["O3"] (Some "O3"))) "p1" "O3" demoDb
           demoDb_patientKeysUnique).
Defined.

(** ** Who updates an organization *)

(** A context the hook attaches updates an organization only as its
    admin: [PUT /fhir/Organization/:id], run with that context as
    [request.user] on a body with a [name] (which the schema of the route
    requires), sends an updated organization only when the authenticated user
    has an active access row for that organization whose role is "admin" or
    "super_admin", or is a super admin without active access and the
    organization is active; the role of the user itself is not asked.  The
    row sent has the requested id, the name of the body and [active] of the
    body ([true] without one). *)
Theorem organization_update_needs_admin_access (srv : Server) (f : Faults)
    (typeError : string) (req : Request) (fault : option string) (oid n : string)
    (act : option bool) (db db' db'' : Prisma) (log : list LogEntry) (ctx : User)
    (st : nat) (o : OrganizationRow) :
  preHandler srv f req db = (db', log, Attached ctx) ->
  updateOrganization typeError (Some ctx) fault oid (Some n) act db'
    = (db'', OrganizationSent st o) ->
  (exists user,
      loadedUser srv f req db = Some user /\
      ((exists a, a ∈ userOrganizationAccess db /\
                  access_userId a = user_id (row user) /\ access_status a = "active" /\
                  access_organizationId a = oid /\
                  (access_role a = "admin" \/ access_role a = "super_admin"))
       \/ healedScope db user oid)) /\
  st = 200%nat /\
  organization_id o = oid /\
  organization_name o = n /\
  organization_active o = default true act.
Proof.
  intros Hp. unfold updateOrganization.
  destruct (hasAdminAccess ctx oid) eqn:Hadm; simpl; [|done].
  destruct (call fault _) as [[db2 o2]|m] eqn:Hcall; [|done].
  intros [= <- <- <-]. split.
  - apply preHandler_attached in Hp as (user & Hl & ->).
    exists user. split; [done|].
    unfold hasAdminAccess in Hadm. simpl in Hadm.
    apply existsb_exists in Hadm as (a & Hin & Hc).
    apply andb_true_iff in Hc as [Hoid Hrole].
    apply String.eqb_eq in Hoid.
    assert (uoa_role a = "admin" \/ uoa_role a = "super_admin") as Hrole'.
    { apply orb_true_iff in Hrole as [Hrole|Hrole]; [left; by apply String.eqb_eq|].
      apply orb_true_iff in Hrole as [Hrole|Hrole]; [right; by apply String.eqb_eq | done]. }
    clear Hrole. apply list_elem_of_In in Hin.
    destruct (healed_cases srv f db user) as [[_ Hu]|(Hr & Ha & _ & Hacc)].
    + left. rewrite Hu in Hin.
      apply (loaded_access_elem _ _ _ _ _ a Hl) in Hin as (r & Hr & Huid & Hst & ->).
      exists r. simpl in *. by repeat split.
    + right. rewrite Hacc in Hin. apply elem_of_map in Hin as (org & -> & Hin).
      simpl in Hoid. apply list_elem_of_filter in Hin as [Hact Hin].
      repeat split; try done. by exists org.
  - unfold call in Hcall. destruct fault; [done|].
    unfold organization_update in Hcall.
    destruct (find _ (organizations db')) as [o0|] eqn:Hf; [|done].
    injection Hcall as <- <-.
    apply find_some in Hf as [_ Hid]. unfold setOrganization. rewrite Hid. simpl.
    apply String.eqb_eq in Hid. repeat split; try done. by destruct n.
Qed.

(** Org admin [B], whose access row of [O3] has the role "admin", renames
    [O3]. *)
Lemma organization_update_needs_admin_access_witness :
  organization_name (mkOrganization "O3" true) <> "Clinic Three" /\
  exists user,
    loadedUser demoServer noFaults (mkRequest "/fhir/Organization/O3" (Some "B") None) demoDb
      = Some user /\
    ((exists a, a ∈ userOrganizationAccess demoDb /\
                access_userId a = user_id (row user) /\ access_status a = "active" /\
                access_organizationId a = "O3" /\
                (access_role a = "admin" \/ access_role a = "super_admin"))
     \/ healedScope demoDb user "O3").
Proof.
  split; [discriminate|].
  assert (preHandler demoServer noFaults (mkRequest "/fhir/Organization/O3" (Some "B") None)
            demoDb
          = (demoDb,
             (preHandler demoServer noFaults
                (mkRequest "/fhir/Organization/O3" (Some "B") None) demoDb).1.2,
             Attached contextB)) as Hp by (vm_compute; reflexivity).
  assert (updateOrganization "" (Some contextB) None "O3" (Some "Clinic Three") None demoDb
          = ((updateOrganization "" (Some contextB) None "O3" (Some "Clinic Three") None
                demoDb).1,
             OrganizationSent 200
               {| organization_id := "O3"; organization_name := "Clinic Three";
                  organization_active := true |})) as Hu by (vm_compute; reflexivity).
  pose proof (organization_update_needs_admin_access demoServer noFaults ""
                (mkRequest "/fhir/Organization/O3" (Some "B") None) None "O3"
                "Clinic Three" None demoDb demoDb _ _ contextB 200 _ Hp Hu) as (H & _).
  exact H.
Defined.

(** ** Practitioner search *)

Lemma someActiveLink_spec (o : string) (links : list (string * string)) :
  someActiveLink (Some o) links = true <-> (o, "active") ∈ links.
Proof.
  unfold someActiveLink. rewrite existsb_exists. split.
  - intros ([x st] & Hin & Hc). simpl in Hc. apply andb_true_iff in Hc as [Hx Hst].
    apply String.eqb_eq in Hx as ->. apply String.eqb_eq in Hst as ->.
    by apply list_elem_of_In.
  - intros Hin. exists (o, "active"). split; [by apply list_elem_of_In|].
    simpl. by rewrite String.eqb_refl.
Qed.

Lemma someActiveLinkIn_spec (ids : list string) (links : list (string * string)) :
  someActiveLinkIn ids links = true <-> exists o, o ∈ ids /\ (o, "active") ∈ links.
Proof.
  unfold someActiveLinkIn. rewrite existsb_exists. split.
  - intros ([x st] & Hin & Hc). simpl in Hc. apply andb_true_iff in Hc as [Hx Hst].
    apply String.eqb_eq in Hst as ->. exists x. split.
    + by apply array_includes_spec.
    + by apply list_elem_of_In.
  - intros (o & Ho & Hin). exists (o, "active"). split; [by apply list_elem_of_In|].
    simpl. apply andb_true_iff. split; [by apply array_includes_spec | done].
Qed.

Lemma find_none_elem {A : Type} (g : A -> bool) (l : list A) :
  (forall x, x ∈ l -> g x = false) -> find g l = None.
Proof.
  induction l as [|x l IH]; intros H; simpl; [done|].
  rewrite (H x); [|left]. apply IH. intros y Hy. apply H. by right.
Qed.

Lemma NoDup_map_eq {A : Type} (g : A -> string) (l : list A) (x y : A) :
  NoDup (map g l) -> x ∈ l -> y ∈ l -> g x = g y -> x = y.
Proof.
  induction l as [|z l IH]; simpl; intros Hnd Hx Hy Heq; [by apply elem_of_nil in Hx|].
  apply NoDup_cons in Hnd as [Hz Hnd].
  apply elem_of_cons in Hx as [->|Hx]; apply elem_of_cons in Hy as [->|Hy]; try done.
  - destruct Hz. rewrite Heq. apply elem_of_map. by exists y.
  - destruct Hz. rewrite <- Heq. apply elem_of_map. by exists x.
  - by apply IH.
Qed.

(** The practitioner search trusts its [organization] parameter: run with
    any context as [request.user], the handler sends the practitioners with an
    active link to the organization the query names, whether or not that
    organization is among the [organizationIds] of the context.  A
    practitioner whose organizations are all outside these, and whom
    [GET /fhir/Practitioner/:id] therefore answers with 404, is listed. *)
Theorem practitioner_search_ignores_membership (user : User) (o : string)
    (p : PractitionerRow) (db : Database) :
  o <> "" ->
  p ∈ practitioners db ->
  (o, "active") ∈ practitioner_organizations p ->
  NoDup (map practitioner_id (practitioners db)) ->
  (forall link, link ∈ practitioner_organizations p -> fst link ∉ organizationIds user) ->
  getPractitioner (Some user) (practitioner_id p) db
    = Failed 404 (createOperationOutcome "error" "not-found" "Practitioner not found") /\
  exists entries,
    searchPractitioners (Some user) (Some o) None None db = SentBundle "searchset" entries /\
    p ∈ entries /\
    forall q, q ∈ entries <->
              q ∈ practitioners db /\ (o, "active") ∈ practitioner_organizations q.
Proof.
  intros Hne Hp Hlink Hnd Hout. split.
  - unfold getPractitioner. rewrite find_none_elem; [done|].
    intros q Hq. apply andb_false_iff.
    destruct (String.eqb (practitioner_id q) (practitioner_id p)) eqn:Hid; [right | by left].
    apply String.eqb_eq in Hid.
    assert (q = p) as -> by (by apply (NoDup_map_eq practitioner_id (practitioners db))).
    apply not_true_iff_false. intros Hs.
    apply someActiveLinkIn_spec in Hs as (x & Hx & Hin). by apply (Hout _ Hin).
  - unfold searchPractitioners.
    unfold js_or. rewrite (truthy_Some_ne o Hne). simpl.
    eexists. split; [reflexivity|].
    assert (forall q, q ∈ filter (fun q => someActiveLink (Some o)
                                             (practitioner_organizations q) = true)
                            (practitioners db) <->
                      q ∈ practitioners db /\ (o, "active") ∈ practitioner_organizations q)
      as Hiff.
    { intros q. rewrite list_elem_of_filter, someActiveLink_spec. tauto. }
    split; [by apply Hiff | exact Hiff].
Qed.

(** The context of org admin [B], member of [O3] only, lists the
    practitioners of [O1]. *)
Lemma practitioner_search_ignores_membership_witness :
  getPractitioner (Some contextB) "d1" demoDatabase
    = Failed 404 (createOperationOutcome "error" "not-found" "Practitioner not found") /\
  exists entries,
    searchPractitioners (Some contextB) (Some "O1") None None demoDatabase
      = SentBundle "searchset" entries /\
    {| practitioner_id := "d1"; practitioner_organizations := [("O1", "active")] |} ∈ entries.
Proof.
  assert ("O1" <> "") as Hne by discriminate.
  assert ({| practitioner_id := "d1"; practitioner_organizations := [("O1", "active")] |}
          ∈ practitioners demoDatabase) as Hp by (simpl; left).
  assert (("O1", "active") ∈ [("O1", "active")]) as Hlink by left.
  assert (NoDup (map practitioner_id (practitioners demoDatabase))) as Hnd by compute_done.
  assert (forall link, link ∈ [("O1", "active")] -> fst link ∉ organizationIds contextB)
    as Hout.
  { intros link Hin Hm. apply list_elem_of_singleton in Hin as ->.
    simpl in Hm. apply list_elem_of_singleton in Hm. discriminate. }
  pose proof (practitioner_search_ignores_membership contextB "O1"
                {| practitioner_id := "d1"; practitioner_organizations := [("O1", "active")] |}
                demoDatabase Hne Hp Hlink Hnd Hout) as (H404 & entries & Hs & Hin & _).
  split; [exact H404|]. by exists entries.
Defined.

(** An authenticated user without any organization (no active access row,
    no super admin, no header, no primary organization) gets from the hook a
    context with empty [organizationIds] and no current organization.  Run
    with it as [request.user] and without [organization] parameter, the
    practitioner search has no condition on the organization left in its
    query: it sends every practitioner that has an active link to any
    organization. *)
Theorem practitioner_search_without_organization (srv : Server) (f : Faults)
    (req : Request) (db : Database) (user : LoadedUser) :
  loadedUser srv f req (core db) = Some user ->
  loaded_access user = [] ->
  user_role (row user) <> "super_admin" ->
  truthy (x_organization_id req) = false ->
  truthy (user_primaryOrganizationId (row user)) = false ->
  exists log ctx entries,
    preHandler srv f req (core db) = (core db, log, Attached ctx) /\
    organizationIds ctx = [] /\
    searchPractitioners (Some ctx) None None None db = SentBundle "searchset" entries /\
    forall q, q ∈ entries <->
              q ∈ practitioners db /\
              exists o, (o, "active") ∈ practitioner_organizations q.
Proof.
  intros Hl Hacc Hrole Hh Hprim.
  destruct (preHandler_loaded _ _ _ _ _ Hl) as [lg Hp].
  rewrite (selfHeal_skipped srv f (core db) user (or_intror Hrole)) in Hp. simpl in Hp.
  rewrite Hacc in Hp. simpl in Hp. rewrite validate_empty_scope in Hp.
  unfold js_or in Hp. rewrite Hh, Hprim in Hp.
  exists lg, (userContext user [] None). eexists.
  split; [exact Hp|]. split; [done|]. split; [reflexivity|].
  intros q. rewrite list_elem_of_filter.
  unfold someActiveLink. rewrite existsb_exists. split.
  - intros [([o st] & Hin & Hst) Hq]. split; [done|]. simpl in Hst.
    apply String.eqb_eq in Hst as ->. exists o. by apply list_elem_of_In.
  - intros [Hq (o & Hin)]. split; [|done]. exists (o, "active").
    split; [by apply list_elem_of_In | done].
Qed.

(** Staff [S], who belongs to no organization, lists [d1] and [d3]. *)
Lemma practitioner_search_without_organization_witness :
  exists log ctx entries,
    preHandler demoServer noFaults (mkRequest "/fhir/Practitioner" (Some "S") None)
      (core demoDatabase) = (core demoDatabase, log, Attached ctx) /\
    organizationIds ctx = [] /\
    searchPractitioners (Some ctx) None None None demoDatabase
      = SentBundle "searchset" entries /\
    forall q, q ∈ entries <->
              q ∈ practitioners demoDatabase /\
              exists o, (o, "active") ∈ practitioner_organizations q.
Proof.
  assert (loadedUser demoServer noFaults (mkRequest "/fhir/Practitioner" (Some "S") None)
            (core demoDatabase) = Some loadedS) as Hl by (vm_compute; reflexivity).
  assert (user_role (row loadedS) <> "super_admin") as Hrole by discriminate.
  exact (practitioner_search_without_organization demoServer noFaults
           (mkRequest "/fhir/Practitioner" (Some "S") None) demoDatabase loadedS
           Hl eq_refl Hrole eq_refl eq_refl).
Defined.

(** ** Appointments *)

Lemma find_appointment_fresh (aid : string) (ids : list string) (l : list AppointmentRow)
    (a : AppointmentRow) :
  existsb (fun r => String.eqb (appointment_id r) aid) l = false ->
  find (fun r => String.eqb (appointment_id r) aid
                 && array_includes ids (appointment_organizationId r)) (l ++ [a])
  = if String.eqb (appointment_id a) aid && array_includes ids (appointment_organizationId a)
    then Some a else None.
Proof.
  induction l as [|x l IH]; simpl; [done|]. intros H.
  apply orb_false_iff in H as [Hx Hl]. rewrite Hx. simpl. by apply IH.
Qed.

(** What a created appointment is. *)
Lemma createAppointment_Sent (srv : Server) (user : User)
    (status patientId practitionerId : option string) (db db' : Database) (st : nat)
    (a : AppointmentRow) :
  createAppointment srv (Some user) status patientId practitionerId db = (db', Sent st a) ->
  st = 201%nat /\
  currentOrganizationId user = Some (appointment_organizationId a) /\
  status = Some (appointment_status a) /\
  patientId = Some (appointment_patientId a) /\
  practitionerId = Some (appointment_practitionerId a) /\
  appointment_id a = cuid srv (length (appointments db)) /\
  existsb (fun r => String.eqb (appointment_id r) (appointment_id a)) (appointments db) = false /\
  db' = {| core := core db; practitioners := practitioners db;
           appointments := appointments db ++ [a] |} /\
  appointmentLinked db a.
Proof.
  unfold createAppointment.
  destruct (find _ (patients (core db))) as [p|] eqn:Hp; [|done].
  destruct (find _ (practitioners db)) as [q|] eqn:Hq; [|done].
  unfold appointment_create.
  destruct status as [s|]; [|done]. destruct patientId as [pat|]; [|done].
  destruct practitionerId as [pra|]; [|done].
  destruct (currentOrganizationId user) as [o|]; [|done]. simpl.
  destruct (existsb _ (appointments db)) eqn:Hfresh; [done|].
  destruct (negb _); [done|].
  intros [= <- <- <-]. simpl. repeat split; try done.
  - apply find_some in Hp as [Hin Hc]. apply andb_true_iff in Hc as [Hid Hl].
    simpl in Hid. apply String.eqb_eq in Hid. apply someActiveLink_spec in Hl.
    exists p. repeat split; try done. by apply list_elem_of_In.
  - apply find_some in Hq as [Hin Hc]. apply andb_true_iff in Hc as [Hid Hl].
    simpl in Hid. apply String.eqb_eq in Hid. apply someActiveLink_spec in Hl.
    exists q. repeat split; try done. by apply list_elem_of_In.
Qed.

(** An appointment [POST /fhir/Appointment] reports as created is stored for
    the current organization of the creating context, with the patient, the
    practitioner and the status of the body, and [GET /fhir/Appointment/:id]
    sends it to exactly the contexts whose [organizationIds] hold that
    organization: 404 for all others. *)
Theorem created_appointment_is_readable (srv : Server) (user : User)
    (status patientId practitionerId : option string) (db db' : Database) (st : nat)
    (a : AppointmentRow) :
  createAppointment srv (Some user) status patientId practitionerId db = (db', Sent st a) ->
  st = 201%nat /\
  currentOrganizationId user = Some (appointment_organizationId a) /\
  status = Some (appointment_status a) /\
  patientId = Some (appointment_patientId a) /\
  practitionerId = Some (appointment_practitionerId a) /\
  appointments db' = appointments db ++ [a] /\
  forall reader,
    getAppointment (Some reader) (appointment_id a) db'
    = if array_includes (organizationIds reader) (appointment_organizationId a)
      then Sent 200 a
      else Failed 404 appointmentNotFound.
Proof.
  intros H.
  apply createAppointment_Sent in H as (-> & Hcur & Hst & Hpat & Hpra & _ & Hfresh & -> & _).
  repeat split; try done.
  intros reader. unfold getAppointment, appointment_findFirst_inScope. simpl.
  rewrite (find_appointment_fresh _ _ _ _ Hfresh), String.eqb_refl. simpl.
  by destruct (array_includes _ _).
Qed.

(** Org admin [B] books patient [p1] with practitioner [d3] at [O3] and
    reads the appointment; a context of [O1] only gets 404. *)
Lemma created_appointment_is_readable_witness :
  getAppointment (Some contextB) "c1"
    (createAppointment demoServer (Some contextB) (Some "booked") (Some "p1") (Some "d3")
       demoDatabase).1
  = Sent 200 {| appointment_id := "c1"; appointment_status := "booked";
                appointment_patientId := "p1"; appointment_practitionerId := "d3";
                appointment_organizationId := "O3" |} /\
  getAppointment (Some (userContext loadedS ["O1"] (Some "O1"))) "c1"
    (createAppointment demoServer (Some contextB) (Some "booked") (Some "p1") (Some "d3")
       demoDatabase).1
  = Failed 404 appointmentNotFound.
Proof.
  assert (createAppointment demoServer (Some contextB) (Some "booked") (Some "p1") (Some "d3")
            demoDatabase
          = ((createAppointment demoServer (Some contextB) (Some "booked") (Some "p1")
                (Some "d3") demoDatabase).1,
             Sent 201 {| appointment_id := "c1"; appointment_status := "booked";
                         appointment_patientId := "p1"; appointment_practitionerId := "d3";
                         appointment_organizationId := "O3" |})) as Hc
    by (vm_compute; reflexivity).
  pose proof (created_appointment_is_readable demoServer contextB (Some "booked") (Some "p1")
                (Some "d3") demoDatabase _ 201 _ Hc) as (_ & _ & _ & _ & _ & _ & Hread).
  split.
  - exact (Hread contextB).
  - exact (Hread (userContext loadedS ["O1"] (Some "O1"))).
Defined.

Lemma setStatus_fields (aid : string) (status : option string) (a : AppointmentRow) :
  appointment_id (setStatus aid status a) = appointment_id a /\
  appointment_patientId (setStatus aid status a) = appointment_patientId a /\
  appointment_practitionerId (setStatus aid status a) = appointment_practitionerId a /\
  appointment_organizationId (setStatus aid status a) = appointment_organizationId a.
Proof. unfold setStatus. by destruct (String.eqb _ _). Qed.

Lemma appointmentLinked_setStatus (db : Database) (aid : string) (status : option string)
    (a : AppointmentRow) :
  appointmentLinked db a ->
  appointmentLinked (appointment_update db aid status) (setStatus aid status a).
Proof.
  unfold appointmentLinked.
  destruct (setStatus_fields aid status a) as (_ & -> & -> & ->). done.
Qed.

(** Every appointment is between a patient and a practitioner that have an
    active link to the organization of the appointment: the three handlers
    that write appointments keep this, whoever calls them and whatever they
    reply. *)
Theorem appointments_stay_linked (srv : Server) (reqUser : option User)
    (status patientId practitionerId : option string) (aid : string) (db : Database) :
  (forall a, a ∈ appointments db -> appointmentLinked db a) ->
  (forall a,
      a ∈ appointments (createAppointment srv reqUser status patientId practitionerId db).1 ->
      appointmentLinked (createAppointment srv reqUser status patientId practitionerId db).1 a)
  /\ (forall a,
         a ∈ appointments (updateAppointment reqUser aid status db).1 ->
         appointmentLinked (updateAppointment reqUser aid status db).1 a)
  /\ (forall a,
         a ∈ appointments (cancelAppointment reqUser aid db).1 ->
         appointmentLinked (cancelAppointment reqUser aid db).1 a).
Proof.
  intros Hinv.
  assert (forall st a, a ∈ appointments (appointment_update db aid st) ->
                       appointmentLinked (appointment_update db aid st) a) as Hupd.
  { intros st a Ha. simpl in Ha. apply elem_of_map in Ha as (a0 & -> & Ha0).
    by apply appointmentLinked_setStatus, Hinv. }
  destruct reqUser as [user|]; [|split; [|split]; exact Hinv].
  split; [|split].
  - destruct (createAppointment srv (Some user) status patientId practitionerId db)
      as [db' r] eqn:Hc.
    destruct r as [st a0| | |]; simpl.
    + apply createAppointment_Sent in Hc as (_ & _ & _ & _ & _ & _ & _ & -> & Hl).
      simpl. intros a Ha. apply elem_of_app in Ha as [Ha|Ha].
      * by apply (Hinv a).
      * apply list_elem_of_singleton in Ha as ->. exact Hl.
    + unfold createAppointment in Hc.
      destruct (find _ (patients (core db))); [|done].
      destruct (find _ (practitioners db)); [|done].
      by destruct (appointment_create _ _ _ _ _ _) as [[? ?]|].
    + unfold createAppointment in Hc.
      destruct (find _ (patients (core db))); [|done].
      destruct (find _ (practitioners db)); [|done].
      by destruct (appointment_create _ _ _ _ _ _) as [[? ?]|].
    + assert (db' = db) as ->; [|done].
      unfold createAppointment in Hc.
      destruct (find _ (patients (core db))); [|congruence].
      destruct (find _ (practitioners db)); [|congruence].
      destruct (appointment_create _ _ _ _ _ _) as [[? ?]|]; congruence.
  - unfold updateAppointment.
    destruct (appointment_findFirst_inScope db aid (organizationIds user)); [|done].
    simpl. apply Hupd.
  - unfold cancelAppointment.
    destruct (appointment_findFirst_inScope db aid (organizationIds user)); [|done].
    simpl. apply Hupd.
Qed.

Lemma demoDatabase_linked :
  forall a, a ∈ appointments demoDatabase -> appointmentLinked demoDatabase a.
Proof.
  intros a Ha. apply list_elem_of_singleton in Ha as ->. split.
  - exists {| patient_id := "p1"; patient_organizations := [("O3", "active")] |}.
    repeat split; simpl; left.
  - exists {| practitioner_id := "d3"; practitioner_organizations := [("O3", "active")] |}.
    repeat split; simpl; [right; left | left].
Qed.

(** Appointment [a1], once cancelled by [B], is still between a patient and
    a practitioner of [O3]. *)
Lemma appointments_stay_linked_witness :
  appointmentLinked (cancelAppointment (Some contextB) "a1" demoDatabase).1
    (cancelled {| appointment_id := "a1"; appointment_status := "booked";
                  appointment_patientId := "p1"; appointment_practitionerId := "d3";
                  appointment_organizationId := "O3" |}).
Proof.
  pose proof (appointments_stay_linked demoServer (Some contextB) None None None "a1"
                demoDatabase demoDatabase_linked) as (_ & _ & H).
  apply H. simpl. left.
Defined.

Lemma find_setStatus (aid aid' : string) (status : option string) (ids : list string)
    (l : list AppointmentRow) (a : AppointmentRow) :
  find (fun r => String.eqb (appointment_id r) aid'
                 && array_includes ids (appointment_organizationId r)) l = Some a ->
  find (fun r => String.eqb (appointment_id r) aid'
                 && array_includes ids (appointment_organizationId r))
    (map (setStatus aid status) l) = Some (setStatus aid status a).
Proof.
  induction l as [|x l IH]; simpl; [done|].
  destruct (setStatus_fields aid status x) as (-> & _ & _ & ->).
  destruct (_ && _); [by intros [= ->] | exact IH].
Qed.

(** [DELETE /fhir/Appointment/:id] deletes nothing: after its 204 the
    appointment is still stored, with the status "cancelled" and otherwise
    as it was; the same context still reads it by its id and finds it with
    a search for the status "cancelled", and a second DELETE is answered
    with 204 again. *)
Theorem cancelled_appointment_stays_readable (user : User) (aid : string)
    (db db' : Database) (st : nat) :
  cancelAppointment (Some user) aid db = (db', NoContent st) ->
  st = 204%nat /\
  length (appointments db') = length (appointments db) /\
  (exists a,
      getAppointment (Some user) aid db = Sent 200 a /\
      appointment_id a = aid /\
      getAppointment (Some user) aid db' = Sent 200 (cancelled a) /\
      forall startsOn, exists entries,
        searchAppointments startsOn (Some user) None None None (Some "cancelled") db'
          = SentBundle "searchset" entries /\
        cancelled a ∈ entries) /\
  (cancelAppointment (Some user) aid db').2 = NoContent 204.
Proof.
  unfold cancelAppointment, getAppointment.
  destruct (appointment_findFirst_inScope db aid (organizationIds user)) as [a|] eqn:Hf;
    [|done].
  intros [= <- <-]. split; [done|]. split; [by simpl; rewrite length_map|].
  unfold appointment_findFirst_inScope in *. simpl.
  rewrite (find_setStatus aid aid (Some "cancelled") _ _ _ Hf).
  split; [|done]. exists a.
  apply find_some in Hf as [Hin Hc]. apply andb_true_iff in Hc as [Hid Hscope].
  assert (setStatus aid (Some "cancelled") a = cancelled a) as Hset.
  { unfold setStatus, cancelled. by rewrite Hid. }
  apply String.eqb_eq in Hid. rewrite Hset.
  split; [done|]. split; [done|]. split; [done|].
  intros startsOn. eexists. split; [reflexivity|].
  apply list_elem_of_filter. split.
  - simpl. by rewrite Hscope.
  - rewrite <- Hset. apply elem_of_map. exists a. split; [done|]. by apply list_elem_of_In.
Qed.

Lemma cancelled_appointment_stays_readable_witness :
  getAppointment (Some contextB) "a1" (cancelAppointment (Some contextB) "a1" demoDatabase).1
  = Sent 200 (cancelled {| appointment_id := "a1"; appointment_status := "booked";
                           appointment_patientId := "p1"; appointment_practitionerId := "d3";
                           appointment_organizationId := "O3" |}).
Proof.
  assert (cancelAppointment (Some contextB) "a1" demoDatabase
          = ((cancelAppointment (Some contextB) "a1" demoDatabase).1, NoContent 204)) as Hc
    by (vm_compute; reflexivity).
  pose proof (cancelled_appointment_stays_readable contextB "a1" demoDatabase _ 204 Hc)
    as (_ & _ & (a & Hbefore & _ & Hafter & _) & _).
  assert (a = {| appointment_id := "a1"; appointment_status := "booked";
                 appointment_patientId := "p1"; appointment_practitionerId := "d3";
                 appointment_organizationId := "O3" |}) as ->.
  { vm_compute in Hbefore. by injection Hbefore as <-. }
  exact Hafter.
Defined.

(** Writes stay inside the caller's organizations: with distinct ids, an
    appointment of an organization outside the [organizationIds] of the
    calling context is left as it is by [PUT] and [DELETE
    /fhir/Appointment/:id], whatever id they name. *)
Theorem appointment_writes_stay_in_scope (user : User) (aid : string)
    (status : option string) (db : Database) (a : AppointmentRow) :
  NoDup (map appointment_id (appointments db)) ->
  a ∈ appointments db ->
  appointment_organizationId a ∉ organizationIds user ->
  a ∈ appointments (updateAppointment (Some user) aid status db).1 /\
  a ∈ appointments (cancelAppointment (Some user) aid db).1.
Proof.
  intros Hnd Ha Hout.
  assert (forall st b,
             appointment_findFirst_inScope db aid (organizationIds user) = Some b ->
             a ∈ appointments (appointment_update db aid st)) as Hkeep.
  { intros st b Hf. simpl. apply elem_of_map. exists a. split; [|done].
    unfold setStatus. destruct (String.eqb (appointment_id a) aid) eqn:Hid; [|done].
    apply find_some in Hf as [Hb Hc]. apply andb_true_iff in Hc as [Hbid Hin].
    apply String.eqb_eq in Hid, Hbid. apply array_includes_spec in Hin.
    apply list_elem_of_In in Hb.
    assert (a = b) as ->
      by (apply (NoDup_map_eq appointment_id (appointments db)); congruence).
    done. }
  unfold updateAppointment, cancelAppointment.
  destruct (appointment_findFirst_inScope db aid (organizationIds user)) as [b|] eqn:Hf;
    [|done].
  split; simpl; by apply (Hkeep _ b).
Qed.

(** A context of [O1] only cannot cancel appointment [a1] of [O3]. *)
Lemma appointment_writes_stay_in_scope_witness :
  {| appointment_id := "a1"; appointment_status := "booked";
     appointment_patientId := "p1"; appointment_practitionerId := "d3";
     appointment_organizationId := "O3" |}
  ∈ appointments
      (cancelAppointment (Some (userContext loadedS ["O1"] (Some "O1"))) "a1" demoDatabase).1.
Proof.
  assert (NoDup (map appointment_id (appointments demoDatabase))) as Hnd by compute_done.
  assert ({| appointment_id := "a1"; appointment_status := "booked";
             appointment_patientId := "p1"; appointment_practitionerId := "d3";
             appointment_organizationId := "O3" |} ∈ appointments demoDatabase) as Ha
    by (simpl; left).
  assert ("O3" ∉ organizationIds (userContext loadedS ["O1"] (Some "O1"))) as Hout.
  { simpl. intros H. apply list_elem_of_singleton in H. discriminate. }
  pose proof (appointment_writes_stay_in_scope (userContext loadedS ["O1"] (Some "O1")) "a1"
                None demoDatabase _ Hnd Ha Hout) as [_ H].
  exact H.
Defined.

(** ** A new organization *)

(** [POST /fhir/Organization] gives the creator no access row.  After a
    successful creation the new organization is in nobody's scope: every
    identity that has an active membership, or that is no super admin, and
    gets a context, is refused with 403 when it reads the new organization
    and when it updates it.  (Only the self-heal of a super admin without
    active access, or a registration for it, reaches it.) *)
Theorem created_organization_has_no_member (srv : Server) (typeError : string)
    (user : User) (fault : option string) (name : option string) (act : option bool)
    (db db' : Prisma) (st : nat) (o : OrganizationRow) :
  createOrganization srv typeError (Some user) fault name act db
    = (db', OrganizationSent st o) ->
  accessRefersToOrganizations db ->
  st = 201%nat /\ role user = "super_admin" /\
  organizations db' = organizations db ++ [o] /\
  userOrganizationAccess db' = userOrganizationAccess db /\
  forall f req user2 ctx fault2 name2 act2,
    loadedUser srv f req db' = Some user2 ->
    loaded_access user2 <> [] \/ user_role (row user2) <> "super_admin" ->
    (preHandler srv f req db').2 = Attached ctx ->
    getOrganization typeError (Some ctx) (organization_id o) db'
      = OrganizationFailed 403
          (createOperationOutcome "error" "forbidden" "No access to specified organization") /\
    updateOrganization typeError (Some ctx) fault2 (organization_id o) name2 act2 db'
      = (db', OrganizationFailed 403 insufficientPermissions).
Proof.
  unfold createOrganization.
  destruct (String.eqb (role user) "super_admin") eqn:Hrole; simpl; [|done].
  apply String.eqb_eq in Hrole.
  destruct (call fault _) as [[db1 o1]|m] eqn:Hcall; [|done].
  intros [= <- <- <-] Hfk.
  unfold call in Hcall. destruct fault; [done|].
  unfold organization_create in Hcall. simpl in Hcall.
  destruct (existsb _ (organizations db)) eqn:Hfresh; [done|].
  injection Hcall as <- <-. simpl.
  split; [done|]. split; [done|]. split; [done|]. split; [done|].
  intros f req user2 ctx fault2 name2 act2 Hl Hskip Hctx.
  set (db1 := {| users := users db; userOrganizationAccess := userOrganizationAccess db;
                 organizations := organizations db ++ _; patients := patients db |}) in *.
  set (oid := cuid srv (length (organizations db))) in *.
  destruct (preHandler srv f req db1) as [[db2 lg] out] eqn:Hp. simpl in Hctx. subst out.
  apply preHandler_attached in Hp as (user' & Hl' & ->).
  rewrite Hl in Hl'. injection Hl' as <-.
  rewrite (selfHeal_skipped srv f db1 user2 Hskip). simpl.
  assert (forall x, x ∈ loaded_access user2 -> uoa_organizationId x <> oid) as Hnot.
  { intros x Hx Heq.
    apply (loaded_access_elem _ _ _ _ _ x Hl) in Hx as (r & Hr & _ & _ & ->).
    simpl in Heq, Hr. specialize (Hfk r Hr). rewrite Heq in Hfk.
    unfold oid in Hfk, Hfresh. rewrite Hfresh in Hfk. discriminate. }
  split.
  - unfold getOrganization. simpl.
    assert (array_includes (map uoa_organizationId (loaded_access user2)) oid = false) as ->;
      [|done].
    apply array_includes_false. intros Hin. apply elem_of_map in Hin as (x & Hx & Hin).
    by destruct (Hnot x Hin).
  - unfold updateOrganization, hasAdminAccess, userContext. cbn [organizationAccess].
    assert (existsb (fun a => String.eqb (uoa_organizationId a) oid
                              && array_includes ["admin"; "super_admin"] (uoa_role a))
              (loaded_access user2) = false) as ->; [|done].
    apply not_true_iff_false. intros He. apply existsb_exists in He as (x & Hx & Hc).
    apply andb_true_iff in Hc as [Hc _]. apply String.eqb_eq in Hc.
    apply list_elem_of_In in Hx. by destruct (Hnot x Hx).
Qed.

Lemma demoDbP_accessRefersToOrganizations : accessRefersToOrganizations demoDbP.
Proof.
  intros a Ha. apply list_elem_of_In in Ha. simpl in Ha.
  destruct Ha as [<-|[<-|[]]]; reflexivity.
Qed.

(** Super admin [P], member of [O2], creates organization [c5] and is then
    refused when reading it. *)
Lemma created_organization_has_no_member_witness :
  getOrganization "" (Some (userContext loadedP ["O2"] (Some "O2"))) "c5"
    (createOrganization demoServer "" (Some (userContext loadedP ["O2"] (Some "O2"))) None
       (Some "New clinic") None demoDbP).1
  = OrganizationFailed 403
      (createOperationOutcome "error" "forbidden" "No access to specified organization").
Proof.
  assert (createOrganization demoServer "" (Some (userContext loadedP ["O2"] (Some "O2")))
            None (Some "New clinic") None demoDbP
          = ((createOrganization demoServer "" (Some (userContext loadedP ["O2"] (Some "O2")))
                None (Some "New clinic") None demoDbP).1,
             OrganizationSent 201
               {| organization_id := "c5"; organization_name := "New clinic";
                  organization_active := true |})) as Hc
    by (vm_compute; reflexivity).
  pose proof (created_organization_has_no_member demoServer ""
                (userContext loadedP ["O2"] (Some "O2")) None (Some "New clinic") None
                demoDbP _ 201 _ Hc demoDbP_accessRefersToOrganizations)
    as (_ & _ & _ & _ & Hrefused).
  assert (exists user2,
             loadedUser demoServer noFaults (mkRequest "/fhir/Organization/c5" (Some "P") None)
               (createOrganization demoServer ""
                  (Some (userContext loadedP ["O2"] (Some "O2"))) None
                  (Some "New clinic") None demoDbP).1 = Some user2 /\
             loaded_access user2 <> []) as (user2 & Hl & Hne).
  { eexists. split; [vm_compute; reflexivity | discriminate]. }
  assert ((preHandler demoServer noFaults (mkRequest "/fhir/Organization/c5" (Some "P") None)
             (createOrganization demoServer ""
                (Some (userContext loadedP ["O2"] (Some "O2"))) None
                (Some "New clinic") None demoDbP).1).2
          = Attached (userContext loadedP ["O2"] (Some "O2"))) as Hctx
    by (vm_compute; reflexivity).
  exact (proj1 (Hrefused noFaults (mkRequest "/fhir/Organization/c5" (Some "P") None) user2
                  (userContext loadedP ["O2"] (Some "O2")) None None None
                  Hl (or_introl Hne) Hctx)).
Defined.
